(** * ScrollContainer: the scroll bar engine of [src/src/ScrollContainer.ts]

    A shallow embedding of the class [ScrollContainer]: the fields of the
    class become a record, every handler becomes a function from the layout
    the browser reports (a [Dom] snapshot) and the current [State] to the
    next [State].  Style writes, scroll requests, animation frame requests
    and calls into the inner content container are kept in the state, in
    the order the code issues them. *)

From Stdlib Require Import ZArith QArith Qfield Lia Lqa String List.
From stdpp Require Import gmap strings.

Local Open Scope Z_scope.

Set Warnings "-clear-no-such-hyp".

(** ** JavaScript numbers

    A [number] is modelled exactly: a rational or one of the three
    non-finite values.  Rounding and the sign of zero are not modelled:
    the quantities below are integers and finite fractions the DOM
    reports, and sums, products and quotients of them. *)
Module Num.

Inductive num : Type :=
| Fin (q : Q)
| PosInf
| NegInf
| NaN.

Definition ofZ (z : Z) : num := Fin (inject_Z z).

Local Open Scope Q_scope.

Definition isFinite (x : num) : bool :=
  match x with Fin _ => true | _ => false end.

Definition neg (x : num) : num :=
  match x with
  | Fin a => Fin (- a)
  | PosInf => NegInf
  | NegInf => PosInf
  | NaN => NaN
  end.

Definition add (x y : num) : num :=
  match x, y with
  | NaN, _ | _, NaN => NaN
  | Fin a, Fin b => Fin (a + b)
  | PosInf, NegInf | NegInf, PosInf => NaN
  | PosInf, _ | _, PosInf => PosInf
  | NegInf, _ | _, NegInf => NegInf
  end.

Definition sub (x y : num) : num := add x (neg y).

(** The sign of a number: [Lt], [Eq], [Gt]; [None] for [NaN]. *)
Definition sign (x : num) : option comparison :=
  match x with
  | Fin a => Some (a ?= 0)
  | PosInf => Some Gt
  | NegInf => Some Lt
  | NaN => None
  end.

Definition inf_of (c : comparison) : num :=
  match c with Gt => PosInf | Lt => NegInf | Eq => NaN end.

Definition sign_mul (c d : comparison) : comparison :=
  match c, d with
  | Eq, _ | _, Eq => Eq
  | Gt, Gt | Lt, Lt => Gt
  | _, _ => Lt
  end.

Definition mul (x y : num) : num :=
  match x, y with
  | Fin a, Fin b => Fin (a * b)
  | _, _ =>
      match sign x, sign y with
      | Some c, Some d => inf_of (sign_mul c d)
      | _, _ => NaN
      end
  end.

(** Division: a finite value divided by zero is an infinity of the sign of
    the dividend, [0 / 0] and [inf / inf] are [NaN]. *)
Definition div (x y : num) : num :=
  match x, y with
  | NaN, _ | _, NaN => NaN
  | Fin a, Fin b =>
      match b ?= 0 with
      | Eq => inf_of (a ?= 0)
      | _ => Fin (a / b)
      end
  | Fin _, _ => Fin 0
  | _, Fin b =>
      match sign x, b ?= 0 with
      | Some c, Lt => inf_of (sign_mul c Lt)
      | Some c, _ => inf_of c
      | None, _ => NaN
      end
  | _, _ => NaN
  end.

(** [x < y]; every comparison with [NaN] is false. *)
Definition ltb (x y : num) : bool :=
  match x, y with
  | NaN, _ | _, NaN => false
  | Fin a, Fin b => match a ?= b with Lt => true | _ => false end
  | NegInf, NegInf => false
  | NegInf, _ => true
  | _, PosInf => match x with PosInf => false | _ => true end
  | _, _ => false
  end.

Definition eqb (x y : num) : bool :=
  match x, y with
  | Fin a, Fin b => Qeq_bool a b
  | PosInf, PosInf | NegInf, NegInf => true
  | _, _ => false
  end.

Definition leb (x y : num) : bool := ltb x y || eqb x y.
Definition geb (x y : num) : bool := leb y x.

(** [Math.max] and [Math.min]: [NaN] if an argument is [NaN]. *)
Definition max (x y : num) : num :=
  match x, y with
  | NaN, _ | _, NaN => NaN
  | _, _ => if ltb x y then y else x
  end.

Definition min (x y : num) : num :=
  match x, y with
  | NaN, _ | _, NaN => NaN
  | _, _ => if ltb y x then y else x
  end.

(** [x || d]: [d] when [x] is falsy, that is [0] or [NaN]. *)
Definition orElse (x d : num) : num :=
  match x with
  | Fin a => if Qeq_bool a 0 then d else x
  | NaN => d
  | _ => x
  end.

End Num.

Abbreviation num := Num.num.
Abbreviation Fin := Num.Fin.
Abbreviation ofZ := Num.ofZ.

(** ** The layout the browser reports *)

(** An element of the page, by identity.  A component handed to
    [horizontalAdjustment] or [verticalAdjustment] is identified with the
    element behind its [DOM] property. *)
Definition Elem := positive.

(** [offsetLeft], [offsetTop], [offsetWidth] and [offsetHeight] of an
    element. *)
Record Box : Type := {
  offsetLeft : Z;
  offsetTop : Z;
  offsetWidth : Z;
  offsetHeight : Z
}.

(** What the handlers read from the page: the scrollable surface [_dom_],
    the two tracks and their thumbs, and the box of any other element. *)
Record Dom : Type := {
  clientWidth : Z;
  clientHeight : Z;
  scrollWidth : Z;
  scrollHeight : Z;
  scrollLeft : Q;
  scrollTop : Q;
  domBox : Box;
  hBar : Box;
  hBarThumb : Box;
  vBar : Box;
  vBarThumb : Box;
  elemBox : Elem -> Box
}.

(** ** Values of the class *)

Inductive AdjustmentValue : Type :=
| AdjNumber (n : num)
| AdjComponent (e : Elem).

(** [ScrollbarAdjustment]. *)
Record ScrollbarAdjustment : Type := {
  Offset : AdjustmentValue;
  ReduceSize : AdjustmentValue
}.

Record DOMPoint : Type := { pt_x : num; pt_y : num }.

(** A [DOMRect] is built from [x], [y], [width] and [height]; its edges are
    derived. *)
Record DOMRect : Type := {
  rect_x : num;
  rect_y : num;
  rect_width : num;
  rect_height : num
}.

Definition rect_left (r : DOMRect) : num :=
  Num.min (rect_x r) (Num.add (rect_x r) (rect_width r)).
Definition rect_right (r : DOMRect) : num :=
  Num.max (rect_x r) (Num.add (rect_x r) (rect_width r)).
Definition rect_top (r : DOMRect) : num :=
  Num.min (rect_y r) (Num.add (rect_y r) (rect_height r)).
Definition rect_bottom (r : DOMRect) : num :=
  Num.max (rect_y r) (Num.add (rect_y r) (rect_height r)).

Inductive Thumb : Type := HBarThumb | VBarThumb.

Inductive Target : Type :=
| OnHBar
| OnVBar
| OnThumb (t : Thumb)
| Elsewhere.

Record PointerEvent : Type := {
  target : Target;
  clientX : Q;
  clientY : Q;
  offsetX : Q;
  offsetY : Q;
  pointerId : Z
}.

#[global] Instance Thumb_eq_dec : EqDecision Thumb.
Proof. solve_decision. Defined.

#[global] Instance Target_eq_dec : EqDecision Target.
Proof. solve_decision. Defined.

(** ** What the handlers write *)

Inductive Display : Type :=
| DisplayDefault   (* the empty string *)
| DisplayNone.     (* "none" *)

(** A length written to an inline style: [n + "px"], [n + "%"], the
    template [calc(${n}px - var(--scroll-bar-thumb-gap))], or nothing. *)
Inductive CssLength : Type :=
| Unset
| Px (n : num)
| Percent (n : num)
| CalcPxMinusThumbGap (n : num).

(** The inline styles of the two overlays and the two thumbs. *)
Record Styles : Type := {
  hBarOverlay_display : Display;
  hBarOverlay_left : CssLength;
  hBarOverlay_width : CssLength;
  hBarThumb_width : CssLength;
  hBarThumb_left : CssLength;
  vBarOverlay_display : Display;
  vBarOverlay_top : CssLength;
  vBarOverlay_height : CssLength;
  vBarThumb_height : CssLength;
  vBarThumb_top : CssLength
}.

Inductive Behavior : Type := Smooth | Auto.

Definition Node := positive.

Inductive At : Type :=
| AtIndex (i : Z)
| AtNode (n : Node).

(** The calls forwarded to the inner content container. *)
Inductive ContentCall : Type :=
| CAppend (components : list Node)
| CAppendFragment (fragment : Node)
| CInsert (at_ : At) (components : list Node)
| CInsertFragment (at_ : At) (fragment : Node)
| CRemove (components : list Node)
| CExtract (components : list Node)
| CMoveTo (to : Node) (components : list Node)
| CMoveToAt (to : Node) (at_ : At) (components : list Node).

(** Calls on the page, in the order they are made. *)
Inductive DomCall : Type :=
| ScrollTo (left top : option num)
| ScrollBy (left top : option num) (behavior : Behavior)
| PreventDefault
| AddPointerMoveListener (t : Thumb)
| RemovePointerMoveListener (t : Thumb)
| SetPointerCapture (t : Thumb) (id : Z)
| ReleasePointerCapture (t : Thumb) (id : Z)
| Content (c : ContentCall).

(** Callbacks handed to [requestAnimationFrame]: the body of
    [syncScrollBars] and [rafScroll]. *)
Inductive FrameTask : Type := SyncFrame | RafScroll.

(** Callbacks handed to [setTimeout]. *)
Inductive TimerTask : Type :=
| DragCleanup (id : Z)
| ScrollEndCheck.

(** ** The state of a [ScrollContainer]

    The fields of the class, grouped by the part of the engine that owns
    them. *)

Record Config : Type := {
  _horizontal : bool;
  _vertical : bool;
  _native : bool;
  hAdjustment : option ScrollbarAdjustment;
  vAdjustment : option ScrollbarAdjustment;
  hBarLeftOffset : num;
  hBarReduceWidth : num;
  vBarTopOffset : num;
  vBarReduceHeight : num
}.

Record Drag : Type := {
  dragging : bool;
  dragStart : DOMPoint;
  dragStartElementPos : DOMPoint;
  draggingThumb : option Thumb;
  draggingThumbRect : DOMRect;
  draggingBarRect : DOMRect
}.

Record Press : Type := {
  contScrollStartPos : DOMPoint;
  contScrollHorizontal : bool;
  contScrollBackwards : bool;
  scrollPageLength : num;
  isPointerDown : bool;
  lastScrollPos : DOMPoint
}.

Record Page : Type := {
  classList : gset string;
  adjustmentObserved : gset Elem;
  styles : Styles;
  rafQueue : list FrameTask;
  timers : list TimerTask;
  domCalls : list DomCall
}.

Record State : Type := {
  config : Config;
  drag : Drag;
  press : Press;
  page : Page
}.

(** ** Writing to the state *)

Definition with_config (c : Config) (s : State) : State :=
  {| config := c; drag := drag s; press := press s; page := page s |}.

Definition with_drag (g : Drag) (s : State) : State :=
  {| config := config s; drag := g; press := press s; page := page s |}.

Definition with_press (p : Press) (s : State) : State :=
  {| config := config s; drag := drag s; press := p; page := page s |}.

Definition with_page (p : Page) (s : State) : State :=
  {| config := config s; drag := drag s; press := press s; page := p |}.

Definition with_classList (c : gset string) (s : State) : State :=
  with_page {| classList := c;
               adjustmentObserved := adjustmentObserved (page s);
               styles := styles (page s);
               rafQueue := rafQueue (page s);
               timers := timers (page s);
               domCalls := domCalls (page s) |} s.

Definition with_adjustmentObserved (o : gset Elem) (s : State) : State :=
  with_page {| classList := classList (page s);
               adjustmentObserved := o;
               styles := styles (page s);
               rafQueue := rafQueue (page s);
               timers := timers (page s);
               domCalls := domCalls (page s) |} s.

Definition with_styles (st : Styles) (s : State) : State :=
  with_page {| classList := classList (page s);
               adjustmentObserved := adjustmentObserved (page s);
               styles := st;
               rafQueue := rafQueue (page s);
               timers := timers (page s);
               domCalls := domCalls (page s) |} s.

Definition with_rafQueue (q : list FrameTask) (s : State) : State :=
  with_page {| classList := classList (page s);
               adjustmentObserved := adjustmentObserved (page s);
               styles := styles (page s);
               rafQueue := q;
               timers := timers (page s);
               domCalls := domCalls (page s) |} s.

Definition with_timers (t : list TimerTask) (s : State) : State :=
  with_page {| classList := classList (page s);
               adjustmentObserved := adjustmentObserved (page s);
               styles := styles (page s);
               rafQueue := rafQueue (page s);
               timers := t;
               domCalls := domCalls (page s) |} s.

Definition with_domCalls (c : list DomCall) (s : State) : State :=
  with_page {| classList := classList (page s);
               adjustmentObserved := adjustmentObserved (page s);
               styles := styles (page s);
               rafQueue := rafQueue (page s);
               timers := timers (page s);
               domCalls := c |} s.

Definition addClass (c : string) (s : State) : State :=
  with_classList ({[ c ]} ∪ classList (page s)) s.

Definition removeClass (c : string) (s : State) : State :=
  with_classList (classList (page s) ∖ {[ c ]}) s.

Definition classList_contains (c : string) (s : State) : bool :=
  bool_decide (c ∈ classList (page s)).

Definition requestAnimationFrame (t : FrameTask) (s : State) : State :=
  with_rafQueue (rafQueue (page s) ++ [t]) s.

Definition setTimeout (t : TimerTask) (s : State) : State :=
  with_timers (timers (page s) ++ [t]) s.

Definition call (c : DomCall) (s : State) : State :=
  with_domCalls (domCalls (page s) ++ [c]) s.

(** [ResizeObserver.observe] and [unobserve] of the observer for adjustment
    components: the observed elements form a set. *)
Definition observe (e : Elem) (s : State) : State :=
  with_adjustmentObserved ({[ e ]} ∪ adjustmentObserved (page s)) s.

Definition unobserve (e : Elem) (s : State) : State :=
  with_adjustmentObserved (adjustmentObserved (page s) ∖ {[ e ]}) s.

(** ** [syncScrollBars] *)

(** The constant substituted for a scroll extent of [0]. *)
Definition epsilon : num := Fin (- (1 # 1000000))%Q.

Definition hundred : num := ofZ 100.

(** The horizontal half of the animation frame callback of
    [syncScrollBars]: the styles it writes, the class it toggles, and the
    two locals [hboWidth] and [hasHOff] it leaves for the end of the
    callback. *)
Definition syncHorizontal (d : Dom) (s : State) : State * CssLength * bool :=
  let st := styles (page s) in
  if _horizontal (config s) then
    let w := ofZ (clientWidth d) in
    let sw := Num.orElse (ofZ (scrollWidth d)) epsilon in
    let off := hBarLeftOffset (config s) in
    let red := hBarReduceWidth (config s) in
    let hboWidth := Px (Num.sub (Num.sub w off) red) in
    let hasHOff := Num.geb w sw in
    let st' :=
      {| hBarOverlay_display := if Num.ltb w sw then DisplayDefault else DisplayNone;
         hBarOverlay_left := Px (Num.add off red);
         hBarOverlay_width := hBarOverlay_width st;
         hBarThumb_width :=
           if Num.ltb w sw
           then Percent (Num.mul (Num.div w sw) hundred)
           else Percent hundred;
         hBarThumb_left :=
           Percent (Num.mul (Num.div (Fin (scrollLeft d)) sw) hundred);
         vBarOverlay_display := vBarOverlay_display st;
         vBarOverlay_top := vBarOverlay_top st;
         vBarOverlay_height := vBarOverlay_height st;
         vBarThumb_height := vBarThumb_height st;
         vBarThumb_top := vBarThumb_top st |} in
    let s1 := with_styles st' s in
    let s2 := if hasHOff then addClass "h-off" s1 else removeClass "h-off" s1 in
    (s2, hboWidth, hasHOff)
  else
    let st' :=
      {| hBarOverlay_display := DisplayNone;
         hBarOverlay_left := hBarOverlay_left st;
         hBarOverlay_width := hBarOverlay_width st;
         hBarThumb_width := hBarThumb_width st;
         hBarThumb_left := hBarThumb_left st;
         vBarOverlay_display := vBarOverlay_display st;
         vBarOverlay_top := vBarOverlay_top st;
         vBarOverlay_height := vBarOverlay_height st;
         vBarThumb_height := vBarThumb_height st;
         vBarThumb_top := vBarThumb_top st |} in
    (with_styles st' s, Unset, false).

(** The vertical half. *)
Definition syncVertical (d : Dom) (s : State) : State * CssLength * bool :=
  let st := styles (page s) in
  if _vertical (config s) then
    let h := ofZ (clientHeight d) in
    let sh := Num.orElse (ofZ (scrollHeight d)) epsilon in
    let off := vBarTopOffset (config s) in
    let red := vBarReduceHeight (config s) in
    let vboHeight := Px (Num.sub (Num.sub h off) red) in
    let hasVOff := Num.geb h sh in
    let st' :=
      {| hBarOverlay_display := hBarOverlay_display st;
         hBarOverlay_left := hBarOverlay_left st;
         hBarOverlay_width := hBarOverlay_width st;
         hBarThumb_width := hBarThumb_width st;
         hBarThumb_left := hBarThumb_left st;
         vBarOverlay_display := if Num.ltb h sh then DisplayDefault else DisplayNone;
         vBarOverlay_top := Px (Num.add off red);
         vBarOverlay_height := vBarOverlay_height st;
         vBarThumb_height :=
           if Num.ltb h sh
           then Percent (Num.mul (Num.div h sh) hundred)
           else Percent hundred;
         vBarThumb_top :=
           Percent (Num.mul (Num.div (Fin (scrollTop d)) sh) hundred) |} in
    let s1 := with_styles st' s in
    let s2 := if hasVOff then addClass "v-off" s1 else removeClass "v-off" s1 in
    (s2, vboHeight, hasVOff)
  else
    let st' :=
      {| hBarOverlay_display := hBarOverlay_display st;
         hBarOverlay_left := hBarOverlay_left st;
         hBarOverlay_width := hBarOverlay_width st;
         hBarThumb_width := hBarThumb_width st;
         hBarThumb_left := hBarThumb_left st;
         vBarOverlay_display := DisplayNone;
         vBarOverlay_top := vBarOverlay_top st;
         vBarOverlay_height := vBarOverlay_height st;
         vBarThumb_height := vBarThumb_height st;
         vBarThumb_top := vBarThumb_top st |} in
    (with_styles st' s, Unset, false).

Definition set_hBarOverlay_width (v : CssLength) (s : State) : State :=
  let st := styles (page s) in
  with_styles
    {| hBarOverlay_display := hBarOverlay_display st;
       hBarOverlay_left := hBarOverlay_left st;
       hBarOverlay_width := v;
       hBarThumb_width := hBarThumb_width st;
       hBarThumb_left := hBarThumb_left st;
       vBarOverlay_display := vBarOverlay_display st;
       vBarOverlay_top := vBarOverlay_top st;
       vBarOverlay_height := vBarOverlay_height st;
       vBarThumb_height := vBarThumb_height st;
       vBarThumb_top := vBarThumb_top st |} s.

Definition set_vBarOverlay_height (v : CssLength) (s : State) : State :=
  let st := styles (page s) in
  with_styles
    {| hBarOverlay_display := hBarOverlay_display st;
       hBarOverlay_left := hBarOverlay_left st;
       hBarOverlay_width := hBarOverlay_width st;
       hBarThumb_width := hBarThumb_width st;
       hBarThumb_left := hBarThumb_left st;
       vBarOverlay_display := vBarOverlay_display st;
       vBarOverlay_top := vBarOverlay_top st;
       vBarOverlay_height := v;
       vBarThumb_height := vBarThumb_height st;
       vBarThumb_top := vBarThumb_top st |} s.

(** The callback [syncScrollBars] hands to [requestAnimationFrame]: one
    sync pass. *)
Definition syncPass (d : Dom) (s : State) : State :=
  let '(s1, hboWidth, hasHOff) := syncHorizontal d s in
  let '(s2, vboHeight, hasVOff) := syncVertical d s1 in
  let s3 :=
    if _horizontal (config s2) then
      set_hBarOverlay_width
        (if negb hasVOff
         then CalcPxMinusThumbGap
                (Num.sub (Num.sub (Num.sub (ofZ (clientWidth d))
                                           (hBarLeftOffset (config s2)))
                                  (hBarReduceWidth (config s2)))
                         (ofZ (offsetWidth (vBar d))))
         else hboWidth) s2
    else s2 in
  if _vertical (config s3) && negb (classList_contains "h-off" s3) then
    set_vBarOverlay_height
      (if negb hasHOff
       then CalcPxMinusThumbGap
              (Num.sub (Num.sub (Num.sub (ofZ (clientHeight d))
                                         (vBarTopOffset (config s3)))
                                (vBarReduceHeight (config s3)))
                       (ofZ (offsetHeight (hBar d))))
       else vboHeight) s3
  else s3.

(** [syncScrollBars(event?)]; [event] tells whether a scroll event was
    passed. *)
Definition syncScrollBars (event : bool) (s : State) : State :=
  let s1 := if event then addClass "scrolling" s else s in
  if dragging (drag s1) then s1
  else requestAnimationFrame SyncFrame s1.

(** ** Adjustments *)

Definition set_hAdjustment (a : ScrollbarAdjustment) (s : State) : State :=
  let c := config s in
  with_config
    {| _horizontal := _horizontal c; _vertical := _vertical c; _native := _native c;
       hAdjustment := Some a; vAdjustment := vAdjustment c;
       hBarLeftOffset := hBarLeftOffset c; hBarReduceWidth := hBarReduceWidth c;
       vBarTopOffset := vBarTopOffset c; vBarReduceHeight := vBarReduceHeight c |} s.

Definition set_vAdjustment (a : ScrollbarAdjustment) (s : State) : State :=
  let c := config s in
  with_config
    {| _horizontal := _horizontal c; _vertical := _vertical c; _native := _native c;
       hAdjustment := hAdjustment c; vAdjustment := Some a;
       hBarLeftOffset := hBarLeftOffset c; hBarReduceWidth := hBarReduceWidth c;
       vBarTopOffset := vBarTopOffset c; vBarReduceHeight := vBarReduceHeight c |} s.

Definition set_hBarLeftOffset (v : num) (s : State) : State :=
  let c := config s in
  with_config
    {| _horizontal := _horizontal c; _vertical := _vertical c; _native := _native c;
       hAdjustment := hAdjustment c; vAdjustment := vAdjustment c;
       hBarLeftOffset := v; hBarReduceWidth := hBarReduceWidth c;
       vBarTopOffset := vBarTopOffset c; vBarReduceHeight := vBarReduceHeight c |} s.

Definition set_hBarReduceWidth (v : num) (s : State) : State :=
  let c := config s in
  with_config
    {| _horizontal := _horizontal c; _vertical := _vertical c; _native := _native c;
       hAdjustment := hAdjustment c; vAdjustment := vAdjustment c;
       hBarLeftOffset := hBarLeftOffset c; hBarReduceWidth := v;
       vBarTopOffset := vBarTopOffset c; vBarReduceHeight := vBarReduceHeight c |} s.

Definition set_vBarTopOffset (v : num) (s : State) : State :=
  let c := config s in
  with_config
    {| _horizontal := _horizontal c; _vertical := _vertical c; _native := _native c;
       hAdjustment := hAdjustment c; vAdjustment := vAdjustment c;
       hBarLeftOffset := hBarLeftOffset c; hBarReduceWidth := hBarReduceWidth c;
       vBarTopOffset := v; vBarReduceHeight := vBarReduceHeight c |} s.

Definition set_vBarReduceHeight (v : num) (s : State) : State :=
  let c := config s in
  with_config
    {| _horizontal := _horizontal c; _vertical := _vertical c; _native := _native c;
       hAdjustment := hAdjustment c; vAdjustment := vAdjustment c;
       hBarLeftOffset := hBarLeftOffset c; hBarReduceWidth := hBarReduceWidth c;
       vBarTopOffset := vBarTopOffset c; vBarReduceHeight := v |} s.

(** The guarded [unobserve] at the head of [horizontalAdjustment] and
    [verticalAdjustment]: nothing for a number. *)
Definition unobserveValue (v : AdjustmentValue) (s : State) : State :=
  match v with
  | AdjNumber _ => s
  | AdjComponent e => unobserve e s
  end.

Definition unobserveOld (old : option ScrollbarAdjustment) (s : State) : State :=
  match old with
  | None => s
  | Some a => unobserveValue (ReduceSize a) (unobserveValue (Offset a) s)
  end.

(** [{ Offset: 0, ReduceSize: 0 }] *)
Definition noAdjustment : ScrollbarAdjustment :=
  {| Offset := AdjNumber (ofZ 0); ReduceSize := AdjNumber (ofZ 0) |}.

Definition horizontalAdjustment
    (d : Dom) (scrollbarAdjustment : option ScrollbarAdjustment) (s : State) : State :=
  let s1 := unobserveOld (hAdjustment (config s)) s in
  let a := match scrollbarAdjustment with Some a => a | None => noAdjustment end in
  let s2 := set_hAdjustment a s1 in
  let s3 :=
    match Offset a with
    | AdjComponent e =>
        set_hBarLeftOffset (ofZ (offsetTop (elemBox d e))) (observe e s2)
    | AdjNumber n => set_hBarLeftOffset n s2
    end in
  let s4 :=
    match ReduceSize a with
    | AdjComponent e =>
        set_hBarReduceWidth (ofZ (offsetHeight (elemBox d e))) (observe e s3)
    | AdjNumber n => set_hBarReduceWidth n s3
    end in
  syncScrollBars false s4.

Definition verticalAdjustment
    (d : Dom) (scrollbarAdjustment : option ScrollbarAdjustment) (s : State) : State :=
  let s1 := unobserveOld (vAdjustment (config s)) s in
  let a := match scrollbarAdjustment with Some a => a | None => noAdjustment end in
  let s2 := set_vAdjustment a s1 in
  let s3 :=
    match Offset a with
    | AdjComponent e =>
        set_vBarTopOffset (ofZ (offsetTop (elemBox d e))) (observe e s2)
    | AdjNumber n => set_vBarTopOffset n s2
    end in
  let s4 :=
    match ReduceSize a with
    | AdjComponent e =>
        set_vBarReduceHeight (ofZ (offsetHeight (elemBox d e))) (observe e s3)
    | AdjNumber n => set_vBarReduceHeight n s3
    end in
  syncScrollBars false s4.

(** [ref === (<INodeComponent<HTMLElement>>v).DOM]: never for a number,
    whose [DOM] is [undefined]. *)
Definition isDOMOf (ref : Elem) (v : AdjustmentValue) : bool :=
  match v with
  | AdjNumber _ => false
  | AdjComponent e => bool_decide (ref = e)
  end.

(** The four refreshes of one entry of the adjustment observer's callback,
    with the local [syncScrollBars] they leave. *)
Definition adjustmentRefresh
    (d : Dom) (ref : Elem) (ha va : ScrollbarAdjustment) (s : State) : State * bool :=
  let b := elemBox d ref in
  let '(s1, f1) :=
    if isDOMOf ref (Offset ha)
    then (set_hBarLeftOffset (ofZ (offsetLeft b)) s, true) else (s, false) in
  let '(s2, f2) :=
    if isDOMOf ref (ReduceSize ha)
    then (set_hBarReduceWidth (ofZ (offsetWidth b)) s1, true) else (s1, f1) in
  let '(s3, f3) :=
    if isDOMOf ref (Offset va)
    then (set_vBarTopOffset (ofZ (offsetTop b)) s2, true) else (s2, f2) in
  if isDOMOf ref (ReduceSize va)
  then (set_vBarReduceHeight (ofZ (offsetHeight b)) s3, true) else (s3, f3).

(** One entry of the callback of [adjustmentResizeObserver].  [None] is the
    [TypeError] of reading [Offset] from an adjustment that is still
    [undefined]. *)
Definition adjustmentEntry (d : Dom) (ref : Elem) (s : State) : option State :=
  match hAdjustment (config s), vAdjustment (config s) with
  | Some ha, Some va =>
      let '(s1, sync) := adjustmentRefresh d ref ha va s in
      Some (if sync then syncScrollBars false s1 else s1)
  | _, _ => None
  end.

Fixpoint adjustmentCallback (d : Dom) (entries : list Elem) (s : State) : option State :=
  match entries with
  | [] => Some s
  | ref :: rest =>
      match adjustmentEntry d ref s with
      | Some s1 => adjustmentCallback d rest s1
      | None => None
      end
  end.

(** A resize of element [e], as [adjustmentResizeObserver] sees it: the
    observer delivers one entry for [e] when it observes [e], and nothing
    otherwise. *)
Definition adjustmentResized (d : Dom) (e : Elem) (s : State) : option State :=
  if bool_decide (e ∈ adjustmentObserved (page s))
  then adjustmentCallback d [e] s
  else Some s.

(** ** Dragging a thumb *)

Definition thumbBox (d : Dom) (t : Thumb) : Box :=
  match t with HBarThumb => hBarThumb d | VBarThumb => vBarThumb d end.

(** [draggingThumb.parentElement]: the track of the thumb. *)
Definition parentBox (d : Dom) (t : Thumb) : Box :=
  match t with HBarThumb => hBar d | VBarThumb => vBar d end.

Definition set_contScrollHorizontal (b : bool) (s : State) : State :=
  let p := press s in
  with_press
    {| contScrollStartPos := contScrollStartPos p;
       contScrollHorizontal := b;
       contScrollBackwards := contScrollBackwards p;
       scrollPageLength := scrollPageLength p;
       isPointerDown := isPointerDown p;
       lastScrollPos := lastScrollPos p |} s.

Definition onDragThumbPointerDown (d : Dom) (event : PointerEvent) (s : State) : State :=
  match target event with
  | OnThumb t =>
      let s1 := call PreventDefault s in
      let s2 :=
        set_contScrollHorizontal
          (bool_decide (draggingThumb (drag s1) = Some HBarThumb)) s1 in
      let b := thumbBox d t in
      let s3 :=
        with_drag
          {| dragging := true;
             dragStart := {| pt_x := Fin (clientX event); pt_y := Fin (clientY event) |};
             dragStartElementPos :=
               {| pt_x := Fin (scrollLeft d); pt_y := Fin (scrollTop d) |};
             draggingThumb := Some t;
             draggingThumbRect :=
               {| rect_x := ofZ (offsetLeft b); rect_y := ofZ (offsetTop b);
                  rect_width := ofZ (offsetWidth b);
                  rect_height := ofZ (offsetHeight b) |};
             draggingBarRect :=
               {| rect_x := rect_x (draggingBarRect (drag s2));
                  rect_y := rect_y (draggingBarRect (drag s2));
                  rect_width := ofZ (offsetWidth (parentBox d t));
                  rect_height := ofZ (offsetHeight (parentBox d t)) |} |} s2 in
      addClass "dragging"
        (call (SetPointerCapture t (pointerId event))
           (call (AddPointerMoveListener t) s3))
  | _ => s
  end.

Definition set_hBarThumb_left (v : CssLength) (s : State) : State :=
  let st := styles (page s) in
  with_styles
    {| hBarOverlay_display := hBarOverlay_display st;
       hBarOverlay_left := hBarOverlay_left st;
       hBarOverlay_width := hBarOverlay_width st;
       hBarThumb_width := hBarThumb_width st;
       hBarThumb_left := v;
       vBarOverlay_display := vBarOverlay_display st;
       vBarOverlay_top := vBarOverlay_top st;
       vBarOverlay_height := vBarOverlay_height st;
       vBarThumb_height := vBarThumb_height st;
       vBarThumb_top := vBarThumb_top st |} s.

Definition set_vBarThumb_top (v : CssLength) (s : State) : State :=
  let st := styles (page s) in
  with_styles
    {| hBarOverlay_display := hBarOverlay_display st;
       hBarOverlay_left := hBarOverlay_left st;
       hBarOverlay_width := hBarOverlay_width st;
       hBarThumb_width := hBarThumb_width st;
       hBarThumb_left := hBarThumb_left st;
       vBarOverlay_display := vBarOverlay_display st;
       vBarOverlay_top := vBarOverlay_top st;
       vBarOverlay_height := vBarOverlay_height st;
       vBarThumb_height := vBarThumb_height st;
       vBarThumb_top := v |} s.

(** The factor [f] of [onDragThumbPointerMove], for either axis. *)
Definition dragFactorH (d : Dom) (s : State) : num :=
  Num.div
    (Num.sub (ofZ (scrollWidth d)) (ofZ (offsetWidth (domBox d))))
    (Num.sub (rect_width (draggingBarRect (drag s)))
             (rect_width (draggingThumbRect (drag s)))).

Definition dragFactorV (d : Dom) (s : State) : num :=
  Num.div
    (Num.sub (ofZ (scrollHeight d)) (ofZ (offsetHeight (domBox d))))
    (Num.sub (rect_height (draggingBarRect (drag s)))
             (rect_height (draggingThumbRect (drag s)))).

Definition onDragThumbPointerMove (d : Dom) (event : PointerEvent) (s : State) : State :=
  match draggingThumb (drag s) with
  | Some HBarThumb =>
      let dx := Num.sub (Fin (clientX event)) (pt_x (dragStart (drag s))) in
      let left := Num.max (ofZ 0) (Num.add (rect_left (draggingThumbRect (drag s))) dx) in
      let left :=
        Num.min left (Num.sub (rect_width (draggingBarRect (drag s)))
                              (rect_width (draggingThumbRect (drag s)))) in
      let f := dragFactorH d s in
      call (ScrollTo
              (Some (Num.add (pt_x (dragStartElementPos (drag s))) (Num.mul dx f)))
              None)
           (set_hBarThumb_left (Px left) s)
  | Some VBarThumb =>
      let dy := Num.sub (Fin (clientY event)) (pt_y (dragStart (drag s))) in
      let top := Num.max (ofZ 0) (Num.add (rect_top (draggingThumbRect (drag s))) dy) in
      let top :=
        Num.min top (Num.sub (rect_height (draggingBarRect (drag s)))
                             (rect_height (draggingThumbRect (drag s)))) in
      let f := dragFactorV d s in
      call (ScrollTo
              None
              (Some (Num.add (pt_y (dragStartElementPos (drag s))) (Num.mul dy f))))
           (set_vBarThumb_top (Px top) s)
  | None => s
  end.

Definition onDragThumbPointerUp (event : PointerEvent) (s : State) : State :=
  if dragging (drag s) then setTimeout (DragCleanup (pointerId event)) s else s.

Definition minusInfinity : DOMPoint := {| pt_x := Num.NegInf; pt_y := Num.NegInf |}.

(** The body of the timer of [onDragThumbPointerUp].  [None] is the
    [TypeError] of [this.draggingThumb!] when no thumb is held. *)
Definition dragCleanup (id : Z) (s : State) : option State :=
  match draggingThumb (drag s) with
  | Some t =>
      let s1 := call (ReleasePointerCapture t id)
                  (call (RemovePointerMoveListener t) s) in
      Some (removeClass "dragging"
              (with_drag
                 {| dragging := false;
                    dragStart := minusInfinity;
                    dragStartElementPos := minusInfinity;
                    draggingThumb := None;
                    draggingThumbRect := draggingThumbRect (drag s1);
                    draggingBarRect := draggingBarRect (drag s1) |} s1))
  | None => None
  end.

(** ** Pressing a track *)

Definition onScrollBarPointerDown (d : Dom) (event : PointerEvent) (s : State) : State :=
  let start := {| pt_x := Fin (offsetX event); pt_y := Fin (offsetY event) |} in
  match target event with
  | OnHBar =>
      let thumbLeft := ofZ (offsetLeft (hBarThumb d)) in
      let pageLength :=
        Num.div (Num.mul (ofZ (scrollWidth d)) (ofZ (offsetWidth (hBarThumb d))))
                (ofZ (offsetWidth (hBar d))) in
      let s1 :=
        with_press
          {| contScrollStartPos := start;
             contScrollHorizontal := true;
             contScrollBackwards := Num.leb (Fin (offsetX event)) thumbLeft;
             scrollPageLength := pageLength;
             isPointerDown := true;
             lastScrollPos := lastScrollPos (press s) |}
          (call PreventDefault s) in
      let scrollBy :=
        if Num.ltb (Fin (offsetX event)) thumbLeft
        then Num.neg pageLength else pageLength in
      call (ScrollBy (Some scrollBy) None Smooth) s1
  | OnVBar =>
      let thumbTop := ofZ (offsetTop (vBarThumb d)) in
      let pageLength :=
        Num.div (Num.mul (ofZ (scrollHeight d)) (ofZ (offsetHeight (vBarThumb d))))
                (ofZ (offsetHeight (vBar d))) in
      let s1 :=
        with_press
          {| contScrollStartPos := start;
             contScrollHorizontal := false;
             contScrollBackwards := Num.leb (Fin (offsetY event)) thumbTop;
             scrollPageLength := pageLength;
             isPointerDown := true;
             lastScrollPos := lastScrollPos (press s) |}
          (call PreventDefault s) in
      let scrollBy :=
        if Num.ltb (Fin (offsetY event)) thumbTop
        then Num.neg pageLength else pageLength in
      call (ScrollBy None (Some scrollBy) Smooth) s1
  | _ =>
      with_press
        {| contScrollStartPos := start;
           contScrollHorizontal := contScrollHorizontal (press s);
           contScrollBackwards := contScrollBackwards (press s);
           scrollPageLength := scrollPageLength (press s);
           isPointerDown := isPointerDown (press s);
           lastScrollPos := lastScrollPos (press s) |} s
  end.

Definition onScrollBarPointerUp (s : State) : State :=
  with_press
    {| contScrollStartPos := contScrollStartPos (press s);
       contScrollHorizontal := contScrollHorizontal (press s);
       contScrollBackwards := contScrollBackwards (press s);
       scrollPageLength := scrollPageLength (press s);
       isPointerDown := false;
       lastScrollPos := lastScrollPos (press s) |} s.

Definition rectContains (rect : DOMRect) (point : DOMPoint) : bool :=
  Num.geb (pt_x point) (rect_left rect)
  && Num.geb (pt_y point) (rect_top rect)
  && Num.leb (pt_x point) (rect_right rect)
  && Num.leb (pt_y point) (rect_bottom rect).

(** [new DOMRect(b.offsetLeft, b.offsetTop, b.offsetLeft + b.offsetWidth,
    b.offsetTop + b.offsetHeight)]: the four arguments of the constructor
    are [x], [y], [width] and [height]. *)
Definition thumbRectOf (b : Box) : DOMRect :=
  {| rect_x := ofZ (offsetLeft b);
     rect_y := ofZ (offsetTop b);
     rect_width := Num.add (ofZ (offsetLeft b)) (ofZ (offsetWidth b));
     rect_height := Num.add (ofZ (offsetTop b)) (ofZ (offsetHeight b)) |}.

Definition ten : num := ofZ 10.

(** [rafScroll], one step of the loop of a held press. *)
Definition rafScroll (d : Dom) (s : State) : State :=
  if negb (isPointerDown (press s)) then removeClass "scrolling" s
  else
    let thumbRect :=
      if contScrollHorizontal (press s)
      then thumbRectOf (hBarThumb d) else thumbRectOf (vBarThumb d) in
    if rectContains thumbRect (contScrollStartPos (press s))
    then removeClass "scrolling" s
    else
      let contScrollDistance :=
        if contScrollBackwards (press s)
        then Num.div (Num.neg (scrollPageLength (press s))) ten
        else Num.div (scrollPageLength (press s)) ten in
      requestAnimationFrame RafScroll
        (call (ScrollBy
                 (Some (if contScrollHorizontal (press s)
                        then contScrollDistance else ofZ 0))
                 (Some (if contScrollHorizontal (press s)
                        then ofZ 0 else contScrollDistance))
                 Auto) s).

Definition runTask (d : Dom) (t : FrameTask) (s : State) : State :=
  match t with
  | SyncFrame => syncPass d s
  | RafScroll => rafScroll d s
  end.

(** An animation frame: the callbacks queued so far run in order, against
    the layout of that frame; what they queue waits for the next frame. *)
Definition runFrame (d : Dom) (s : State) : State :=
  fold_left (fun acc t => runTask d t acc) (rafQueue (page s))
            (with_rafQueue [] s).

Definition isScrollEndCheck (t : TimerTask) : bool :=
  match t with ScrollEndCheck => true | DragCleanup _ => false end.

(** [clearTimeout(this.onScrollEndTimeout)] *)
Definition clearScrollEndTimeout (s : State) : State :=
  with_timers (filter (fun t => negb (isScrollEndCheck t)) (timers (page s))) s.

Definition onScrollEnd (d : Dom) (s : State) : State :=
  let s1 :=
    with_press
      {| contScrollStartPos := contScrollStartPos (press s);
         contScrollHorizontal := contScrollHorizontal (press s);
         contScrollBackwards := contScrollBackwards (press s);
         scrollPageLength := scrollPageLength (press s);
         isPointerDown := isPointerDown (press s);
         lastScrollPos := {| pt_x := Fin (scrollLeft d); pt_y := Fin (scrollTop d) |} |} s in
  setTimeout ScrollEndCheck (clearScrollEndTimeout s1).

(** The body of the 50 ms timer of [onScrollEnd]. *)
Definition scrollEndCheck (d : Dom) (s : State) : State :=
  if negb (Num.eqb (pt_x (lastScrollPos (press s))) (Fin (scrollLeft d)))
     || negb (Num.eqb (pt_y (lastScrollPos (press s))) (Fin (scrollTop d)))
  then removeClass "scrolling" s
  else rafScroll d s.

(** ** The [IChildren] operations *)

Definition append (components : list Node) (s : State) : State :=
  syncScrollBars false (call (Content (CAppend components)) s).

Definition appendFragment (fragment : Node) (s : State) : State :=
  syncScrollBars false (call (Content (CAppendFragment fragment)) s).

Definition insert (at_ : At) (components : list Node) (s : State) : State :=
  syncScrollBars false (call (Content (CInsert at_ components)) s).

(** [insertFragment] calls itself; [fuel] bounds the depth of the call
    stack, and [None] is the stack running out. *)
Fixpoint insertFragment (fuel : nat) (at_ : At) (fragment : Node) (s : State)
  : option State :=
  match fuel with
  | O => None
  | S fuel' =>
      match insertFragment fuel' at_ fragment s with
      | Some s1 => Some (syncScrollBars false s1)
      | None => None
      end
  end.

Definition remove (components : list Node) (s : State) : State :=
  syncScrollBars false (call (Content (CRemove components)) s).

Definition extract (components : list Node) (s : State) : State :=
  syncScrollBars false (call (Content (CExtract components)) s).

Definition moveTo (to : Node) (components : list Node) (s : State) : State :=
  syncScrollBars false (call (Content (CMoveTo to components)) s).

Definition moveToAt (to : Node) (at_ : At) (components : list Node) (s : State) : State :=
  syncScrollBars false (call (Content (CMoveToAt to at_ components)) s).

(** ** Reading a style back *)

(** The fraction a percentage stands for. *)
Definition fractionOf (v : CssLength) : option Q :=
  match v with
  | Percent (Num.Fin q) => Some (q / 100)%Q
  | _ => None
  end.

Definition isFraction (o : option Q) (q : Q) : Prop :=
  match o with
  | Some p => (p == q)%Q
  | None => False
  end.

Definition isFinitePercent (v : CssLength) : bool :=
  match v with
  | Percent n => Num.isFinite n
  | _ => false
  end.

(** ** Concrete containers and layouts *)

Definition noStyles : Styles :=
  {| hBarOverlay_display := DisplayDefault; hBarOverlay_left := Unset;
     hBarOverlay_width := Unset; hBarThumb_width := Unset; hBarThumb_left := Unset;
     vBarOverlay_display := DisplayDefault; vBarOverlay_top := Unset;
     vBarOverlay_height := Unset; vBarThumb_height := Unset; vBarThumb_top := Unset |}.

Definition zeroPoint : DOMPoint := {| pt_x := ofZ 0; pt_y := ofZ 0 |}.
Definition zeroRect : DOMRect :=
  {| rect_x := ofZ 0; rect_y := ofZ 0; rect_width := ofZ 0; rect_height := ofZ 0 |}.

(** The fields as their initialisers and [buildUI] leave them; the
    adjustments are still [undefined]. *)
Definition built (horizontal vertical : bool) : State :=
  {| config :=
       {| _horizontal := horizontal; _vertical := vertical; _native := false;
          hAdjustment := None; vAdjustment := None;
          hBarLeftOffset := Num.NaN; hBarReduceWidth := Num.NaN;
          vBarTopOffset := Num.NaN; vBarReduceHeight := Num.NaN |};
     drag :=
       {| dragging := false; dragStart := minusInfinity;
          dragStartElementPos := minusInfinity; draggingThumb := None;
          draggingThumbRect := zeroRect; draggingBarRect := zeroRect |};
     press :=
       {| contScrollStartPos := zeroPoint; contScrollHorizontal := false;
          contScrollBackwards := false; scrollPageLength := ofZ 0;
          isPointerDown := false; lastScrollPos := zeroPoint |};
     page :=
       {| classList :=
            (if horizontal then {[ "horizontal"%string ]} else ∅)
            ∪ (if vertical then {[ "vertical"%string ]} else ∅);
          adjustmentObserved := ∅;
          styles := noStyles;
          rafQueue := [];
          timers := [];
          domCalls := [] |} |}.

(** The constructor with [native] left [false]: [buildUI], then the two
    adjustments; [native(false)] then changes nothing. *)
Definition construct (d : Dom) (horizontal vertical : bool)
    (hAdj vAdj : option ScrollbarAdjustment) : State :=
  verticalAdjustment d vAdj (horizontalAdjustment d hAdj (built horizontal vertical)).

Definition box (l t w h : Z) : Box :=
  {| offsetLeft := l; offsetTop := t; offsetWidth := w; offsetHeight := h |}.

(** A surface of 100 by 200 pixels showing content of 400 by 200 pixels,
    scrolled 150 pixels to the right. *)
Definition wideContent : Dom :=
  {| clientWidth := 100; clientHeight := 200;
     scrollWidth := 400; scrollHeight := 200;
     scrollLeft := 150; scrollTop := 0;
     domBox := box 0 0 100 200;
     hBar := box 0 0 100 9; hBarThumb := box 38 0 25 9;
     vBar := box 0 0 9 200; vBarThumb := box 0 0 9 200;
     elemBox := fun _ => box 0 0 0 0 |}.

(** A surface of 100 by 200 pixels without content. *)
Definition noContent : Dom :=
  {| clientWidth := 100; clientHeight := 200;
     scrollWidth := 0; scrollHeight := 0;
     scrollLeft := 0; scrollTop := 0;
     domBox := box 0 0 100 200;
     hBar := box 0 0 100 9; hBarThumb := box 0 0 100 9;
     vBar := box 0 0 9 200; vBarThumb := box 0 0 9 200;
     elemBox := fun _ => box 0 0 0 0 |}.

Definition plain : State := construct wideContent true true None None.




(** ** Sources of an adjustment *)

Definition valueSource (v : AdjustmentValue) : gset Elem :=
  match v with
  | AdjNumber _ => ∅
  | AdjComponent e => {[ e ]}
  end.

(** The elements an adjustment is derived from. *)
Definition sources (a : option ScrollbarAdjustment) : gset Elem :=
  match a with
  | None => ∅
  | Some adj => valueSource (Offset adj) ∪ valueSource (ReduceSize adj)
  end.

(** ** A drag in progress *)

Definition pointerAt (t : Target) (cx cy ox oy : Q) : PointerEvent :=
  {| target := t; clientX := cx; clientY := cy;
     offsetX := ox; offsetY := oy; pointerId := 1 |}.

(** [plain] after its first frame, with the horizontal thumb held. *)
Definition held : State :=
  onDragThumbPointerDown wideContent
    (pointerAt (OnThumb HBarThumb) 40 4 2 4)
    (runFrame wideContent plain).

(** The content of [wideContent] grown to 800 pixels in height and scrolled
    300 pixels down. *)
Definition tallContent : Dom :=
  {| clientWidth := 100; clientHeight := 200;
     scrollWidth := 400; scrollHeight := 800;
     scrollLeft := 150; scrollTop := 300;
     domBox := box 0 0 100 200;
     hBar := box 0 0 100 9; hBarThumb := box 38 0 25 9;
     vBar := box 0 0 9 200; vBarThumb := box 0 0 9 200;
     elemBox := fun _ => box 0 0 0 0 |}.

(** ** An adjustment that follows an element *)

(** A layout in which every adjustment component is 30 by 40 pixels, 10
    pixels from the left and 20 pixels from the top of its container. *)
Definition toolbarLayout : Dom :=
  {| clientWidth := 100; clientHeight := 200;
     scrollWidth := 400; scrollHeight := 200;
     scrollLeft := 150; scrollTop := 0;
     domBox := box 0 0 100 200;
     hBar := box 0 0 100 9; hBarThumb := box 38 0 25 9;
     vBar := box 0 0 9 200; vBarThumb := box 0 0 9 200;
     elemBox := fun _ => box 10 20 30 40 |}.

Definition follow (e : Elem) : option ScrollbarAdjustment :=
  Some {| Offset := AdjComponent e; ReduceSize := AdjComponent e |}.

(** [plain] with its horizontal adjustment following element 1. *)
Definition withToolbar : State :=
  horizontalAdjustment toolbarLayout (follow 1%positive) plain.

(** ** A press on the horizontal track *)

(** A press on the horizontal track of [wideContent], exactly at the
    leading edge of the thumb, which is 38 pixels from the left. *)
Definition pressAtLeadingEdge : PointerEvent := pointerAt OnHBar 38 5 38 0.

(** The thumb's rectangle in the words of the specification: the box the
    thumb occupies in its track, edges included. *)
Definition thumbBoxContains (b : Box) (x y : Q) : bool :=
  Qle_bool (inject_Z (offsetLeft b)) x
  && Qle_bool x (inject_Z (offsetLeft b + offsetWidth b))
  && Qle_bool (inject_Z (offsetTop b)) y
  && Qle_bool y (inject_Z (offsetTop b + offsetHeight b)).

(** The horizontal track while the pointer is over it: the stylesheet
    moves the thumb up by one pixel and makes it two pixels higher, so that
    it covers the borders of the track.  The thumb is 50 pixels from the
    left. *)
Definition hoveredTrack : Dom :=
  {| clientWidth := 100; clientHeight := 200;
     scrollWidth := 400; scrollHeight := 200;
     scrollLeft := 200; scrollTop := 0;
     domBox := box 0 0 100 200;
     hBar := box 0 0 100 11; hBarThumb := box 50 (-1) 25 11;
     vBar := box 0 0 9 200; vBarThumb := box 0 0 9 200;
     elemBox := fun _ => box 0 0 0 0 |}.

(** A press held on the lower border of the horizontal track, at 60 pixels
    from the left and 9.5 pixels from the top, scrolling forward. *)
Definition heldPress : State :=
  with_press
    {| contScrollStartPos := {| pt_x := ofZ 60; pt_y := Fin (19 # 2) |};
       contScrollHorizontal := true;
       contScrollBackwards := false;
       scrollPageLength := ofZ 100;
       isPointerDown := true;
       lastScrollPos := {| pt_x := ofZ 200; pt_y := ofZ 0 |} |}
    (runFrame wideContent plain).

(** [wideContent] after the smooth scroll of one page forward: the scroll
    offset is 250 and the thumb 63 pixels from the left. *)
Definition afterPage : Dom :=
  {| clientWidth := 100; clientHeight := 200;
     scrollWidth := 400; scrollHeight := 200;
     scrollLeft := 250; scrollTop := 0;
     domBox := box 0 0 100 200;
     hBar := box 0 0 100 9; hBarThumb := box 63 0 25 9;
     vBar := box 0 0 9 200; vBarThumb := box 0 0 9 200;
     elemBox := fun _ => box 0 0 0 0 |}.

(** A press held on the horizontal track of [wideContent] at 90 pixels
    from the left, beyond the thumb, which ends at 63 pixels. *)
Definition heldBeyondThumb : State :=
  with_press
    {| contScrollStartPos := {| pt_x := ofZ 90; pt_y := ofZ 4 |};
       contScrollHorizontal := true;
       contScrollBackwards := false;
       scrollPageLength := ofZ 100;
       isPointerDown := true;
       lastScrollPos := {| pt_x := ofZ 150; pt_y := ofZ 0 |} |}
    (runFrame wideContent plain).

(** ** A drag along a track *)

(** The mapping of a drag: the offset [requested] is the start offset plus
    the pointer delta times [f], scrollable range over draggable range; and
    when the drag started with the thumb's edge at the place of the start
    offset, a thumb dragged to the end of its range requests the whole
    scrollable range. *)
Definition linearDrag (start edge track thumb scroll client delta requested : Q) : Prop :=
  let f := ((scroll - client) / (track - thumb))%Q in
  (requested == start + delta * f)%Q
  /\ ((start == edge * f)%Q -> (edge + delta == track - thumb)%Q ->
      (requested == scroll - client)%Q).

(** Content of 10000 pixels in a surface of 100 pixels, scrolled half way.
    One percent of the track would be one pixel: the stylesheet keeps the
    thumb at its minimum size, 16 pixels; it is 50 pixels from the left. *)
Definition deepContent : Dom :=
  {| clientWidth := 100; clientHeight := 200;
     scrollWidth := 10000; scrollHeight := 200;
     scrollLeft := 5000; scrollTop := 0;
     domBox := box 0 0 100 200;
     hBar := box 0 0 100 9; hBarThumb := box 50 0 16 9;
     vBar := box 0 0 9 200; vBarThumb := box 0 0 9 200;
     elemBox := fun _ => box 0 0 0 0 |}.

(** Content of 400 pixels in a surface of 100 pixels, not scrolled: the
    thumb is a quarter of the track and at its start. *)
Definition atStart : Dom :=
  {| clientWidth := 100; clientHeight := 200;
     scrollWidth := 400; scrollHeight := 200;
     scrollLeft := 0; scrollTop := 0;
     domBox := box 0 0 100 200;
     hBar := box 0 0 100 9; hBarThumb := box 0 0 25 9;
     vBar := box 0 0 9 200; vBarThumb := box 0 0 9 200;
     elemBox := fun _ => box 0 0 0 0 |}.

(** ** Several sync calls before one frame *)

(** [syncScrollBars] called once for each element of [events], each telling
    whether that call was given a scroll event. *)
Definition syncCalls (events : list bool) (s : State) : State :=
  fold_left (fun acc event => syncScrollBars event acc) events s.

(** ** Observed elements and sources *)

(** Every element the adjustment observer watches is a source of one of
    the two current adjustments. *)
Definition observedAreSources (s : State) : Prop :=
  adjustmentObserved (page s)
  ⊆ sources (hAdjustment (config s)) ∪ sources (vAdjustment (config s)).

(** Whether the callback of the adjustment observer asks for a sync on an
    entry for [ref]: [ref] is the element of one of the four values. *)
Definition isSourceOf (ha va : ScrollbarAdjustment) (ref : Elem) : bool :=
  isDOMOf ref (Offset ha) || isDOMOf ref (ReduceSize ha)
  || isDOMOf ref (Offset va) || isDOMOf ref (ReduceSize va).

(** [plain] with both adjustments following element 1. *)
Definition sharedToolbar : State :=
  verticalAdjustment toolbarLayout (follow 1%positive) withToolbar.

(** [plain] with the numeric horizontal adjustment 12 and 8. *)
Definition numericAdjustment : State :=
  horizontalAdjustment wideContent
    (Some {| Offset := AdjNumber (ofZ 12); ReduceSize := AdjNumber (ofZ 8) |})
    (runFrame wideContent plain).

(** ** The observers of the surface and of the content

    [buildUI] creates a [ResizeObserver] for the surface and the children
    of the content container, and a [MutationObserver] that keeps the set
    of observed children up to date. *)

(** What the callback of [resizeObserver] reads from the page about the
    target of an entry: whether it is [_dom_], and whether its parent is
    the element of the content container. *)
Record Tree : Type := {
  isSurface : Elem -> bool;
  isContentChild : Elem -> bool
}.

(** The loop of the callback of [resizeObserver]: the first entry for the
    surface or for a child of the content syncs and ends the loop. *)
Fixpoint resizeEntries (t : Tree) (entries : list Elem) (s : State) : State :=
  match entries with
  | [] => s
  | e :: rest =>
      if isSurface t e || isContentChild t e
      then syncScrollBars false s
      else resizeEntries t rest s
  end.

Definition resizeCallback (t : Tree) (entries : list Elem) (s : State) : State :=
  if _vertical (config s) || _horizontal (config s)
  then resizeEntries t entries s
  else s.

(** A node of a mutation record: an [Element], or a node of another
    kind. *)
Inductive DomNode : Type :=
| ElementNode (e : Elem)
| OtherNode.

Record MutationRecord : Type := {
  removedNodes : list DomNode;
  addedNodes : list DomNode
}.

Definition unobserveNode (n : DomNode) (observed : gset Elem) : gset Elem :=
  match n with
  | ElementNode e => observed ∖ {[ e ]}
  | OtherNode => observed
  end.

Definition observeNode (n : DomNode) (observed : gset Elem) : gset Elem :=
  match n with
  | ElementNode e => {[ e ]} ∪ observed
  | OtherNode => observed
  end.

(** One record of the callback of [mutationObserver], on the set of
    elements [resizeObserver] observes: the removed nodes first, then the
    added ones. *)
Definition mutationRecord (r : MutationRecord) (observed : gset Elem) : gset Elem :=
  fold_left (fun acc n => observeNode n acc) (addedNodes r)
    (fold_left (fun acc n => unobserveNode n acc) (removedNodes r) observed).

Definition mutationCallback (records : list MutationRecord) (observed : gset Elem)
  : gset Elem :=
  fold_left (fun acc r => mutationRecord r acc) records observed.

(** The elements among the nodes of a list. *)
Fixpoint elementsOf (l : list DomNode) : gset Elem :=
  match l with
  | [] => ∅
  | ElementNode e :: rest => {[ e ]} ∪ elementsOf rest
  | OtherNode :: rest => elementsOf rest
  end.

(** The children of the content after a record, from those before it. *)
Definition childrenAfter (r : MutationRecord) (children : gset Elem) : gset Elem :=
  (children ∖ elementsOf (removedNodes r)) ∪ elementsOf (addedNodes r).

(** A page whose surface is element 9 and whose content has the children
    1 and 2. *)
Definition twoChildren : Tree :=
  {| isSurface := fun e => bool_decide (e = 9%positive);
     isContentChild := fun e => bool_decide (e = 1%positive)
                                || bool_decide (e = 2%positive) |}.

(** ** A resize, as both observers see it *)

(** A resize of element [e], as the two resize observers of [buildUI] see
    it.  [watched] is the set of elements [resizeObserver] observes.  Each
    observer delivers one entry for [e] if it observes [e]: [resizeObserver],
    which was created first, and then [adjustmentResizeObserver]. *)
Definition elementResized
    (d : Dom) (t : Tree) (watched : gset Elem) (e : Elem) (s : State) : option State :=
  adjustmentResized d e
    (if bool_decide (e ∈ watched) then resizeCallback t [e] s else s).

(** The frames [resizeObserver] requests outside a drag for a resize of
    [e]: one, if it observes [e], an axis is enabled, and [e] is the
    surface or a direct child of the content. *)
Definition surfaceSyncs (t : Tree) (watched : gset Elem) (e : Elem) (s : State)
  : list FrameTask :=
  if bool_decide (e ∈ watched)
     && (_vertical (config s) || _horizontal (config s))
     && (isSurface t e || isContentChild t e)
  then [SyncFrame] else [].

(** What a replacement of [old] by [adj] leaves in [s'], for resizes seen
    in layout [d] on a page [t] where [resizeObserver] observes [watched].
    A source of [old] that is no source of [adj] is no longer observed by
    the adjustment observer, which delivers nothing for it; a source of
    [adj] is observed by it, and its resize is one call of [syncScrollBars]
    from that observer, which outside a drag queues exactly one sync pass.
    In all, with what [resizeObserver] adds for an element it observes,
    outside a drag a resize of the old element queues the passes of
    [surfaceSyncs] and a resize of the new element those and one more. *)
Definition replaced (t : Tree) (watched : gset Elem)
    (old adj : option ScrollbarAdjustment) (d : Dom) (s' : State) : Prop :=
  (forall e, (e ∈ sources old) -> (e ∉ sources adj) ->
     (e ∉ adjustmentObserved (page s'))
     /\ adjustmentResized d e s' = Some s'
     /\ (dragging (drag s') = false ->
         exists s1,
           elementResized d t watched e s' = Some s1
           /\ rafQueue (page s1) = rafQueue (page s') ++ surfaceSyncs t watched e s'))
  /\ (forall e, (e ∈ sources adj) ->
        (e ∈ adjustmentObserved (page s'))
        /\ (exists s1,
             page s1 = page s' /\ drag s1 = drag s'
             /\ adjustmentResized d e s' = Some (syncScrollBars false s1)
             /\ (dragging (drag s') = false ->
                 rafQueue (page (syncScrollBars false s1))
                 = rafQueue (page s') ++ [SyncFrame]))
        /\ (dragging (drag s') = false ->
            exists s1,
              elementResized d t watched e s' = Some s1
              /\ rafQueue (page s1)
                 = rafQueue (page s') ++ surfaceSyncs t watched e s' ++ [SyncFrame])).

(** The elements [resizeObserver] observes on the page [twoChildren]: the
    surface and the two children of the content. *)
Definition watchedChildren : gset Elem := {[ 9%positive; 1%positive; 2%positive ]}.

(** ** Timers *)

#[global] Instance TimerTask_eq_dec : EqDecision TimerTask.
Proof. solve_decision. Defined.

(** The pending timers without the first one that runs [t]. *)
Fixpoint removeTimer (t : TimerTask) (l : list TimerTask) : list TimerTask :=
  match l with
  | [] => []
  | x :: rest => if decide (x = t) then rest else x :: removeTimer t rest
  end.

(** A pending timer fires: it leaves the pending timers and its callback
    runs, the cleanup of a drag or the check of [onScrollEnd].  A timer
    that is not pending does not fire. *)
Definition fireTimer (d : Dom) (t : TimerTask) (s : State) : option State :=
  if decide (t ∈ timers (page s)) then
    let s1 := with_timers (removeTimer t (timers (page s))) s in
    match t with
    | DragCleanup id => dragCleanup id s1
    | ScrollEndCheck => Some (scrollEndCheck d s1)
    end
  else Some s.

(** ** A sync pass in closed form *)

(** The styles a pass leaves, from the layout, the configuration and the
    styles and classes before it. *)
Definition stylesAfterPass (d : Dom) (s : State) : Styles :=
  let w := ofZ (clientWidth d) in
  let sw := Num.orElse (ofZ (scrollWidth d)) epsilon in
  let h := ofZ (clientHeight d) in
  let sh := Num.orElse (ofZ (scrollHeight d)) epsilon in
  let c := config s in
  let st := styles (page s) in
  let hasHOff := _horizontal c && Num.geb w sw in
  let hasVOff := _vertical c && Num.geb h sh in
  let hOffClass := if _horizontal c then hasHOff else classList_contains "h-off" s in
  {| hBarOverlay_display :=
       if _horizontal c then if Num.ltb w sw then DisplayDefault else DisplayNone
       else DisplayNone;
     hBarOverlay_left :=
       if _horizontal c then Px (Num.add (hBarLeftOffset c) (hBarReduceWidth c))
       else hBarOverlay_left st;
     hBarOverlay_width :=
       if _horizontal c then
         if hasVOff
         then Px (Num.sub (Num.sub w (hBarLeftOffset c)) (hBarReduceWidth c))
         else CalcPxMinusThumbGap
                (Num.sub (Num.sub (Num.sub w (hBarLeftOffset c)) (hBarReduceWidth c))
                         (ofZ (offsetWidth (vBar d))))
       else hBarOverlay_width st;
     hBarThumb_width :=
       if _horizontal c then
         if Num.ltb w sw then Percent (Num.mul (Num.div w sw) hundred)
         else Percent hundred
       else hBarThumb_width st;
     hBarThumb_left :=
       if _horizontal c
       then Percent (Num.mul (Num.div (Fin (scrollLeft d)) sw) hundred)
       else hBarThumb_left st;
     vBarOverlay_display :=
       if _vertical c then if Num.ltb h sh then DisplayDefault else DisplayNone
       else DisplayNone;
     vBarOverlay_top :=
       if _vertical c then Px (Num.add (vBarTopOffset c) (vBarReduceHeight c))
       else vBarOverlay_top st;
     vBarOverlay_height :=
       if _vertical c && negb hOffClass
       then CalcPxMinusThumbGap
              (Num.sub (Num.sub (Num.sub h (vBarTopOffset c)) (vBarReduceHeight c))
                       (ofZ (offsetHeight (hBar d))))
       else vBarOverlay_height st;
     vBarThumb_height :=
       if _vertical c then
         if Num.ltb h sh then Percent (Num.mul (Num.div h sh) hundred)
         else Percent hundred
       else vBarThumb_height st;
     vBarThumb_top :=
       if _vertical c
       then Percent (Num.mul (Num.div (Fin (scrollTop d)) sh) hundred)
       else vBarThumb_top st |}.

(** The classes a pass leaves: [h-off] and [v-off] are set or cleared for
    the enabled axes, every other class is kept. *)
Definition classesAfterPass (d : Dom) (s : State) : gset string :=
  let c1 :=
    if _horizontal (config s) then
      if Num.geb (ofZ (clientWidth d)) (Num.orElse (ofZ (scrollWidth d)) epsilon)
      then {[ "h-off"%string ]} ∪ classList (page s)
      else classList (page s) ∖ {[ "h-off"%string ]}
    else classList (page s) in
  if _vertical (config s) then
    if Num.geb (ofZ (clientHeight d)) (Num.orElse (ofZ (scrollHeight d)) epsilon)
    then {[ "v-off"%string ]} ∪ c1
    else c1 ∖ {[ "v-off"%string ]}
  else c1.

(** ** Frames, scroll events and the loop of a held press *)

(** Animation frames one after the other, each with its layout. *)
Definition frames (ds : list Dom) (s : State) : State :=
  fold_left (fun acc d => runFrame d acc) ds s.

(** A [scroll] event on the surface: its two listeners run in the order
    [buildUI] added them, [syncScrollBars] with the event and then
    [onScrollEnd]. *)
Definition scrollEvent (d : Dom) (s : State) : State :=
  onScrollEnd d (syncScrollBars true s).

Definition scrollEvents (ds : list Dom) (s : State) : State :=
  fold_left (fun acc d => scrollEvent d acc) ds s.

(** The two tests at the head of [rafScroll]: the pointer is up, or the
    rectangle built for the thumb of the pressed track contains the press
    point. *)
Definition pressStops (d : Dom) (s : State) : bool :=
  negb (isPointerDown (press s))
  || rectContains
       (thumbRectOf (if contScrollHorizontal (press s) then hBarThumb d else vBarThumb d))
       (contScrollStartPos (press s)).

(** The [scrollBy] of one step of [rafScroll]. *)
Definition pressStep (s : State) : DomCall :=
  let distance :=
    if contScrollBackwards (press s)
    then Num.div (Num.neg (scrollPageLength (press s))) ten
    else Num.div (scrollPageLength (press s)) ten in
  ScrollBy (Some (if contScrollHorizontal (press s) then distance else ofZ 0))
           (Some (if contScrollHorizontal (press s) then ofZ 0 else distance))
           Auto.

(** The number of layouts at the head of [ds] in which the loop of the
    press of [s] does not stop. *)
Fixpoint stepsTaken (ds : list Dom) (s : State) : nat :=
  match ds with
  | [] => O
  | d :: rest => if pressStops d s then O else S (stepsTaken rest s)
  end.

(** [wideContent] scrolled to [left], with the horizontal thumb [thumbLeft]
    pixels from the left. *)
Definition scrolledTo (left : Q) (thumbLeft : Z) : Dom :=
  {| clientWidth := 100; clientHeight := 200;
     scrollWidth := 400; scrollHeight := 200;
     scrollLeft := left; scrollTop := 0;
     domBox := box 0 0 100 200;
     hBar := box 0 0 100 9; hBarThumb := box thumbLeft 0 25 9;
     vBar := box 0 0 9 200; vBarThumb := box 0 0 9 200;
     elemBox := fun _ => box 0 0 0 0 |}.

(** A press held on the horizontal track, 20 pixels from the left, behind
    the thumb, scrolling backward by pages of 100 pixels. *)
Definition heldBehindThumb : State :=
  with_press
    {| contScrollStartPos := {| pt_x := ofZ 20; pt_y := ofZ 4 |};
       contScrollHorizontal := true;
       contScrollBackwards := true;
       scrollPageLength := ofZ 100;
       isPointerDown := true;
       lastScrollPos := {| pt_x := ofZ 150; pt_y := ofZ 0 |} |}
    (runFrame wideContent plain).

(** ** The pointer moves of a drag *)



(** * Properties *)

(** ** Numbers *)

Lemma Qcompare_inject_Z (a b : Z) : (inject_Z a ?= inject_Z b)%Q = (a ?= b)%Z.
Proof. unfold Qcompare; simpl. now rewrite !Z.mul_1_r. Qed.

Lemma ltb_ofZ (a b : Z) : Num.ltb (ofZ a) (ofZ b) = true <-> (a < b)%Z.
Proof.
  unfold Num.ltb, Num.ofZ. rewrite Qcompare_inject_Z.
  destruct (Z.compare_spec a b); split; intros; try lia; congruence.
Qed.

Lemma ltb_ofZ_epsilon (a : Z) : Num.ltb (ofZ a) epsilon = true <-> (a < 0)%Z.
Proof.
  unfold Num.ltb, epsilon, Num.ofZ.
  destruct (Qcompare_spec (inject_Z a) (- (1 # 1000000))) as [H|H|H];
    unfold Qeq, Qlt in H; simpl in H; split; intros; try lia; congruence.
Qed.

Lemma orElse_ofZ (z : Z) :
  Num.orElse (ofZ z) epsilon = if Z.eqb z 0 then epsilon else ofZ z.
Proof.
  unfold Num.orElse, Num.ofZ, Qeq_bool; simpl.
  rewrite Z.mul_1_r. change (0 * 1)%Z with 0%Z. reflexivity.
Qed.

(** The comparison of the client extent with the substituted scroll extent
    decides as the comparison of the two integers does. *)
Lemma ltb_client_scroll (w sw : Z) :
  Num.ltb (ofZ w) (Num.orElse (ofZ sw) epsilon) = true <-> (w < sw)%Z.
Proof.
  rewrite orElse_ofZ. destruct (Z.eqb_spec sw 0) as [->|Hne].
  - apply ltb_ofZ_epsilon.
  - apply ltb_ofZ.
Qed.

Lemma inject_Z_nonzero (z : Z) : z <> 0%Z -> ~ (inject_Z z == 0)%Q.
Proof. intros Hz H. apply Hz. unfold Qeq in H; simpl in H. lia. Qed.

Lemma div_ofZ_nonzero (a : Q) (z : Z) :
  z <> 0%Z -> Num.div (Fin a) (ofZ z) = Fin (a / inject_Z z).
Proof.
  intros Hz. unfold Num.div, Num.ofZ.
  change 0%Q with (inject_Z 0). rewrite Qcompare_inject_Z.
  destruct (Z.compare_spec z 0); [lia | reflexivity | reflexivity].
Qed.

Lemma div_epsilon (a : Q) :
  Num.div (Fin a) epsilon = Fin (a / - (1 # 1000000)).
Proof. reflexivity. Qed.

(** A quotient by the substituted scroll extent is finite. *)
Lemma div_scroll_finite (a : Q) (sw : Z) :
  exists q, Num.div (Fin a) (Num.orElse (ofZ sw) epsilon) = Fin q.
Proof.
  rewrite orElse_ofZ. destruct (Z.eqb_spec sw 0) as [->|Hne].
  - eexists; apply div_epsilon.
  - eexists; now apply div_ofZ_nonzero.
Qed.

(** ** Frame rules

    Which part of the state each writer leaves alone. *)

Create Rewrite HintDb frame.

Lemma config_with_drag g s : config (with_drag g s) = config s.
Proof. reflexivity. Qed.
Lemma config_with_press p s : config (with_press p s) = config s.
Proof. reflexivity. Qed.
Lemma config_with_page p s : config (with_page p s) = config s.
Proof. reflexivity. Qed.
Lemma config_with_styles st s : config (with_styles st s) = config s.
Proof. reflexivity. Qed.
Lemma config_addClass c s : config (addClass c s) = config s.
Proof. reflexivity. Qed.
Lemma config_removeClass c s : config (removeClass c s) = config s.
Proof. reflexivity. Qed.
Lemma config_set_hBarOverlay_width v s : config (set_hBarOverlay_width v s) = config s.
Proof. reflexivity. Qed.
Lemma config_set_vBarOverlay_height v s : config (set_vBarOverlay_height v s) = config s.
Proof. reflexivity. Qed.
Lemma styles_with_styles st s : styles (page (with_styles st s)) = st.
Proof. reflexivity. Qed.
Lemma styles_addClass c s : styles (page (addClass c s)) = styles (page s).
Proof. reflexivity. Qed.
Lemma styles_removeClass c s : styles (page (removeClass c s)) = styles (page s).
Proof. reflexivity. Qed.

#[local] Hint Rewrite config_with_drag config_with_press config_with_page
  config_with_styles config_addClass config_removeClass
  config_set_hBarOverlay_width config_set_vBarOverlay_height
  styles_with_styles styles_addClass styles_removeClass : frame.

(** ** The sync pass *)

(** The horizontal half keeps the configuration and the vertical styles,
    and writes the horizontal ones. *)
Lemma syncHorizontal_frame (d : Dom) (s : State) :
  let s1 := fst (fst (syncHorizontal d s)) in
  let st := styles (page s) in
  let st1 := styles (page s1) in
  config s1 = config s
  /\ vBarOverlay_display st1 = vBarOverlay_display st
  /\ vBarThumb_height st1 = vBarThumb_height st
  /\ vBarThumb_top st1 = vBarThumb_top st.
Proof.
  unfold syncHorizontal.
  destruct (_horizontal (config s)); [destruct (Num.geb _ _)|];
    cbn [fst snd]; autorewrite with frame; repeat split; reflexivity.
Qed.

Lemma syncHorizontal_styles (d : Dom) (s : State) :
  let w := ofZ (clientWidth d) in
  let sw := Num.orElse (ofZ (scrollWidth d)) epsilon in
  let st1 := styles (page (fst (fst (syncHorizontal d s)))) in
  if _horizontal (config s) then
    hBarOverlay_display st1 = (if Num.ltb w sw then DisplayDefault else DisplayNone)
    /\ hBarThumb_width st1 =
         (if Num.ltb w sw then Percent (Num.mul (Num.div w sw) hundred)
          else Percent hundred)
    /\ hBarThumb_left st1 =
         Percent (Num.mul (Num.div (Fin (scrollLeft d)) sw) hundred)
  else hBarOverlay_display st1 = DisplayNone.
Proof.
  unfold syncHorizontal.
  destruct (_horizontal (config s)); [destruct (Num.geb _ _)|];
    cbn [fst snd]; autorewrite with frame; repeat split; reflexivity.
Qed.

(** The vertical half keeps the configuration and the horizontal styles,
    and writes the vertical ones. *)
Lemma syncVertical_frame (d : Dom) (s : State) :
  let s1 := fst (fst (syncVertical d s)) in
  let st := styles (page s) in
  let st1 := styles (page s1) in
  config s1 = config s
  /\ hBarOverlay_display st1 = hBarOverlay_display st
  /\ hBarThumb_width st1 = hBarThumb_width st
  /\ hBarThumb_left st1 = hBarThumb_left st.
Proof.
  unfold syncVertical.
  destruct (_vertical (config s)); [destruct (Num.geb _ _)|];
    cbn [fst snd]; autorewrite with frame; repeat split; reflexivity.
Qed.

Lemma syncVertical_styles (d : Dom) (s : State) :
  let h := ofZ (clientHeight d) in
  let sh := Num.orElse (ofZ (scrollHeight d)) epsilon in
  let st1 := styles (page (fst (fst (syncVertical d s)))) in
  if _vertical (config s) then
    vBarOverlay_display st1 = (if Num.ltb h sh then DisplayDefault else DisplayNone)
    /\ vBarThumb_height st1 =
         (if Num.ltb h sh then Percent (Num.mul (Num.div h sh) hundred)
          else Percent hundred)
    /\ vBarThumb_top st1 =
         Percent (Num.mul (Num.div (Fin (scrollTop d)) sh) hundred)
  else vBarOverlay_display st1 = DisplayNone.
Proof.
  unfold syncVertical.
  destruct (_vertical (config s)); [destruct (Num.geb _ _)|];
    cbn [fst snd]; autorewrite with frame; repeat split; reflexivity.
Qed.

(** The end of the pass writes the two overlay extents only. *)
Lemma syncPass_styles (d : Dom) (s : State) :
  let s2 := fst (fst (syncVertical d (fst (fst (syncHorizontal d s))))) in
  let st := styles (page (syncPass d s)) in
  let st2 := styles (page s2) in
  hBarOverlay_display st = hBarOverlay_display st2
  /\ hBarThumb_width st = hBarThumb_width st2
  /\ hBarThumb_left st = hBarThumb_left st2
  /\ vBarOverlay_display st = vBarOverlay_display st2
  /\ vBarThumb_height st = vBarThumb_height st2
  /\ vBarThumb_top st = vBarThumb_top st2.
Proof.
  unfold syncPass.
  destruct (syncHorizontal d s) as [[s1 hbo] hoff]; cbn [fst].
  destruct (syncVertical d s1) as [[s2 vbo] voff]; cbn [fst].
  destruct (_horizontal (config s2)); autorewrite with frame;
    destruct (_vertical (config s2)); cbn [andb];
    try destruct (negb (classList_contains _ _));
    repeat split; reflexivity.
Qed.

(** What the pass leaves in the horizontal styles it computes. *)
Lemma syncPass_horizontal (d : Dom) (s : State) :
  _horizontal (config s) = true ->
  let w := ofZ (clientWidth d) in
  let sw := Num.orElse (ofZ (scrollWidth d)) epsilon in
  let st := styles (page (syncPass d s)) in
  hBarOverlay_display st = (if Num.ltb w sw then DisplayDefault else DisplayNone)
  /\ hBarThumb_width st =
       (if Num.ltb w sw then Percent (Num.mul (Num.div w sw) hundred)
        else Percent hundred)
  /\ hBarThumb_left st =
       Percent (Num.mul (Num.div (Fin (scrollLeft d)) sw) hundred).
Proof.
  intros Hh.
  destruct (syncPass_styles d s) as (E1 & E2 & E3 & _).
  destruct (syncVertical_frame d (fst (fst (syncHorizontal d s)))) as (_ & F1 & F2 & F3).
  pose proof (syncHorizontal_styles d s) as G. rewrite Hh in G.
  cbv zeta in *. destruct G as (G1 & G2 & G3).
  rewrite E1, E2, E3, F1, F2, F3. auto.
Qed.

(** What the pass leaves in the vertical styles it computes. *)
Lemma syncPass_vertical (d : Dom) (s : State) :
  _vertical (config s) = true ->
  let h := ofZ (clientHeight d) in
  let sh := Num.orElse (ofZ (scrollHeight d)) epsilon in
  let st := styles (page (syncPass d s)) in
  vBarOverlay_display st = (if Num.ltb h sh then DisplayDefault else DisplayNone)
  /\ vBarThumb_height st =
       (if Num.ltb h sh then Percent (Num.mul (Num.div h sh) hundred)
        else Percent hundred)
  /\ vBarThumb_top st =
       Percent (Num.mul (Num.div (Fin (scrollTop d)) sh) hundred).
Proof.
  intros Hv.
  destruct (syncPass_styles d s) as (_ & _ & _ & E1 & E2 & E3).
  destruct (syncHorizontal_frame d s) as (C & _).
  pose proof (syncVertical_styles d (fst (fst (syncHorizontal d s)))) as G.
  cbv zeta in *. rewrite C, Hv in G. destruct G as (G1 & G2 & G3).
  rewrite E1, E2, E3. auto.
Qed.

(** With the axis disabled the pass hides the track. *)
Lemma syncPass_disabled (d : Dom) (s : State) :
  (_horizontal (config s) = false ->
   hBarOverlay_display (styles (page (syncPass d s))) = DisplayNone)
  /\ (_vertical (config s) = false ->
      vBarOverlay_display (styles (page (syncPass d s))) = DisplayNone).
Proof.
  destruct (syncPass_styles d s) as (E1 & _ & _ & E4 & _).
  destruct (syncHorizontal_frame d s) as (C & _).
  destruct (syncVertical_frame d (fst (fst (syncHorizontal d s)))) as (_ & F1 & _).
  pose proof (syncHorizontal_styles d s) as G.
  pose proof (syncVertical_styles d (fst (fst (syncHorizontal d s)))) as K.
  cbv zeta in *. split; intros H.
  - rewrite H in G. now rewrite E1, F1.
  - rewrite C, H in K. now rewrite E4.
Qed.

Lemma percent_fraction (a b : Q) :
  ~ (b == 0)%Q ->
  isFraction (fractionOf (Percent (Num.mul (Fin (a / b)) hundred))) (a / b).
Proof.
  intros Hb. unfold fractionOf, isFraction, hundred; simpl.
  change (inject_Z 100) with 100%Q. field. exact Hb.
Qed.

Lemma hundred_fraction : isFraction (fractionOf (Percent hundred)) 1.
Proof. unfold fractionOf, isFraction, hundred; simpl. reflexivity. Qed.

(** The thumb size written for an axis with client extent [w] and scroll
    extent [sw]. *)
Lemma thumb_size_fraction (w sw : Z) :
  (0 <= w)%Z ->
  let c := ofZ w in
  let e := Num.orElse (ofZ sw) epsilon in
  let v := if Num.ltb c e then Percent (Num.mul (Num.div c e) hundred)
           else Percent hundred in
  ((w < sw)%Z -> isFraction (fractionOf v) (inject_Z w / inject_Z sw))
  /\ ((sw <= w)%Z -> isFraction (fractionOf v) 1).
Proof.
  intros Hw c e v. subst v. split; intros H.
  - assert (Hlt : Num.ltb c e = true) by (apply ltb_client_scroll; lia).
    rewrite Hlt. subst c e. rewrite orElse_ofZ.
    destruct (Z.eqb_spec sw 0) as [->|Hne]; [lia|].
    unfold Num.ofZ at 1. rewrite div_ofZ_nonzero by exact Hne.
    apply percent_fraction. now apply inject_Z_nonzero.
  - destruct (Num.ltb c e) eqn:Hlt.
    + apply ltb_client_scroll in Hlt. lia.
    + apply hundred_fraction.
Qed.

Lemma display_visible_iff (w sw : Z) :
  (if Num.ltb (ofZ w) (Num.orElse (ofZ sw) epsilon)
   then DisplayDefault else DisplayNone) = DisplayDefault <-> (w < sw)%Z.
Proof.
  rewrite <- ltb_client_scroll.
  destruct (Num.ltb _ _); split; intros; congruence.
Qed.

(** C1.  After a sync pass, for each enabled axis, the track is displayed
    if and only if the client extent is strictly less than the scroll
    extent; the thumb's size is the fraction client extent / scroll extent
    of the track when the content overflows, and the whole track (fraction
    1) when the client extent is at least the scroll extent. *)
Theorem sync_track_visibility_and_thumb_size (d : Dom) (s : State) :
  (0 <= clientWidth d)%Z ->
  (0 <= clientHeight d)%Z ->
  let st := styles (page (syncPass d s)) in
  (_horizontal (config s) = true ->
     (hBarOverlay_display st = DisplayDefault <-> (clientWidth d < scrollWidth d)%Z)
     /\ ((clientWidth d < scrollWidth d)%Z ->
         isFraction (fractionOf (hBarThumb_width st))
                    (inject_Z (clientWidth d) / inject_Z (scrollWidth d)))
     /\ ((scrollWidth d <= clientWidth d)%Z ->
         isFraction (fractionOf (hBarThumb_width st)) 1))
  /\ (_vertical (config s) = true ->
     (vBarOverlay_display st = DisplayDefault <-> (clientHeight d < scrollHeight d)%Z)
     /\ ((clientHeight d < scrollHeight d)%Z ->
         isFraction (fractionOf (vBarThumb_height st))
                    (inject_Z (clientHeight d) / inject_Z (scrollHeight d)))
     /\ ((scrollHeight d <= clientHeight d)%Z ->
         isFraction (fractionOf (vBarThumb_height st)) 1)).
Proof.
  intros Hw Hh st. subst st. split; intros Hen.
  - destruct (syncPass_horizontal d s Hen) as (Hd & Ht & _).
    rewrite Hd, Ht. split; [apply display_visible_iff|].
    now apply thumb_size_fraction.
  - destruct (syncPass_vertical d s Hen) as (Hd & Ht & _).
    rewrite Hd, Ht. split; [apply display_visible_iff|].
    now apply thumb_size_fraction.
Qed.

Lemma sync_track_visibility_and_thumb_size_witness :
  let st := styles (page (syncPass wideContent plain)) in
  hBarOverlay_display st = DisplayDefault
  /\ isFraction (fractionOf (hBarThumb_width st)) (inject_Z 100 / inject_Z 400)
  /\ vBarOverlay_display st <> DisplayDefault
  /\ isFraction (fractionOf (vBarThumb_height st)) 1.
Proof.
  cbv zeta.
  destruct (sync_track_visibility_and_thumb_size wideContent plain)
    as [H V]; [simpl; lia | simpl; lia |].
  destruct (H eq_refl) as (Hd & Hf & _).
  destruct (V eq_refl) as (Vd & _ & Vf).
  split; [apply Hd; simpl; lia|].
  split; [apply Hf; simpl; lia|].
  split; [rewrite Vd; simpl; lia|].
  apply Vf; simpl; lia.
Defined.

(** ** The thumb position *)









(** ** Content without scrollable extent *)

Lemma epsilon_negative : Num.ltb epsilon (ofZ 0) = true.
Proof. reflexivity. Qed.

Lemma geb_ofZ_epsilon (w : Z) : (0 <= w)%Z -> Num.geb (ofZ w) epsilon = true.
Proof.
  intros Hw. unfold Num.geb, Num.leb, Num.ltb, epsilon, Num.ofZ.
  destruct (Qcompare_spec (- (1 # 1000000)) (inject_Z w)) as [H|H|H];
    unfold Qeq, Qlt in H; simpl in H; try reflexivity; lia.
Qed.

Lemma classList_with_styles st s :
  classList (page (with_styles st s)) = classList (page s).
Proof. reflexivity. Qed.

Lemma classList_addClass c s :
  classList (page (addClass c s)) = {[ c ]} ∪ classList (page s).
Proof. reflexivity. Qed.

Lemma classList_removeClass c s :
  classList (page (removeClass c s)) = classList (page s) ∖ {[ c ]}.
Proof. reflexivity. Qed.

Lemma classList_set_hBarOverlay_width v s :
  classList (page (set_hBarOverlay_width v s)) = classList (page s).
Proof. reflexivity. Qed.

Lemma classList_set_vBarOverlay_height v s :
  classList (page (set_vBarOverlay_height v s)) = classList (page s).
Proof. reflexivity. Qed.

#[local] Hint Rewrite classList_with_styles classList_addClass
  classList_removeClass classList_set_hBarOverlay_width
  classList_set_vBarOverlay_height : frame.

(** The classes the pass toggles: [h-off] and [v-off] follow the two
    comparisons [w >= sw] and [h >= sh]. *)
Lemma syncPass_classList (d : Dom) (s : State) :
  let hasHOff := Num.geb (ofZ (clientWidth d))
                         (Num.orElse (ofZ (scrollWidth d)) epsilon) in
  let hasVOff := Num.geb (ofZ (clientHeight d))
                         (Num.orElse (ofZ (scrollHeight d)) epsilon) in
  let c := classList (page (syncPass d s)) in
  (_horizontal (config s) = true -> hasHOff = true -> "h-off"%string ∈ c)
  /\ (_vertical (config s) = true -> hasVOff = true -> "v-off"%string ∈ c).
Proof.
  cbv zeta. unfold syncPass, syncHorizontal, syncVertical.
  destruct (_horizontal (config s)) eqn:Hh;
    [destruct (Num.geb (ofZ (clientWidth d)) _)|];
    cbn [fst snd]; autorewrite with frame;
    (destruct (_vertical (config s)) eqn:Hv;
     [destruct (Num.geb (ofZ (clientHeight d)) _)|]);
    cbn [fst snd]; autorewrite with frame; rewrite ?Hh, ?Hv; cbn [andb];
    repeat match goal with
           | |- context [if ?b then _ else _] => destruct b
           end;
    autorewrite with frame; split; intros; try discriminate; set_solver.
Qed.

(** C10.  When the content has no scrollable extent on an enabled axis,
    the pass divides by the negative constant [-0.000001] instead of [0]:
    the thumb size and position it writes are finite percentages, the
    track is hidden and the axis is marked as not overflowing. *)
Theorem sync_zero_scroll_extent (d : Dom) (s : State) :
  (0 <= clientWidth d)%Z ->
  (0 <= clientHeight d)%Z ->
  let s' := syncPass d s in
  let st := styles (page s') in
  Num.ltb epsilon (ofZ 0) = true
  /\ (_horizontal (config s) = true -> scrollWidth d = 0%Z ->
      Num.orElse (ofZ (scrollWidth d)) epsilon = epsilon
      /\ isFinitePercent (hBarThumb_width st) = true
      /\ isFinitePercent (hBarThumb_left st) = true
      /\ hBarOverlay_display st = DisplayNone
      /\ "h-off"%string ∈ classList (page s'))
  /\ (_vertical (config s) = true -> scrollHeight d = 0%Z ->
      Num.orElse (ofZ (scrollHeight d)) epsilon = epsilon
      /\ isFinitePercent (vBarThumb_height st) = true
      /\ isFinitePercent (vBarThumb_top st) = true
      /\ vBarOverlay_display st = DisplayNone
      /\ "v-off"%string ∈ classList (page s')).
Proof.
  intros Hw Hh. cbv zeta. split; [reflexivity|].
  destruct (syncPass_classList d s) as [CH CV]. split; intros Hen Hz.
  - destruct (syncPass_horizontal d s Hen) as (Hd & Ht & Hl).
    rewrite Hd, Ht, Hl. rewrite Hz in *.
    assert (Hge : Num.geb (ofZ (clientWidth d)) (Num.orElse (ofZ 0) epsilon) = true)
      by (now apply geb_ofZ_epsilon).
    assert (Hlt : Num.ltb (ofZ (clientWidth d)) (Num.orElse (ofZ 0) epsilon) = false).
    { destruct (Num.ltb _ _) eqn:E; [|reflexivity].
      apply ltb_client_scroll in E. lia. }
    rewrite Hlt. repeat split; try reflexivity. now apply CH.
  - destruct (syncPass_vertical d s Hen) as (Hd & Ht & Hl).
    rewrite Hd, Ht, Hl. rewrite Hz in *.
    assert (Hge : Num.geb (ofZ (clientHeight d)) (Num.orElse (ofZ 0) epsilon) = true)
      by (now apply geb_ofZ_epsilon).
    assert (Hlt : Num.ltb (ofZ (clientHeight d)) (Num.orElse (ofZ 0) epsilon) = false).
    { destruct (Num.ltb _ _) eqn:E; [|reflexivity].
      apply ltb_client_scroll in E. lia. }
    rewrite Hlt. repeat split; try reflexivity. now apply CV.
Qed.

Lemma sync_zero_scroll_extent_witness :
  let s' := syncPass noContent plain in
  isFinitePercent (hBarThumb_left (styles (page s'))) = true
  /\ hBarOverlay_display (styles (page s')) = DisplayNone
  /\ isFinitePercent (vBarThumb_top (styles (page s'))) = true
  /\ vBarOverlay_display (styles (page s')) = DisplayNone.
Proof.
  cbv zeta.
  destruct (sync_zero_scroll_extent noContent plain) as (_ & H & V);
    [simpl; lia | simpl; lia |].
  destruct (H eq_refl eq_refl) as (_ & _ & Hl & Hd & _).
  destruct (V eq_refl eq_refl) as (_ & _ & Vl & Vd & _).
  auto.
Defined.

(** ** A sync call during a drag *)

Lemma runFrame_empty (d : Dom) (s : State) :
  rafQueue (page s) = [] -> runFrame d s = with_rafQueue [] s.
Proof. intros H. unfold runFrame. now rewrite H. Qed.

(** C6, as the code has it.  While a drag is in progress a sync call
    requests no animation frame and writes no style, for either axis: it
    only adds the class [scrolling] when it was given a scroll event.  The
    next frame therefore recomputes nothing. *)
Theorem sync_during_drag (event : bool) (s : State) :
  dragging (drag s) = true ->
  let s' := syncScrollBars event s in
  s' = (if event then addClass "scrolling" s else s)
  /\ rafQueue (page s') = rafQueue (page s)
  /\ styles (page s') = styles (page s)
  /\ (forall d, rafQueue (page s) = [] ->
                styles (page (runFrame d s')) = styles (page s)).
Proof.
  intros Hd. cbv zeta. unfold syncScrollBars.
  assert (E : dragging (drag (if event then addClass "scrolling" s else s)) = true)
    by (destruct event; exact Hd).
  rewrite E. split; [reflexivity|].
  split; [destruct event; reflexivity|].
  split; [destruct event; reflexivity|].
  intros d Hq. rewrite runFrame_empty; destruct event; auto.
Qed.

Lemma sync_during_drag_witness :
  syncScrollBars true held = addClass "scrolling" held
  /\ styles (page (runFrame tallContent (syncScrollBars true held)))
     = styles (page held).
Proof.
  destruct (sync_during_drag true held eq_refl) as (E & _ & _ & F).
  split; [exact E | exact (F tallContent eq_refl)].
Defined.

(** C6, as stated, fails: with the horizontal thumb held, a sync call and
    the frame after it leave the vertical track hidden and the vertical
    thumb where it was, although a sync pass over the same layout shows
    the track and moves the thumb. *)
Lemma sync_during_drag_counterexample :
  dragging (drag held) = true
  /\ draggingThumb (drag held) = Some HBarThumb
  /\ _vertical (config held) = true
  /\ let live := styles (page (syncPass tallContent held)) in
     let got := styles (page (runFrame tallContent (syncScrollBars false held))) in
     vBarOverlay_display live = DisplayDefault
     /\ vBarOverlay_display got = DisplayNone
     /\ vBarThumb_top live <> vBarThumb_top got
     /\ vBarThumb_height live <> vBarThumb_height got.
Proof.
  repeat split; try reflexivity; vm_compute; discriminate.
Qed.

(** ** Replacing an adjustment *)

Lemma observed_with_config c s :
  adjustmentObserved (page (with_config c s)) = adjustmentObserved (page s).
Proof. reflexivity. Qed.

Lemma observed_observe e s :
  adjustmentObserved (page (observe e s)) = {[ e ]} ∪ adjustmentObserved (page s).
Proof. reflexivity. Qed.

Lemma observed_unobserve e s :
  adjustmentObserved (page (unobserve e s)) = adjustmentObserved (page s) ∖ {[ e ]}.
Proof. reflexivity. Qed.

Lemma observed_syncScrollBars event s :
  adjustmentObserved (page (syncScrollBars event s)) = adjustmentObserved (page s).
Proof.
  unfold syncScrollBars. destruct event; cbn [addClass];
    match goal with |- context [if ?b then _ else _] => destruct b end; reflexivity.
Qed.

Lemma observed_unobserveOld old s :
  adjustmentObserved (page (unobserveOld old s))
  = adjustmentObserved (page s) ∖ sources old.
Proof.
  destruct old as [[[n|e] [m|e']]|]; cbn [unobserveOld unobserveValue Offset
    ReduceSize sources valueSource]; rewrite ?observed_unobserve; set_solver.
Qed.

Lemma observed_set_hAdjustment a s :
  adjustmentObserved (page (set_hAdjustment a s)) = adjustmentObserved (page s).
Proof. reflexivity. Qed.
Lemma observed_set_vAdjustment a s :
  adjustmentObserved (page (set_vAdjustment a s)) = adjustmentObserved (page s).
Proof. reflexivity. Qed.
Lemma observed_set_hBarLeftOffset v s :
  adjustmentObserved (page (set_hBarLeftOffset v s)) = adjustmentObserved (page s).
Proof. reflexivity. Qed.
Lemma observed_set_hBarReduceWidth v s :
  adjustmentObserved (page (set_hBarReduceWidth v s)) = adjustmentObserved (page s).
Proof. reflexivity. Qed.
Lemma observed_set_vBarTopOffset v s :
  adjustmentObserved (page (set_vBarTopOffset v s)) = adjustmentObserved (page s).
Proof. reflexivity. Qed.
Lemma observed_set_vBarReduceHeight v s :
  adjustmentObserved (page (set_vBarReduceHeight v s)) = adjustmentObserved (page s).
Proof. reflexivity. Qed.

Create Rewrite HintDb observed.

#[local] Hint Rewrite observed_with_config observed_observe observed_unobserve
  observed_syncScrollBars observed_unobserveOld observed_set_hAdjustment
  observed_set_vAdjustment observed_set_hBarLeftOffset
  observed_set_hBarReduceWidth observed_set_vBarTopOffset
  observed_set_vBarReduceHeight : observed.

(** The observed set after a replacement: the old sources leave, then the
    new ones enter. *)
Lemma observed_horizontalAdjustment d adj s :
  adjustmentObserved (page (horizontalAdjustment d adj s))
  = (adjustmentObserved (page s) ∖ sources (hAdjustment (config s)))
    ∪ sources adj.
Proof.
  unfold horizontalAdjustment.
  destruct adj as [[[n|e] [m|e']]|];
    cbn [sources valueSource Offset ReduceSize noAdjustment];
    autorewrite with observed; set_solver.
Qed.

Lemma observed_verticalAdjustment d adj s :
  adjustmentObserved (page (verticalAdjustment d adj s))
  = (adjustmentObserved (page s) ∖ sources (vAdjustment (config s)))
    ∪ sources adj.
Proof.
  unfold verticalAdjustment.
  destruct adj as [[[n|e] [m|e']]|];
    cbn [sources valueSource Offset ReduceSize noAdjustment];
    autorewrite with observed; set_solver.
Qed.

Lemma config_syncScrollBars event s : config (syncScrollBars event s) = config s.
Proof.
  unfold syncScrollBars.
  match goal with |- context [if ?b then _ else _] => destruct b end;
    destruct event; reflexivity.
Qed.

Lemma config_observe e s : config (observe e s) = config s.
Proof. reflexivity. Qed.

Lemma config_unobserveOld old s : config (unobserveOld old s) = config s.
Proof. destruct old as [[[n|e] [m|e']]|]; reflexivity. Qed.

Lemma hAdjustment_horizontalAdjustment d adj s :
  hAdjustment (config (horizontalAdjustment d adj s))
  = Some (match adj with Some a => a | None => noAdjustment end)
  /\ vAdjustment (config (horizontalAdjustment d adj s)) = vAdjustment (config s).
Proof.
  unfold horizontalAdjustment. rewrite config_syncScrollBars.
  destruct adj as [[[n|e] [m|e']]|];
    cbn [Offset ReduceSize noAdjustment]; unfold set_hBarReduceWidth,
    set_hBarLeftOffset, set_hAdjustment;
    cbn [config with_config hAdjustment vAdjustment];
    rewrite ?config_observe; cbn [config with_config hAdjustment vAdjustment];
    rewrite ?config_observe; cbn [config with_config hAdjustment vAdjustment];
    rewrite ?config_unobserveOld; split; reflexivity.
Qed.

Lemma vAdjustment_verticalAdjustment d adj s :
  vAdjustment (config (verticalAdjustment d adj s))
  = Some (match adj with Some a => a | None => noAdjustment end)
  /\ hAdjustment (config (verticalAdjustment d adj s)) = hAdjustment (config s).
Proof.
  unfold verticalAdjustment. rewrite config_syncScrollBars.
  destruct adj as [[[n|e] [m|e']]|];
    cbn [Offset ReduceSize noAdjustment]; unfold set_vBarReduceHeight,
    set_vBarTopOffset, set_vAdjustment;
    cbn [config with_config hAdjustment vAdjustment];
    rewrite ?config_observe; cbn [config with_config hAdjustment vAdjustment];
    rewrite ?config_observe; cbn [config with_config hAdjustment vAdjustment];
    rewrite ?config_unobserveOld; split; reflexivity.
Qed.

(** The refreshes of an entry touch the four stored numbers only, and ask
    for a sync exactly when the element is one of the four sources. *)
Lemma adjustmentRefresh_frame d ref ha va s :
  let r := adjustmentRefresh d ref ha va s in
  page (fst r) = page s
  /\ drag (fst r) = drag s
  /\ snd r = isDOMOf ref (Offset ha) || isDOMOf ref (ReduceSize ha)
             || isDOMOf ref (Offset va) || isDOMOf ref (ReduceSize va).
Proof.
  cbv zeta. unfold adjustmentRefresh.
  destruct (isDOMOf ref (Offset ha)), (isDOMOf ref (ReduceSize ha)),
    (isDOMOf ref (Offset va)), (isDOMOf ref (ReduceSize va));
    repeat split; reflexivity.
Qed.

Lemma isDOMOf_valueSource e v : isDOMOf e v = true <-> e ∈ valueSource v.
Proof.
  destruct v as [n|x]; cbn [isDOMOf valueSource].
  - split; [discriminate | set_solver].
  - rewrite bool_decide_eq_true. set_solver.
Qed.

Lemma isDOMOf_source e (a : ScrollbarAdjustment) :
  e ∈ sources (Some a) ->
  isDOMOf e (Offset a) || isDOMOf e (ReduceSize a) = true.
Proof.
  cbn [sources]. intros H. apply orb_true_iff.
  rewrite !isDOMOf_valueSource. now apply elem_of_union in H.
Qed.

Lemma sources_adjustmentOr adj :
  sources (Some (match adj with Some a => a | None => noAdjustment end))
  = sources adj.
Proof. destruct adj; cbn [sources valueSource noAdjustment Offset ReduceSize]; set_solver. Qed.

(** One observed resize of a source: the stored numbers are refreshed and
    [syncScrollBars] is called once; outside a drag that queues exactly one
    sync pass. *)
Lemma resize_of_source d e ha va s :
  hAdjustment (config s) = Some ha ->
  vAdjustment (config s) = Some va ->
  e ∈ adjustmentObserved (page s) ->
  e ∈ sources (Some ha) ∪ sources (Some va) ->
  let s1 := fst (adjustmentRefresh d e ha va s) in
  adjustmentResized d e s = Some (syncScrollBars false s1)
  /\ (dragging (drag s) = false ->
      rafQueue (page (syncScrollBars false s1)) = rafQueue (page s) ++ [SyncFrame]).
Proof.
  intros Hh Hv Hobs Hsrc. cbv zeta.
  destruct (adjustmentRefresh_frame d e ha va s) as (Hp & Hd & Hf).
  unfold adjustmentResized. rewrite bool_decide_eq_true_2 by exact Hobs.
  cbn [adjustmentCallback]. unfold adjustmentEntry. rewrite Hh, Hv.
  destruct (adjustmentRefresh d e ha va s) as [s1 f] eqn:E. cbn [fst snd] in *.
  assert (Hflag : f = true).
  { rewrite Hf. apply elem_of_union in Hsrc as [H|H];
      apply isDOMOf_source in H.
    - now rewrite H.
    - rewrite <- orb_assoc, H. apply orb_true_r. }
  rewrite Hflag. split; [reflexivity|].
  intros Hnd. unfold syncScrollBars. rewrite Hd, Hnd.
  unfold requestAnimationFrame. cbn. now rewrite Hp.
Qed.

(** What [resizeObserver] does with a resize of [e] outside a drag: at
    most one request for a frame, and nothing else. *)
Lemma surface_delivery (t : Tree) (watched : gset Elem) (e : Elem) (s : State) :
  dragging (drag s) = false ->
  let s0 := if bool_decide (e ∈ watched) then resizeCallback t [e] s else s in
  config s0 = config s
  /\ drag s0 = drag s
  /\ adjustmentObserved (page s0) = adjustmentObserved (page s)
  /\ rafQueue (page s0) = rafQueue (page s) ++ surfaceSyncs t watched e s.
Proof.
  intros Hd. cbv zeta. unfold surfaceSyncs, resizeCallback.
  destruct (bool_decide (e ∈ watched)); cbn [andb];
    [|rewrite app_nil_r; auto].
  destruct (_vertical (config s) || _horizontal (config s)); cbn [andb];
    [|rewrite app_nil_r; auto].
  cbn [resizeEntries].
  destruct (isSurface t e || isContentChild t e);
    [|rewrite app_nil_r; auto].
  unfold syncScrollBars. rewrite Hd. repeat split; reflexivity.
Qed.

(** The two parts of a replacement, from what the container holds after
    it. *)
Lemma replaced_intro t watched old adj d s' ha va :
  sources adj ⊆ adjustmentObserved (page s') ->
  (forall e, (e ∈ sources old) -> (e ∉ sources adj) ->
             e ∉ adjustmentObserved (page s')) ->
  hAdjustment (config s') = Some ha ->
  vAdjustment (config s') = Some va ->
  sources adj ⊆ sources (Some ha) ∪ sources (Some va) ->
  replaced t watched old adj d s'.
Proof.
  intros Hnew Hold Hh Hv Hsub. split.
  - intros e He Hne. split; [now apply Hold|].
    split; [unfold adjustmentResized;
            now rewrite bool_decide_eq_false_2 by now apply Hold|].
    intros Hd. destruct (surface_delivery t watched e s' Hd) as (_ & _ & Ho & Hq).
    cbv zeta in Ho, Hq. unfold elementResized, adjustmentResized.
    rewrite Ho, bool_decide_eq_false_2 by now apply Hold.
    eexists. split; [reflexivity | exact Hq].
  - intros e He.
    assert (Hin : e ∈ adjustmentObserved (page s')) by now apply Hnew.
    split; [exact Hin|]. split.
    + destruct (adjustmentRefresh_frame d e ha va s') as (Hp & Hd & _).
      destruct (resize_of_source d e ha va s' Hh Hv Hin) as (Hr & Hq);
        [now apply Hsub|].
      exists (fst (adjustmentRefresh d e ha va s')).
      split; [exact Hp|]. split; [exact Hd|]. split; [exact Hr | exact Hq].
    + intros Hd.
      destruct (surface_delivery t watched e s' Hd) as (Hc & Hg & Ho & Hq).
      cbv zeta in Hc, Hg, Ho, Hq. unfold elementResized.
      set (s0 := if bool_decide (e ∈ watched) then resizeCallback t [e] s' else s') in *.
      assert (Hin0 : e ∈ adjustmentObserved (page s0)) by now rewrite Ho.
      destruct (resize_of_source d e ha va s0) as (Hr & Hq0);
        [now rewrite Hc | now rewrite Hc | exact Hin0 | now apply Hsub |].
      eexists. split; [exact Hr|].
      rewrite Hq0 by now rewrite Hg. rewrite Hq, <- app_assoc. reflexivity.
Qed.

(** C7, as the code has it.  Replacing the adjustment of an axis unobserves
    the elements the old adjustment was derived from and then observes
    those of the new one.  Afterwards the adjustment observer delivers
    nothing for a resize of an old element that the new adjustment no
    longer uses, and calls [syncScrollBars] exactly once for a resize of an
    element of the new adjustment.  The observer of the surface and of the
    children of the content is not touched by a replacement: for an
    element it observes it adds one call of its own, so that outside a
    drag a resize of the old element queues no sync pass only when that
    observer has none to add, and a resize of the new element queues one
    pass more than that observer adds. *)
Theorem adjustment_replacement (d d' : Dom) (t : Tree) (watched : gset Elem)
    (adj : option ScrollbarAdjustment) (s : State) :
  is_Some (hAdjustment (config s)) ->
  is_Some (vAdjustment (config s)) ->
  replaced t watched (hAdjustment (config s)) adj d' (horizontalAdjustment d adj s)
  /\ replaced t watched (vAdjustment (config s)) adj d' (verticalAdjustment d adj s).
Proof.
  intros [ha Hh] [va Hv]. split.
  - destruct (hAdjustment_horizontalAdjustment d adj s) as (Hh' & Hv').
    rewrite Hv in Hv'.
    eapply replaced_intro; eauto.
    + rewrite observed_horizontalAdjustment. set_solver.
    + intros e He Hne. rewrite observed_horizontalAdjustment. set_solver.
    + rewrite sources_adjustmentOr. set_solver.
  - destruct (vAdjustment_verticalAdjustment d adj s) as (Hv' & Hh').
    rewrite Hh in Hh'.
    eapply replaced_intro; eauto.
    + rewrite observed_verticalAdjustment. set_solver.
    + intros e He Hne. rewrite observed_verticalAdjustment. set_solver.
    + rewrite sources_adjustmentOr. set_solver.
Qed.

Lemma adjustment_replacement_witness :
  replaced twoChildren watchedChildren
    (follow 1%positive) (follow 2%positive) toolbarLayout
    (horizontalAdjustment toolbarLayout (follow 2%positive) withToolbar).
Proof.
  refine (proj1 (adjustment_replacement toolbarLayout toolbarLayout
                   twoChildren watchedChildren
                   (follow 2%positive) withToolbar _ _)); vm_compute; eauto.
Defined.

(** C7, as stated, fails for an adjustment element that is a child of the
    content, such as a toolbar that scrolls with it: with the children 1
    and 2 of the content as the old and the new element of the horizontal
    adjustment, after the replacement a resize of element 1 still queues a
    sync pass, and a resize of element 2 queues two. *)
Lemma adjustment_replacement_counterexample :
  let s' := horizontalAdjustment toolbarLayout (follow 2%positive) withToolbar in
  hAdjustment (config withToolbar) = follow 1%positive
  /\ (1%positive ∈ sources (follow 1%positive))
  /\ (1%positive ∉ sources (follow 2%positive))
  /\ (2%positive ∈ sources (follow 2%positive))
  /\ dragging (drag s') = false
  /\ (exists s1,
        elementResized toolbarLayout twoChildren watchedChildren 1%positive s' = Some s1
        /\ rafQueue (page s1) = rafQueue (page s') ++ [SyncFrame])
  /\ (exists s2,
        elementResized toolbarLayout twoChildren watchedChildren 2%positive s' = Some s2
        /\ rafQueue (page s2) = rafQueue (page s') ++ [SyncFrame; SyncFrame]).
Proof.
  cbv zeta. split; [reflexivity|].
  split; [cbn; set_solver|]. split; [cbn; set_solver|]. split; [cbn; set_solver|].
  split; [reflexivity|].
  split; eexists; (split; [vm_compute; reflexivity | vm_compute; reflexivity]).
Qed.

(** ** Deriving an adjustment from an element *)

(** At set time the horizontal adjustment reads [offsetTop] and
    [offsetHeight] of its components. *)
Lemma horizontalAdjustment_set_time d e1 e2 s :
  let s' := horizontalAdjustment d
              (Some {| Offset := AdjComponent e1; ReduceSize := AdjComponent e2 |}) s in
  hBarLeftOffset (config s') = ofZ (offsetTop (elemBox d e1))
  /\ hBarReduceWidth (config s') = ofZ (offsetHeight (elemBox d e2)).
Proof.
  cbv zeta. unfold horizontalAdjustment. rewrite config_syncScrollBars.
  split; reflexivity.
Qed.

(** On a resize the horizontal adjustment reads [offsetLeft] and
    [offsetWidth] of the resized component. *)
Lemma horizontalAdjustment_on_resize d e va s :
  hAdjustment (config s) = follow e ->
  vAdjustment (config s) = Some va ->
  isDOMOf e (Offset va) = false ->
  isDOMOf e (ReduceSize va) = false ->
  e ∈ adjustmentObserved (page s) ->
  exists s', adjustmentResized d e s = Some s'
    /\ hBarLeftOffset (config s') = ofZ (offsetLeft (elemBox d e))
    /\ hBarReduceWidth (config s') = ofZ (offsetWidth (elemBox d e)).
Proof.
  intros Hh Hv Ho Hr Hin. unfold adjustmentResized.
  rewrite bool_decide_eq_true_2 by exact Hin.
  cbn [adjustmentCallback]. unfold adjustmentEntry, follow in *. rewrite Hh, Hv.
  unfold adjustmentRefresh. cbn [Offset ReduceSize isDOMOf].
  rewrite bool_decide_eq_true_2 by reflexivity. rewrite Ho, Hr.
  eexists. split; [reflexivity|]. rewrite config_syncScrollBars.
  split; reflexivity.
Qed.

(** The vertical adjustment reads [offsetTop] and [offsetHeight] both
    times. *)
Lemma verticalAdjustment_set_time d e1 e2 s :
  let s' := verticalAdjustment d
              (Some {| Offset := AdjComponent e1; ReduceSize := AdjComponent e2 |}) s in
  vBarTopOffset (config s') = ofZ (offsetTop (elemBox d e1))
  /\ vBarReduceHeight (config s') = ofZ (offsetHeight (elemBox d e2)).
Proof.
  cbv zeta. unfold verticalAdjustment. rewrite config_syncScrollBars.
  split; reflexivity.
Qed.

(** C8 fails on the code.  For a component 10 pixels from the left and 20
    pixels from the top of its container, 30 pixels wide and 40 pixels
    high, [horizontalAdjustment] stores the offset 20 and the reduction 40
    (top edge and height); the first resize of the same component, in the
    same layout, stores 10 and 30 (left edge and width). *)
Theorem horizontal_adjustment_set_time_differs_from_resize :
  elemBox toolbarLayout 1%positive = box 10 20 30 40
  /\ hBarLeftOffset (config withToolbar) = ofZ 20
  /\ hBarReduceWidth (config withToolbar) = ofZ 40
  /\ exists s',
       adjustmentResized toolbarLayout 1%positive withToolbar = Some s'
       /\ hBarLeftOffset (config s') = ofZ 10
       /\ hBarReduceWidth (config s') = ofZ 30.
Proof.
  split; [reflexivity|]. split; [reflexivity|]. split; [reflexivity|].
  eexists. split; [vm_compute; reflexivity|]. split; reflexivity.
Qed.

(** ** The [IChildren] operations *)

(** Seven of the eight operations forward one call to the content
    container and then call [syncScrollBars] once. *)
Lemma children_operations_forward_then_sync (s : State) :
  (forall cs, append cs s = syncScrollBars false (call (Content (CAppend cs)) s))
  /\ (forall f, appendFragment f s
                = syncScrollBars false (call (Content (CAppendFragment f)) s))
  /\ (forall a cs, insert a cs s
                   = syncScrollBars false (call (Content (CInsert a cs)) s))
  /\ (forall cs, remove cs s = syncScrollBars false (call (Content (CRemove cs)) s))
  /\ (forall cs, extract cs s = syncScrollBars false (call (Content (CExtract cs)) s))
  /\ (forall t cs, moveTo t cs s
                   = syncScrollBars false (call (Content (CMoveTo t cs)) s))
  /\ (forall t a cs, moveToAt t a cs s
                     = syncScrollBars false (call (Content (CMoveToAt t a cs)) s)).
Proof. repeat split. Qed.

(** Outside a drag such an operation adds one call to the page and one
    sync pass to the queue. *)
Lemma forward_then_sync_effects (c : ContentCall) (s : State) :
  dragging (drag s) = false ->
  let s' := syncScrollBars false (call (Content c) s) in
  domCalls (page s') = domCalls (page s) ++ [Content c]
  /\ rafQueue (page s') = rafQueue (page s) ++ [SyncFrame].
Proof.
  intros Hd. cbv zeta. unfold syncScrollBars.
  change (dragging (drag (call (Content c) s))) with (dragging (drag s)).
  rewrite Hd. split; reflexivity.
Qed.

(** C9 fails on the code.  [insertFragment] calls itself with the same
    arguments before anything else: whatever the depth allowed to the call
    stack, it does not return, forwards nothing to the content container
    and calls no [syncScrollBars]. *)
Theorem insertFragment_never_returns (fuel : nat) (at_ : At) (fragment : Node) (s : State) :
  insertFragment fuel at_ fragment s = None.
Proof.
  induction fuel as [|fuel IH]; cbn [insertFragment].
  - reflexivity.
  - now rewrite IH.
Qed.

(** ** A press on a track *)

(** What a press on the horizontal track computes and issues. *)
Lemma onScrollBarPointerDown_horizontal (d : Dom) (event : PointerEvent) (s : State) :
  target event = OnHBar ->
  let s' := onScrollBarPointerDown d event s in
  let thumbLeft := ofZ (offsetLeft (hBarThumb d)) in
  let pageLength :=
    Num.div (Num.mul (ofZ (scrollWidth d)) (ofZ (offsetWidth (hBarThumb d))))
            (ofZ (offsetWidth (hBar d))) in
  scrollPageLength (press s') = pageLength
  /\ contScrollBackwards (press s') = Num.leb (Fin (offsetX event)) thumbLeft
  /\ domCalls (page s')
     = domCalls (page s)
       ++ [PreventDefault;
           ScrollBy (Some (if Num.ltb (Fin (offsetX event)) thumbLeft
                           then Num.neg pageLength else pageLength))
                    None Smooth].
Proof.
  intros Ht. cbv zeta. unfold onScrollBarPointerDown. rewrite Ht.
  repeat split. cbn. now rewrite <- app_assoc.
Qed.

(** At a press exactly on the leading edge of the thumb the two
    comparisons of [onScrollBarPointerDown] disagree. *)
Lemma leading_edge_comparisons (z : Z) :
  Num.leb (ofZ z) (ofZ z) = true /\ Num.ltb (ofZ z) (ofZ z) = false.
Proof.
  unfold Num.leb, Num.ltb, Num.eqb, Num.ofZ.
  rewrite Qcompare_inject_Z, Z.compare_refl. split; [|reflexivity].
  cbn [orb]. apply Qeq_bool_iff. reflexivity.
Qed.

(** C4 fails on the code.  For a press on the horizontal track exactly at
    the leading edge of the thumb, the page length is scroll extent times
    thumb length over track length and one smooth scroll forward by that
    length is issued, but the direction recorded for the press is
    backward: once the thumb has moved on by that page, the loop of the
    held press scrolls back. *)
Theorem track_press_at_leading_edge :
  let s' := onScrollBarPointerDown wideContent pressAtLeadingEdge
              (runFrame wideContent plain) in
  offsetX pressAtLeadingEdge = inject_Z (offsetLeft (hBarThumb wideContent))
  /\ scrollPageLength (press s') = Fin (400 * 25 / 100)
  /\ domCalls (page s')
     = [PreventDefault; ScrollBy (Some (Fin (400 * 25 / 100))) None Smooth]
  /\ contScrollBackwards (press s') = true
  /\ domCalls (page (rafScroll afterPage s'))
     = domCalls (page s')
       ++ [ScrollBy (Some (Fin (- (400 * 25 / 100) / 10))) (Some (ofZ 0)) Auto].
Proof. repeat split. Qed.

(** ** The loop of a held press *)

(** A step after the pointer was released scrolls nothing and requests no
    further frame. *)
Lemma rafScroll_released (d : Dom) (s : State) :
  isPointerDown (press s) = false ->
  rafScroll d s = removeClass "scrolling" s.
Proof. intros H. unfold rafScroll. now rewrite H. Qed.

(** So does a step that finds the press point in the rectangle it builds
    for the thumb. *)
Lemma rafScroll_contained (d : Dom) (s : State) :
  rectContains
    (thumbRectOf (if contScrollHorizontal (press s) then hBarThumb d else vBarThumb d))
    (contScrollStartPos (press s)) = true ->
  rafScroll d s = removeClass "scrolling" s.
Proof.
  intros H. unfold rafScroll.
  destruct (isPointerDown (press s)); cbn [negb]; [|reflexivity].
  destruct (contScrollHorizontal (press s)); now rewrite H.
Qed.

(** Any other step scrolls by a tenth of the page length, backward or
    forward, along the axis of the press, and requests the next frame. *)
Lemma rafScroll_step (d : Dom) (s : State) :
  isPointerDown (press s) = true ->
  rectContains
    (thumbRectOf (if contScrollHorizontal (press s) then hBarThumb d else vBarThumb d))
    (contScrollStartPos (press s)) = false ->
  let distance :=
    if contScrollBackwards (press s)
    then Num.div (Num.neg (scrollPageLength (press s))) ten
    else Num.div (scrollPageLength (press s)) ten in
  let s' := rafScroll d s in
  domCalls (page s')
  = domCalls (page s)
    ++ [ScrollBy (Some (if contScrollHorizontal (press s) then distance else ofZ 0))
                 (Some (if contScrollHorizontal (press s) then ofZ 0 else distance))
                 Auto]
  /\ rafQueue (page s') = rafQueue (page s) ++ [RafScroll].
Proof.
  intros Hp Hc. cbv zeta. unfold rafScroll. rewrite Hp. cbn [negb].
  destruct (contScrollHorizontal (press s)); rewrite Hc; split; reflexivity.
Qed.

Lemma leb_Fin (a b : Q) : Num.leb (Fin a) (Fin b) = true <-> (a <= b)%Q.
Proof.
  unfold Num.leb, Num.ltb, Num.eqb.
  destruct (Qcompare_spec a b) as [H|H|H]; cbn [orb].
  - rewrite Qeq_bool_iff. split; intros; [lra | exact H].
  - split; intros; [lra | reflexivity].
  - rewrite Qeq_bool_iff. split; intros; lra.
Qed.

Lemma min_Fin (a b : Q) : (a <= b)%Q -> Num.min (Fin a) (Fin b) = Fin a.
Proof.
  intros H. unfold Num.min, Num.ltb.
  destruct (Qcompare_spec b a) as [E|E|E]; try reflexivity. lra.
Qed.

Lemma leb_max (x a b : Q) :
  (a <= b)%Q -> (x <= b)%Q -> Num.leb (Fin x) (Num.max (Fin a) (Fin b)) = true.
Proof.
  intros Hab Hx. unfold Num.max, Num.ltb.
  destruct (Qcompare_spec a b) as [E|E|E]; apply leb_Fin; lra.
Qed.

(** With the thumb at a non-negative offset the rectangle the loop tests
    covers the thumb's box, so the loop still stops once the thumb's box
    contains the press point. *)
Lemma thumbBox_within_thumbRect (b : Box) (x y : Q) :
  (0 <= offsetLeft b)%Z -> (0 <= offsetTop b)%Z ->
  (0 <= offsetWidth b)%Z -> (0 <= offsetHeight b)%Z ->
  thumbBoxContains b x y = true ->
  rectContains (thumbRectOf b) {| pt_x := Fin x; pt_y := Fin y |} = true.
Proof.
  intros Hl Ht Hw Hh Hc. unfold thumbBoxContains in Hc.
  repeat (apply andb_true_iff in Hc; destruct Hc as [Hc ?]).
  repeat match goal with
         | H : Qle_bool _ _ = true |- _ => apply Qle_bool_iff in H
         end.
  rewrite inject_Z_plus in *.
  rewrite Zle_Qle in Hl, Ht, Hw, Hh. change (inject_Z 0) with 0%Q in *.
  unfold rectContains, rect_left, rect_right, rect_top, rect_bottom, thumbRectOf,
    Num.geb, Num.ofZ.
  cbn [rect_x rect_y rect_width rect_height pt_x pt_y Num.add].
  rewrite !min_Fin by lra.
  rewrite !leb_max by lra.
  rewrite !(proj2 (leb_Fin _ _)) by lra. reflexivity.
Qed.

(** C5 fails on the code.  The rectangle the loop tests is built with the
    thumb's right and bottom edges in the place of its width and height.
    While the pointer is held over the horizontal track the thumb lies one
    pixel above the track and covers its lower border, from -1 to 10; a
    press on that border, 9.5 pixels from the top, is a point the thumb's
    box contains, but it is outside the rectangle tested, which ends at 9:
    the loop scrolls one more step and requests another frame. *)
Theorem rafScroll_steps_under_the_thumb :
  isPointerDown (press heldPress) = true
  /\ contScrollStartPos (press heldPress) = {| pt_x := ofZ 60; pt_y := Fin (19 # 2) |}
  /\ hBarThumb hoveredTrack = box 50 (-1) 25 11
  /\ thumbBoxContains (hBarThumb hoveredTrack) 60 (19 # 2) = true
  /\ domCalls (page (rafScroll hoveredTrack heldPress))
     = domCalls (page heldPress)
       ++ [ScrollBy (Some (Fin (100 / 10))) (Some (ofZ 0)) Auto]
  /\ rafQueue (page (rafScroll hoveredTrack heldPress)) = [RafScroll].
Proof. repeat split. Qed.

(** The same rectangle stops the loop early: the thumb of [wideContent]
    spans 38 to 63 pixels, the press at 90 pixels lies beyond it, yet the
    first step finds the press point in the rectangle and scrolls
    nothing. *)
Lemma rafScroll_stops_before_the_thumb_arrives :
  thumbBoxContains (hBarThumb wideContent) 90 4 = false
  /\ rafScroll wideContent heldBeyondThumb = removeClass "scrolling" heldBeyondThumb.
Proof. split; reflexivity. Qed.

(** ** Dragging a thumb *)

Lemma div_Fin_nonzero (a b : Q) :
  ~ (b == 0)%Q -> Num.div (Fin a) (Fin b) = Fin (a / b).
Proof.
  intros Hb. unfold Num.div.
  destruct (Qcompare_spec b 0) as [H|H|H]; [contradiction | reflexivity | reflexivity].
Qed.

Lemma inject_Z_minus_nonzero (a b : Z) :
  a <> b -> ~ (inject_Z a + - inject_Z b == 0)%Q.
Proof.
  intros Hab H. apply Hab. apply inject_Z_injective. lra.
Qed.

Lemma linearDrag_intro (start edge track thumb scroll client delta : Q) :
  ~ (track - thumb == 0)%Q ->
  linearDrag start edge track thumb scroll client delta
             (start + delta * ((scroll - client) / (track - thumb))).
Proof.
  intros Hnz. unfold linearDrag. split; [reflexivity|].
  intros Hstart Hmax. rewrite Hstart.
  set (f := ((scroll - client) / (track - thumb))%Q).
  assert (E : (edge * f + delta * f == (edge + delta) * f)%Q) by ring.
  rewrite E, Hmax. unfold f. field. exact Hnz.
Qed.

(** A pointer move leaves the drag as pointer-down captured it. *)
Lemma drag_onDragThumbPointerMove (d : Dom) (event : PointerEvent) (s : State) :
  drag (onDragThumbPointerMove d event s) = drag s.
Proof.
  unfold onDragThumbPointerMove.
  destruct (draggingThumb (drag s)) as [[|]|]; reflexivity.
Qed.

Lemma drag_horizontal (d0 d : Dom) (down move : PointerEvent) (s0 s : State) :
  target down = OnThumb HBarThumb ->
  drag s = drag (onDragThumbPointerDown d0 down s0) ->
  offsetWidth (domBox d) = clientWidth d ->
  offsetWidth (hBar d0) <> offsetWidth (hBarThumb d0) ->
  exists v,
    domCalls (page (onDragThumbPointerMove d move s))
    = domCalls (page s) ++ [ScrollTo (Some (Fin v)) None]
    /\ linearDrag (scrollLeft d0)
                  (inject_Z (offsetLeft (hBarThumb d0)))
                  (inject_Z (offsetWidth (hBar d0)))
                  (inject_Z (offsetWidth (hBarThumb d0)))
                  (inject_Z (scrollWidth d))
                  (inject_Z (clientWidth d))
                  (clientX move - clientX down) v.
Proof.
  intros Ht Hs Hoc Hne.
  unfold onDragThumbPointerMove, dragFactorH. rewrite Hs.
  unfold onDragThumbPointerDown. rewrite Ht.
  cbn [drag addClass call with_classList with_domCalls with_page with_drag
       draggingThumb dragStart dragStartElementPos draggingThumbRect
       draggingBarRect pt_x rect_width thumbBox parentBox].
  rewrite Hoc. unfold Num.ofZ, Num.sub. cbn [Num.neg Num.add].
  rewrite div_Fin_nonzero by now apply inject_Z_minus_nonzero.
  cbn [Num.mul Num.add].
  eexists. split; [reflexivity|].
  apply linearDrag_intro. now apply inject_Z_minus_nonzero.
Qed.

Lemma drag_vertical (d0 d : Dom) (down move : PointerEvent) (s0 s : State) :
  target down = OnThumb VBarThumb ->
  drag s = drag (onDragThumbPointerDown d0 down s0) ->
  offsetHeight (domBox d) = clientHeight d ->
  offsetHeight (vBar d0) <> offsetHeight (vBarThumb d0) ->
  exists v,
    domCalls (page (onDragThumbPointerMove d move s))
    = domCalls (page s) ++ [ScrollTo None (Some (Fin v))]
    /\ linearDrag (scrollTop d0)
                  (inject_Z (offsetTop (vBarThumb d0)))
                  (inject_Z (offsetHeight (vBar d0)))
                  (inject_Z (offsetHeight (vBarThumb d0)))
                  (inject_Z (scrollHeight d))
                  (inject_Z (clientHeight d))
                  (clientY move - clientY down) v.
Proof.
  intros Ht Hs Hoc Hne.
  unfold onDragThumbPointerMove, dragFactorV. rewrite Hs.
  unfold onDragThumbPointerDown. rewrite Ht.
  cbn [drag addClass call with_classList with_domCalls with_page with_drag
       draggingThumb dragStart dragStartElementPos draggingThumbRect
       draggingBarRect pt_y rect_height thumbBox parentBox].
  rewrite Hoc. unfold Num.ofZ, Num.sub. cbn [Num.neg Num.add].
  rewrite div_Fin_nonzero by now apply inject_Z_minus_nonzero.
  cbn [Num.mul Num.add].
  eexists. split; [reflexivity|].
  apply linearDrag_intro. now apply inject_Z_minus_nonzero.
Qed.

(** C3, as the code has it.  Take a drag that started at pointer-down
    [down] in layout [d0], on a thumb shorter or longer than its track, and
    a surface whose offset extent is its client extent.  Every pointer move
    of the drag requests the scroll offset start offset + delta * f, with
    f = (scroll extent - client extent) / (track length - thumb length);
    and if the drag started with the start offset equal to the thumb's
    edge * f, dragging the thumb to the end of its range requests exactly
    scroll extent - client extent. *)
Theorem drag_scroll_mapping (d0 d : Dom) (down move : PointerEvent) (s0 s : State) :
  drag s = drag (onDragThumbPointerDown d0 down s0) ->
  let s' := onDragThumbPointerMove d move s in
  (target down = OnThumb HBarThumb ->
   offsetWidth (domBox d) = clientWidth d ->
   offsetWidth (hBar d0) <> offsetWidth (hBarThumb d0) ->
   exists v,
     domCalls (page s') = domCalls (page s) ++ [ScrollTo (Some (Fin v)) None]
     /\ linearDrag (scrollLeft d0)
                   (inject_Z (offsetLeft (hBarThumb d0)))
                   (inject_Z (offsetWidth (hBar d0)))
                   (inject_Z (offsetWidth (hBarThumb d0)))
                   (inject_Z (scrollWidth d))
                   (inject_Z (clientWidth d))
                   (clientX move - clientX down) v)
  /\ (target down = OnThumb VBarThumb ->
      offsetHeight (domBox d) = clientHeight d ->
      offsetHeight (vBar d0) <> offsetHeight (vBarThumb d0) ->
      exists v,
        domCalls (page s') = domCalls (page s) ++ [ScrollTo None (Some (Fin v))]
        /\ linearDrag (scrollTop d0)
                      (inject_Z (offsetTop (vBarThumb d0)))
                      (inject_Z (offsetHeight (vBar d0)))
                      (inject_Z (offsetHeight (vBarThumb d0)))
                      (inject_Z (scrollHeight d))
                      (inject_Z (clientHeight d))
                      (clientY move - clientY down) v)
  /\ drag s' = drag s.
Proof.
  intros Hs. cbv zeta. split; [|split].
  - intros Ht Hoc Hne. now apply (drag_horizontal d0 d down move s0 s).
  - intros Ht Hoc Hne. now apply (drag_vertical d0 d down move s0 s).
  - apply drag_onDragThumbPointerMove.
Qed.

(** A drag of the thumb of [atStart] by the 75 pixels of its range requests
    the scroll offset 300 = 400 - 100. *)
Lemma drag_scroll_mapping_witness :
  exists v,
    domCalls (page (onDragThumbPointerMove atStart
                      (pointerAt (OnThumb HBarThumb) 80 4 5 4)
                      (onDragThumbPointerDown atStart
                         (pointerAt (OnThumb HBarThumb) 5 4 5 4)
                         (runFrame atStart plain))))
    = [PreventDefault; AddPointerMoveListener HBarThumb;
       SetPointerCapture HBarThumb 1; ScrollTo (Some (Fin v)) None]
    /\ (v == 300)%Q.
Proof.
  destruct (proj1 (drag_scroll_mapping atStart atStart
                     (pointerAt (OnThumb HBarThumb) 5 4 5 4)
                     (pointerAt (OnThumb HBarThumb) 80 4 5 4)
                     (runFrame atStart plain)
                     (onDragThumbPointerDown atStart
                        (pointerAt (OnThumb HBarThumb) 5 4 5 4)
                        (runFrame atStart plain))
                     eq_refl) eq_refl eq_refl)
    as (v & Hc & Hv & Hmax).
  - simpl. lia.
  - exists v. split; [exact Hc|].
    rewrite Hmax; [reflexivity | reflexivity | reflexivity].
Defined.

(** C3, as stated, fails: the thumb of [deepContent] is kept at its
    minimum size.  Dragged by 34 pixels it reaches the end of its range, 84
    pixels from the left, and the scroll offset requested is 5000 + 34 *
    9900 / 84, not 9900 = 10000 - 100. *)
Lemma drag_scroll_mapping_counterexample :
  let s := onDragThumbPointerDown deepContent
             (pointerAt (OnThumb HBarThumb) 55 4 5 4)
             (runFrame deepContent plain) in
  let s' := onDragThumbPointerMove deepContent
              (pointerAt (OnThumb HBarThumb) 89 4 5 4) s in
  exists l v,
    hBarThumb_left (styles (page s')) = Px (Fin l)
    /\ (l == 100 - 16)%Q
    /\ domCalls (page s') = domCalls (page s) ++ [ScrollTo (Some (Fin v)) None]
    /\ (v == 5000 + 34 * (9900 / 84))%Q
    /\ ~ (v == 10000 - 100)%Q.
Proof.
  cbv zeta. eexists. eexists.
  split; [vm_compute; reflexivity|].
  split; [reflexivity|].
  split; [vm_compute; reflexivity|].
  split; [reflexivity|].
  vm_compute. discriminate.
Qed.

(** * Further properties of the engine *)

(** ** The thumb stays on its track *)

Lemma percent_of_quotient (a : Q) (z : Z) :
  z <> 0%Z ->
  fractionOf (Percent (Num.mul (Num.div (Fin a) (Num.orElse (ofZ z) epsilon)) hundred))
  = Some (a / inject_Z z * 100 / 100)%Q.
Proof.
  intros Hz. rewrite orElse_ofZ.
  destruct (Z.eqb_spec z 0) as [->|_]; [contradiction|].
  rewrite div_ofZ_nonzero by exact Hz. reflexivity.
Qed.

Lemma fractions_within_track (off : Q) (w sw : Z) :
  (0 <= w < sw)%Z ->
  (0 <= off)%Q ->
  (off <= inject_Z sw - inject_Z w)%Q ->
  let p := (off / inject_Z sw * 100 / 100)%Q in
  let q := (inject_Z w / inject_Z sw * 100 / 100)%Q in
  (0 <= p)%Q /\ (0 <= q)%Q /\ (p + q <= 1)%Q
  /\ ((p + q == 1)%Q <-> (off == inject_Z sw - inject_Z w)%Q).
Proof.
  intros [Hw Hlt] Ho Hmax. cbv zeta.
  assert (Hpos : (0 < inject_Z sw)%Q).
  { change 0%Q with (inject_Z 0). rewrite <- Zlt_Qlt. lia. }
  assert (Hw' : (0 <= inject_Z w)%Q).
  { change 0%Q with (inject_Z 0). now rewrite <- Zle_Qle. }
  assert (Hnz : ~ (inject_Z sw == 0)%Q) by lra.
  assert (Ep : (off / inject_Z sw * 100 / 100 == off / inject_Z sw)%Q)
    by (field; exact Hnz).
  assert (Eq : (inject_Z w / inject_Z sw * 100 / 100 == inject_Z w / inject_Z sw)%Q)
    by (field; exact Hnz).
  assert (Es : (off / inject_Z sw + inject_Z w / inject_Z sw
                == (off + inject_Z w) / inject_Z sw)%Q)
    by (field; exact Hnz).
  rewrite Ep, Eq, Es. repeat split.
  - apply Qle_shift_div_l; [exact Hpos | lra].
  - apply Qle_shift_div_l; [exact Hpos | lra].
  - apply Qle_shift_div_r; [exact Hpos | lra].
  - intros H1.
    assert (E : (off + inject_Z w == (off + inject_Z w) / inject_Z sw * inject_Z sw)%Q)
      by (field; exact Hnz).
    rewrite H1 in E. lra.
  - intros H1.
    assert (E : (off + inject_Z w == inject_Z sw)%Q) by lra.
    rewrite E. field. exact Hnz.
Qed.

(** X1.  After a sync pass over overflowing content scrolled to a valid
    offset (between 0 and scroll extent - client extent), the thumb of an
    enabled axis lies on its track: its position and size fractions are
    not negative and add up to at most 1, and to exactly 1 precisely at
    the maximum scroll offset. *)
Theorem sync_thumb_within_track (d : Dom) (s : State) :
  let st := styles (page (syncPass d s)) in
  (_horizontal (config s) = true ->
   (0 <= clientWidth d < scrollWidth d)%Z ->
   (0 <= scrollLeft d)%Q ->
   (scrollLeft d <= inject_Z (scrollWidth d) - inject_Z (clientWidth d))%Q ->
   exists p q,
     fractionOf (hBarThumb_left st) = Some p
     /\ fractionOf (hBarThumb_width st) = Some q
     /\ (0 <= p)%Q /\ (0 <= q)%Q /\ (p + q <= 1)%Q
     /\ ((p + q == 1)%Q
         <-> (scrollLeft d == inject_Z (scrollWidth d) - inject_Z (clientWidth d))%Q))
  /\ (_vertical (config s) = true ->
      (0 <= clientHeight d < scrollHeight d)%Z ->
      (0 <= scrollTop d)%Q ->
      (scrollTop d <= inject_Z (scrollHeight d) - inject_Z (clientHeight d))%Q ->
      exists p q,
        fractionOf (vBarThumb_top st) = Some p
        /\ fractionOf (vBarThumb_height st) = Some q
        /\ (0 <= p)%Q /\ (0 <= q)%Q /\ (p + q <= 1)%Q
        /\ ((p + q == 1)%Q
            <-> (scrollTop d == inject_Z (scrollHeight d) - inject_Z (clientHeight d))%Q)).
Proof.
  cbv zeta. split; intros Hen Hw Ho Hmax.
  - destruct (syncPass_horizontal d s Hen) as (_ & Ht & Hl). rewrite Ht, Hl.
    rewrite (proj2 (ltb_client_scroll _ _)) by lia.
    change (ofZ (clientWidth d)) with (Fin (inject_Z (clientWidth d))).
    rewrite !percent_of_quotient by lia.
    do 2 eexists. split; [reflexivity|]. split; [reflexivity|].
    now apply fractions_within_track.
  - destruct (syncPass_vertical d s Hen) as (_ & Ht & Hl). rewrite Ht, Hl.
    rewrite (proj2 (ltb_client_scroll _ _)) by lia.
    change (ofZ (clientHeight d)) with (Fin (inject_Z (clientHeight d))).
    rewrite !percent_of_quotient by lia.
    do 2 eexists. split; [reflexivity|]. split; [reflexivity|].
    now apply fractions_within_track.
Qed.

Lemma sync_thumb_within_track_witness :
  exists p q,
    fractionOf (hBarThumb_left (styles (page (syncPass wideContent plain)))) = Some p
    /\ fractionOf (hBarThumb_width (styles (page (syncPass wideContent plain)))) = Some q
    /\ (p + q <= 1)%Q.
Proof.
  destruct (proj1 (sync_thumb_within_track wideContent plain) eq_refl)
    as (p & q & Hp & Hq & _ & _ & Hle & _).
  - simpl. lia.
  - unfold Qle. simpl. lia.
  - unfold Qle. simpl. lia.
  - exists p, q. auto.
Defined.

(** ** The extent of the tracks *)

Lemma hoff_after_voff_added (X : gset string) :
  bool_decide ("h-off"%string ∈ {[ "v-off"%string ]} ∪ X)
  = bool_decide ("h-off"%string ∈ X).
Proof. apply bool_decide_ext. set_solver. Qed.

Lemma hoff_after_voff_removed (X : gset string) :
  bool_decide ("h-off"%string ∈ X ∖ {[ "v-off"%string ]})
  = bool_decide ("h-off"%string ∈ X).
Proof. apply bool_decide_ext. set_solver. Qed.

Lemma hoff_after_hoff_added (X : gset string) :
  bool_decide ("h-off"%string ∈ {[ "h-off"%string ]} ∪ X) = true.
Proof. apply bool_decide_eq_true_2. set_solver. Qed.

Lemma hoff_after_hoff_removed (X : gset string) :
  bool_decide ("h-off"%string ∈ X ∖ {[ "h-off"%string ]}) = false.
Proof. apply bool_decide_eq_false_2. set_solver. Qed.

(** A pass in closed form: it writes classes and styles, nothing else. *)
Lemma syncPass_closed (d : Dom) (s : State) :
  syncPass d s = with_classList (classesAfterPass d s) (with_styles (stylesAfterPass d s) s).
Proof.
  destruct s as [[hz vt nt ha va a1 a2 a3 a4] g p [cl ob st rq tm dc]].
  destruct st as [x1 x2 x3 x4 x5 x6 x7 x8 x9 x10].
  cbv [syncPass syncHorizontal syncVertical classesAfterPass stylesAfterPass
       classList_contains addClass removeClass with_classList with_styles
       with_page set_hBarOverlay_width set_vBarOverlay_height
       config drag press page classList adjustmentObserved styles rafQueue
       timers domCalls _horizontal _vertical hBarLeftOffset hBarReduceWidth
       vBarTopOffset vBarReduceHeight
       hBarOverlay_display hBarOverlay_left hBarOverlay_width hBarThumb_width
       hBarThumb_left vBarOverlay_display vBarOverlay_top vBarOverlay_height
       vBarThumb_height vBarThumb_top].
  generalize (Num.geb (ofZ (clientWidth d)) (Num.orElse (ofZ (scrollWidth d)) epsilon))
    as gh.
  generalize (Num.geb (ofZ (clientHeight d)) (Num.orElse (ofZ (scrollHeight d)) epsilon))
    as gv.
  intros gv gh.
  destruct hz, vt, gh, gv; cbv beta iota zeta delta [fst snd andb negb];
    rewrite ?hoff_after_voff_added, ?hoff_after_voff_removed,
      ?hoff_after_hoff_added, ?hoff_after_hoff_removed;
    try destruct (bool_decide ("h-off"%string ∈ cl));
    reflexivity.
Qed.

(** A pass touches the classes and the styles only. *)
Lemma syncPass_frame (d : Dom) (s : State) :
  let s' := syncPass d s in
  config s' = config s /\ drag s' = drag s /\ press s' = press s
  /\ adjustmentObserved (page s') = adjustmentObserved (page s)
  /\ rafQueue (page s') = rafQueue (page s)
  /\ timers (page s') = timers (page s)
  /\ domCalls (page s') = domCalls (page s).
Proof.
  cbv zeta. rewrite syncPass_closed. repeat split; reflexivity.
Qed.

(** The two overlay extents a pass writes.  [hasHOff] and [hasVOff] are
    the locals of the callback: an axis is off when it is enabled and its
    content does not overflow. *)
Lemma syncPass_overlays (d : Dom) (s : State) :
  let w := ofZ (clientWidth d) in
  let h := ofZ (clientHeight d) in
  let hasHOff := _horizontal (config s)
                 && Num.geb w (Num.orElse (ofZ (scrollWidth d)) epsilon) in
  let hasVOff := _vertical (config s)
                 && Num.geb h (Num.orElse (ofZ (scrollHeight d)) epsilon) in
  let hOffClass := if _horizontal (config s) then hasHOff
                   else classList_contains "h-off" s in
  let st := styles (page s) in
  let st' := styles (page (syncPass d s)) in
  hBarOverlay_width st' =
    (if _horizontal (config s) then
       if hasVOff
       then Px (Num.sub (Num.sub w (hBarLeftOffset (config s)))
                        (hBarReduceWidth (config s)))
       else CalcPxMinusThumbGap
              (Num.sub (Num.sub (Num.sub w (hBarLeftOffset (config s)))
                                (hBarReduceWidth (config s)))
                       (ofZ (offsetWidth (vBar d))))
     else hBarOverlay_width st)
  /\ hBarOverlay_left st' =
       (if _horizontal (config s)
        then Px (Num.add (hBarLeftOffset (config s)) (hBarReduceWidth (config s)))
        else hBarOverlay_left st)
  /\ vBarOverlay_height st' =
       (if _vertical (config s) && negb hOffClass
        then CalcPxMinusThumbGap
               (Num.sub (Num.sub (Num.sub h (vBarTopOffset (config s)))
                                 (vBarReduceHeight (config s)))
                        (ofZ (offsetHeight (hBar d))))
        else vBarOverlay_height st)
  /\ vBarOverlay_top st' =
       (if _vertical (config s)
        then Px (Num.add (vBarTopOffset (config s)) (vBarReduceHeight (config s)))
        else vBarOverlay_top st).
Proof.
  cbv zeta. rewrite syncPass_closed. repeat split; reflexivity.
Qed.

(** The classes after a pass: [h-off] and [v-off] are set or cleared for
    the enabled axes, every other class is kept. *)
Lemma syncPass_classes (d : Dom) (s : State) :
  let hasHOff := Num.geb (ofZ (clientWidth d))
                         (Num.orElse (ofZ (scrollWidth d)) epsilon) in
  let hasVOff := Num.geb (ofZ (clientHeight d))
                         (Num.orElse (ofZ (scrollHeight d)) epsilon) in
  let c1 := if _horizontal (config s)
            then if hasHOff then {[ "h-off"%string ]} ∪ classList (page s)
                 else classList (page s) ∖ {[ "h-off"%string ]}
            else classList (page s) in
  classList (page (syncPass d s))
  = (if _vertical (config s)
     then if hasVOff then {[ "v-off"%string ]} ∪ c1
          else c1 ∖ {[ "v-off"%string ]}
     else c1).
Proof.
  cbv zeta. rewrite syncPass_closed. reflexivity.
Qed.

(** The styles of the thumbs and the visibility of the tracks after a
    pass, for enabled and disabled axes. *)
Lemma syncPass_thumbs (d : Dom) (s : State) :
  let w := ofZ (clientWidth d) in
  let sw := Num.orElse (ofZ (scrollWidth d)) epsilon in
  let h := ofZ (clientHeight d) in
  let sh := Num.orElse (ofZ (scrollHeight d)) epsilon in
  let st := styles (page s) in
  let st' := styles (page (syncPass d s)) in
  hBarOverlay_display st' =
    (if _horizontal (config s)
     then if Num.ltb w sw then DisplayDefault else DisplayNone
     else DisplayNone)
  /\ hBarThumb_width st' =
       (if _horizontal (config s)
        then if Num.ltb w sw then Percent (Num.mul (Num.div w sw) hundred)
             else Percent hundred
        else hBarThumb_width st)
  /\ hBarThumb_left st' =
       (if _horizontal (config s)
        then Percent (Num.mul (Num.div (Fin (scrollLeft d)) sw) hundred)
        else hBarThumb_left st)
  /\ vBarOverlay_display st' =
       (if _vertical (config s)
        then if Num.ltb h sh then DisplayDefault else DisplayNone
        else DisplayNone)
  /\ vBarThumb_height st' =
       (if _vertical (config s)
        then if Num.ltb h sh then Percent (Num.mul (Num.div h sh) hundred)
             else Percent hundred
        else vBarThumb_height st)
  /\ vBarThumb_top st' =
       (if _vertical (config s)
        then Percent (Num.mul (Num.div (Fin (scrollTop d)) sh) hundred)
        else vBarThumb_top st).
Proof.
  cbv zeta. rewrite syncPass_closed. repeat split; reflexivity.
Qed.

Lemma State_ext (s t : State) :
  config s = config t -> drag s = drag t -> press s = press t ->
  page s = page t -> s = t.
Proof. destruct s, t; cbn; intros; subst; reflexivity. Qed.

Lemma Page_ext (p q : Page) :
  classList p = classList q ->
  adjustmentObserved p = adjustmentObserved q ->
  styles p = styles q ->
  rafQueue p = rafQueue q -> timers p = timers q -> domCalls p = domCalls q ->
  p = q.
Proof. destruct p, q; cbn; intros; subst; reflexivity. Qed.

Lemma Styles_ext (a b : Styles) :
  hBarOverlay_display a = hBarOverlay_display b ->
  hBarOverlay_left a = hBarOverlay_left b ->
  hBarOverlay_width a = hBarOverlay_width b ->
  hBarThumb_width a = hBarThumb_width b ->
  hBarThumb_left a = hBarThumb_left b ->
  vBarOverlay_display a = vBarOverlay_display b ->
  vBarOverlay_top a = vBarOverlay_top b ->
  vBarOverlay_height a = vBarOverlay_height b ->
  vBarThumb_height a = vBarThumb_height b ->
  vBarThumb_top a = vBarThumb_top b ->
  a = b.
Proof. destruct a, b; cbn; intros; subst; reflexivity. Qed.

(** A second pass over the same layout changes nothing. *)
Lemma syncPass_idempotent (d : Dom) (s : State) :
  syncPass d (syncPass d s) = syncPass d s.
Proof.
  destruct (syncPass_frame d s) as (C & G & P & O & R & T & D).
  destruct (syncPass_frame d (syncPass d s)) as (C' & G' & P' & O' & R' & T' & D').
  cbv zeta in *.
  apply State_ext; [congruence | congruence | congruence |].
  apply Page_ext; try congruence.
  - rewrite (syncPass_classes d (syncPass d s)), C.
    rewrite (syncPass_classes d s). cbv zeta.
    destruct (_horizontal (config s)), (_vertical (config s));
      repeat match goal with
             | |- context [if ?b then _ else _] => destruct b
             end; set_solver.
  - pose proof (syncPass_thumbs d (syncPass d s)) as A.
    pose proof (syncPass_thumbs d s) as B.
    pose proof (syncPass_overlays d (syncPass d s)) as A'.
    pose proof (syncPass_overlays d s) as B'.
    cbv zeta in *. rewrite C in A, A'.
    assert (Hc : classList_contains "h-off" (syncPass d s)
                 = if _horizontal (config s)
                   then Num.geb (ofZ (clientWidth d))
                                (Num.orElse (ofZ (scrollWidth d)) epsilon)
                   else classList_contains "h-off" s).
    { unfold classList_contains. rewrite (syncPass_classes d s). cbv zeta.
      destruct (_horizontal (config s)), (_vertical (config s));
        repeat match goal with
               | |- context [if ?b then _ else _] => destruct b
               end;
        rewrite ?hoff_after_voff_added, ?hoff_after_voff_removed,
          ?hoff_after_hoff_added, ?hoff_after_hoff_removed; reflexivity. }
    rewrite Hc in A'.
    destruct A as (A1 & A2 & A3 & A4 & A5 & A6), B as (B1 & B2 & B3 & B4 & B5 & B6).
    destruct A' as (A7 & A8 & A9 & A10), B' as (B7 & B8 & B9 & B10).
    apply Styles_ext;
      [rewrite A1, B1 | rewrite A8, B8 | rewrite A7, B7 | rewrite A2, B2
       | rewrite A3, B3 | rewrite A4, B4 | rewrite A10, B10 | rewrite A9, B9
       | rewrite A5, B5 | rewrite A6, B6];
      destruct (_horizontal (config s)), (_vertical (config s)); cbn [andb negb];
      repeat match goal with
             | |- context [if ?b then _ else _] => destruct b; cbn [andb negb]
             end; reflexivity.
Qed.

(** ** Several sync calls, one frame *)

Lemma with_rafQueue_id (s : State) : with_rafQueue (rafQueue (page s)) s = s.
Proof. destruct s as [c g p [cl ob st rq tm dc]]. reflexivity. Qed.

Lemma syncCalls_queue (events : list bool) (s : State) :
  dragging (drag s) = false ->
  syncCalls events s
  = with_rafQueue (rafQueue (page s) ++ repeat SyncFrame (length events))
      (if existsb id events then addClass "scrolling" s else s).
Proof.
  revert s. induction events as [|e events IH]; intros s Hd.
  - cbn. rewrite app_nil_r. symmetry. apply with_rafQueue_id.
  - cbn [syncCalls fold_left]. fold (syncCalls events (syncScrollBars e s)).
    assert (Hs : syncScrollBars e s
                 = requestAnimationFrame SyncFrame
                     (if e then addClass "scrolling" s else s)).
    { unfold syncScrollBars.
      replace (dragging (drag (if e then addClass "scrolling" s else s)))
        with false by (destruct e; now rewrite <- Hd).
      reflexivity. }
    rewrite Hs, IH by (destruct e; exact Hd).
    cbn [existsb length repeat]. unfold id at 2.
    apply State_ext; try (destruct e, (existsb id events); reflexivity).
    apply Page_ext; try (destruct e, (existsb id events); reflexivity).
    + destruct e, (existsb id events); cbn; try reflexivity. set_solver.
    + destruct e, (existsb id events); cbn; now rewrite <- app_assoc.
Qed.

Lemma runFrame_syncs (d : Dom) (n : nat) (s : State) :
  runFrame d (with_rafQueue (repeat SyncFrame (S n)) s)
  = syncPass d (with_rafQueue [] s).
Proof.
  unfold runFrame.
  change (rafQueue (page (with_rafQueue (repeat SyncFrame (S n)) s)))
    with (repeat SyncFrame (S n)).
  change (with_rafQueue [] (with_rafQueue (repeat SyncFrame (S n)) s))
    with (with_rafQueue [] s).
  generalize (with_rafQueue [] s) as t. intros t.
  cbn [repeat fold_left runTask].
  induction n as [|n IH]; cbn [repeat fold_left runTask].
  - reflexivity.
  - rewrite syncPass_idempotent. exact IH.
Qed.

(** X2.  Sync calls are not merged when they are made, but the frame
    merges them: any number of calls outside a drag, at least one, queues
    that many passes, and the next frame leaves the container as a single
    pass would, in the is-scrolling state if one of the calls came with a
    scroll event, and with nothing left in the queue. *)
Theorem frame_merges_sync_calls (d : Dom) (events : list bool) (s : State) :
  dragging (drag s) = false ->
  rafQueue (page s) = [] ->
  events <> [] ->
  rafQueue (page (syncCalls events s)) = repeat SyncFrame (length events)
  /\ runFrame d (syncCalls events s)
     = syncPass d (if existsb id events then addClass "scrolling" s else s)
  /\ rafQueue (page (runFrame d (syncCalls events s))) = [].
Proof.
  intros Hd Hq Hne. rewrite syncCalls_queue by exact Hd. rewrite Hq. cbn [app].
  split; [reflexivity|].
  destruct events as [|e events]; [contradiction|]. cbn [length].
  rewrite runFrame_syncs.
  assert (E : with_rafQueue [] (if existsb id (e :: events)
                                then addClass "scrolling" s else s)
              = (if existsb id (e :: events) then addClass "scrolling" s else s)).
  { destruct (existsb id (e :: events)).
    - rewrite <- (with_rafQueue_id (addClass "scrolling" s)) at 2.
      cbn [addClass with_classList with_page page rafQueue]. now rewrite Hq.
    - rewrite <- (with_rafQueue_id s) at 2. now rewrite Hq. }
  rewrite E. split; [reflexivity|].
  destruct (syncPass_frame d (if existsb id (e :: events)
                              then addClass "scrolling" s else s))
    as (_ & _ & _ & _ & R & _).
  cbv zeta in R. rewrite R. destruct (existsb id (e :: events)); exact Hq.
Qed.

Lemma frame_merges_sync_calls_witness :
  runFrame wideContent (syncCalls [false; true; false] (runFrame wideContent plain))
  = syncPass wideContent (addClass "scrolling" (runFrame wideContent plain)).
Proof.
  refine (proj1 (proj2 (frame_merges_sync_calls wideContent [false; true; false]
                          (runFrame wideContent plain) _ _ _)));
    [reflexivity | reflexivity | discriminate].
Defined.

(** ** Where the tracks lie *)

(** X3.  With numeric adjustments [offset] and [reduce], a pass over an
    enabled horizontal axis puts the track's left edge at offset + reduce
    and its right edge at the client width: the width written is client
    width - offset - reduce in pixels when the vertical axis is enabled
    and does not overflow; otherwise it is the [calc] length that is
    shorter by the vertical track's width and the thumb gap. *)
Theorem horizontal_track_extent (d : Dom) (s : State) (offset reduce : Q) :
  _horizontal (config s) = true ->
  hBarLeftOffset (config s) = Fin offset ->
  hBarReduceWidth (config s) = Fin reduce ->
  let st' := styles (page (syncPass d s)) in
  let hasVOff := _vertical (config s)
                 && Num.geb (ofZ (clientHeight d))
                            (Num.orElse (ofZ (scrollHeight d)) epsilon) in
  exists left width,
    hBarOverlay_left st' = Px (Fin left)
    /\ hBarOverlay_width st'
       = (if hasVOff then Px (Fin width) else CalcPxMinusThumbGap (Fin width))
    /\ (left == offset + reduce)%Q
    /\ (left + width
        == inject_Z (clientWidth d)
           - (if hasVOff then 0 else inject_Z (offsetWidth (vBar d))))%Q.
Proof.
  intros Hh Ho Hr. cbv zeta.
  destruct (syncPass_overlays d s) as (W & L & _). cbv zeta in W, L.
  rewrite W, L, Hh, Ho, Hr.
  destruct (_vertical (config s) && Num.geb _ _);
    do 2 eexists; (split; [reflexivity|]); (split; [reflexivity|]);
    split; try reflexivity; ring.
Qed.

Lemma horizontal_track_extent_witness :
  exists left width,
    hBarOverlay_left (styles (page (syncPass wideContent plain))) = Px (Fin left)
    /\ hBarOverlay_width (styles (page (syncPass wideContent plain))) = Px (Fin width)
    /\ (left + width == 100)%Q.
Proof.
  destruct (horizontal_track_extent wideContent plain 0 0 eq_refl eq_refl eq_refl)
    as (l & w & Hl & Hw & _ & Hs).
  exists l, w. split; [exact Hl|]. split; [exact Hw|].
  rewrite Hs. reflexivity.
Defined.

(** X4.  A pass over an enabled vertical axis never writes a plain pixel
    height to the vertical track.  While the class [h-off] is set (the
    horizontal axis is enabled and does not overflow, or the axis is
    disabled and the class is left from before) the height stays as it
    was; otherwise it becomes the [calc] length of client height - offset
    - reduce - height of the horizontal track, less the thumb gap. *)
Theorem vertical_track_height (d : Dom) (s : State) :
  _vertical (config s) = true ->
  let hOff := if _horizontal (config s)
              then Num.geb (ofZ (clientWidth d))
                           (Num.orElse (ofZ (scrollWidth d)) epsilon)
              else classList_contains "h-off" s in
  vBarOverlay_height (styles (page (syncPass d s)))
  = (if hOff then vBarOverlay_height (styles (page s))
     else CalcPxMinusThumbGap
            (Num.sub (Num.sub (Num.sub (ofZ (clientHeight d))
                                       (vBarTopOffset (config s)))
                              (vBarReduceHeight (config s)))
                     (ofZ (offsetHeight (hBar d))))).
Proof.
  intros Hv. cbv zeta.
  destruct (syncPass_overlays d s) as (_ & _ & H & _). cbv zeta in H.
  rewrite H, Hv. cbn [andb].
  destruct (_horizontal (config s)); cbn [andb];
    match goal with |- context [negb ?b] => destruct b end; reflexivity.
Qed.

Lemma vertical_track_height_witness :
  vBarOverlay_height (styles (page (syncPass tallContent plain)))
  = CalcPxMinusThumbGap (Fin (200 - 0 - 0 - 9)).
Proof.
  rewrite (vertical_track_height tallContent plain eq_refl). reflexivity.
Defined.

(** ** Observers of adjustment components *)

(** X5.  No adjustment observer leaks: a container as [buildUI] leaves it
    observes nothing, and both [horizontalAdjustment] and
    [verticalAdjustment] keep every observed element a source of one of the
    two current adjustments. *)
Theorem observers_never_leak (d : Dom) (adj : option ScrollbarAdjustment) (s : State) :
  (forall horizontal vertical, observedAreSources (built horizontal vertical))
  /\ (observedAreSources s ->
      observedAreSources (horizontalAdjustment d adj s)
      /\ observedAreSources (verticalAdjustment d adj s)).
Proof.
  split.
  - intros h v. unfold observedAreSources. cbn. set_solver.
  - unfold observedAreSources. intros Inv. split.
    + destruct (hAdjustment_horizontalAdjustment d adj s) as (Hh & Hv).
      rewrite Hh, Hv, observed_horizontalAdjustment, sources_adjustmentOr.
      set_solver.
    + destruct (vAdjustment_verticalAdjustment d adj s) as (Hv & Hh).
      rewrite Hh, Hv, observed_verticalAdjustment, sources_adjustmentOr.
      set_solver.
Qed.

Lemma observers_never_leak_witness :
  observedAreSources (horizontalAdjustment toolbarLayout (follow 2%positive) withToolbar).
Proof.
  pose proof (proj1 (observers_never_leak wideContent None (built true true))
                true true) as H0.
  pose proof (proj1 (proj2 (observers_never_leak wideContent None (built true true))
                       H0)) as H1.
  pose proof (proj2 (proj2 (observers_never_leak wideContent None
                              (horizontalAdjustment wideContent None (built true true)))
                       H1)) as H2.
  pose proof (proj1 (proj2 (observers_never_leak toolbarLayout (follow 1%positive)
                              plain) H2)) as H3.
  exact (proj1 (proj2 (observers_never_leak toolbarLayout (follow 2%positive)
                         withToolbar) H3)).
Defined.

(** X6.  The two axes share one observer, and replacing an adjustment
    unobserves its old elements without looking at the other axis: when
    both adjustments follow an element and one of them is replaced by an
    adjustment that does not use it, the element is still a source of the
    other adjustment but is no longer observed by it, so on its next
    resize that observer refreshes nothing and requests no sync. *)
Theorem shared_source_is_dropped (d d' : Dom) (adj : option ScrollbarAdjustment)
    (e : Elem) (s : State) :
  e ∈ sources (hAdjustment (config s)) ->
  e ∈ sources (vAdjustment (config s)) ->
  e ∉ sources adj ->
  (let s' := horizontalAdjustment d adj s in
   (e ∈ sources (vAdjustment (config s')))
   /\ (e ∉ adjustmentObserved (page s'))
   /\ adjustmentResized d' e s' = Some s')
  /\ (let s' := verticalAdjustment d adj s in
      (e ∈ sources (hAdjustment (config s')))
      /\ (e ∉ adjustmentObserved (page s'))
      /\ adjustmentResized d' e s' = Some s').
Proof.
  intros Hh Hv Hn. cbv zeta. split.
  - destruct (hAdjustment_horizontalAdjustment d adj s) as (_ & Ev).
    assert (Hout : e ∉ adjustmentObserved (page (horizontalAdjustment d adj s)))
      by (rewrite observed_horizontalAdjustment; set_solver).
    rewrite Ev. split; [exact Hv|]. split; [exact Hout|].
    unfold adjustmentResized. now rewrite bool_decide_eq_false_2 by exact Hout.
  - destruct (vAdjustment_verticalAdjustment d adj s) as (_ & Eh).
    assert (Hout : e ∉ adjustmentObserved (page (verticalAdjustment d adj s)))
      by (rewrite observed_verticalAdjustment; set_solver).
    rewrite Eh. split; [exact Hh|]. split; [exact Hout|].
    unfold adjustmentResized. now rewrite bool_decide_eq_false_2 by exact Hout.
Qed.

Lemma shared_source_is_dropped_witness :
  let s' := horizontalAdjustment toolbarLayout None sharedToolbar in
  (1%positive ∈ sources (vAdjustment (config s')))
  /\ (1%positive ∉ adjustmentObserved (page s'))
  /\ adjustmentResized toolbarLayout 1%positive s' = Some s'.
Proof.
  apply (proj1 (shared_source_is_dropped toolbarLayout toolbarLayout None
                  1%positive sharedToolbar
                  ltac:(vm_compute; set_solver)
                  ltac:(vm_compute; set_solver)
                  ltac:(vm_compute; set_solver))).
Defined.

(** What the four refreshes of an entry leave in the configuration. *)
Lemma adjustmentRefresh_config d ref ha va s :
  let c := config s in
  let c' := config (fst (adjustmentRefresh d ref ha va s)) in
  let b := elemBox d ref in
  hAdjustment c' = hAdjustment c /\ vAdjustment c' = vAdjustment c
  /\ hBarLeftOffset c' = (if isDOMOf ref (Offset ha)
                          then ofZ (offsetLeft b) else hBarLeftOffset c)
  /\ hBarReduceWidth c' = (if isDOMOf ref (ReduceSize ha)
                           then ofZ (offsetWidth b) else hBarReduceWidth c)
  /\ vBarTopOffset c' = (if isDOMOf ref (Offset va)
                         then ofZ (offsetTop b) else vBarTopOffset c)
  /\ vBarReduceHeight c' = (if isDOMOf ref (ReduceSize va)
                            then ofZ (offsetHeight b) else vBarReduceHeight c).
Proof.
  cbv zeta. unfold adjustmentRefresh.
  destruct (isDOMOf ref (Offset ha)), (isDOMOf ref (ReduceSize ha)),
    (isDOMOf ref (Offset va)), (isDOMOf ref (ReduceSize va));
    repeat split; reflexivity.
Qed.

Lemma isDOMOf_number ref (v : AdjustmentValue) n :
  v = AdjNumber n -> isDOMOf ref v = false.
Proof. intros ->. reflexivity. Qed.

(** One entry on a container whose adjustments are both set. *)
Lemma adjustmentEntry_effects d ref ha va s :
  hAdjustment (config s) = Some ha ->
  vAdjustment (config s) = Some va ->
  dragging (drag s) = false ->
  exists s',
    adjustmentEntry d ref s = Some s'
    /\ config s' = config (fst (adjustmentRefresh d ref ha va s))
    /\ dragging (drag s') = false
    /\ adjustmentObserved (page s') = adjustmentObserved (page s)
    /\ rafQueue (page s')
       = rafQueue (page s) ++ (if isSourceOf ha va ref then [SyncFrame] else []).
Proof.
  intros Hh Hv Hd. unfold adjustmentEntry. rewrite Hh, Hv.
  destruct (adjustmentRefresh_frame d ref ha va s) as (Hp & Hg & Hf).
  destruct (adjustmentRefresh d ref ha va s) as [s1 f] eqn:E.
  cbn [fst snd] in *. fold (isSourceOf ha va ref) in Hf. subst f.
  eexists. split; [reflexivity|].
  destruct (isSourceOf ha va ref).
  - assert (Es : syncScrollBars false s1 = requestAnimationFrame SyncFrame s1)
      by (unfold syncScrollBars; rewrite Hg, Hd; reflexivity).
    rewrite Es. split; [reflexivity|].
    split; [change (dragging (drag s1) = false); now rewrite Hg|].
    split; [change (adjustmentObserved (page s1) = adjustmentObserved (page s));
            now rewrite Hp|].
    change (rafQueue (page s1) ++ [SyncFrame] = rafQueue (page s) ++ [SyncFrame]).
    now rewrite Hp.
  - rewrite Hg, Hp, app_nil_r. repeat split; auto.
Qed.

(** X7.  On a container whose two adjustments are set, and outside a drag,
    the callback of the adjustment observer never throws, whatever it is
    handed: it keeps both adjustments and the observed set, queues one
    sync pass for every entry whose element is a source (entries are not
    merged), and never changes a stored value whose adjustment is a
    number. *)
Theorem adjustment_callback_delivery (d : Dom) (entries : list Elem)
    (ha va : ScrollbarAdjustment) (s : State) :
  hAdjustment (config s) = Some ha ->
  vAdjustment (config s) = Some va ->
  dragging (drag s) = false ->
  exists s',
    adjustmentCallback d entries s = Some s'
    /\ hAdjustment (config s') = Some ha
    /\ vAdjustment (config s') = Some va
    /\ adjustmentObserved (page s') = adjustmentObserved (page s)
    /\ rafQueue (page s')
       = rafQueue (page s)
         ++ repeat SyncFrame (length (List.filter (isSourceOf ha va) entries))
    /\ (forall n, Offset ha = AdjNumber n ->
                  hBarLeftOffset (config s') = hBarLeftOffset (config s))
    /\ (forall n, ReduceSize ha = AdjNumber n ->
                  hBarReduceWidth (config s') = hBarReduceWidth (config s))
    /\ (forall n, Offset va = AdjNumber n ->
                  vBarTopOffset (config s') = vBarTopOffset (config s))
    /\ (forall n, ReduceSize va = AdjNumber n ->
                  vBarReduceHeight (config s') = vBarReduceHeight (config s)).
Proof.
  revert s. induction entries as [|ref entries IH]; intros s Hh Hv Hd.
  - exists s. cbn. rewrite app_nil_r. repeat split; auto.
  - destruct (adjustmentEntry_effects d ref ha va s Hh Hv Hd)
      as (s1 & E & C & G & O & R).
    destruct (adjustmentRefresh_config d ref ha va s)
      as (Ch & Cv & C1 & C2 & C3 & C4).
    cbv zeta in *. rewrite <- C in Ch, Cv, C1, C2, C3, C4.
    destruct (IH s1) as (s' & E' & Hh' & Hv' & O' & R' & N1 & N2 & N3 & N4);
      [congruence | congruence | exact G |].
    exists s'. cbn [adjustmentCallback]. rewrite E.
    split; [exact E'|]. split; [exact Hh'|]. split; [exact Hv'|].
    split; [congruence|].
    split.
    { rewrite R', R. cbn [List.filter].
      destruct (isSourceOf ha va ref); cbn [length repeat];
        rewrite <- app_assoc; reflexivity. }
    repeat split; intros n Hn.
    + rewrite (N1 n Hn), C1, (isDOMOf_number ref _ n Hn). reflexivity.
    + rewrite (N2 n Hn), C2, (isDOMOf_number ref _ n Hn). reflexivity.
    + rewrite (N3 n Hn), C3, (isDOMOf_number ref _ n Hn). reflexivity.
    + rewrite (N4 n Hn), C4, (isDOMOf_number ref _ n Hn). reflexivity.
Qed.

Lemma adjustment_callback_delivery_witness :
  exists s',
    adjustmentCallback toolbarLayout [1%positive; 5%positive; 1%positive] withToolbar
    = Some s'
    /\ rafQueue (page s') = rafQueue (page withToolbar) ++ [SyncFrame; SyncFrame].
Proof.
  destruct (adjustment_callback_delivery toolbarLayout
              [1%positive; 5%positive; 1%positive]
              {| Offset := AdjComponent 1%positive; ReduceSize := AdjComponent 1%positive |}
              noAdjustment withToolbar eq_refl eq_refl eq_refl)
    as (s' & E & _ & _ & _ & R & _).
  exists s'. split; [exact E | exact R].
Defined.

(** X8.  The vertical adjustment is derived the same way when it is set
    and when its component resizes: after [verticalAdjustment] with a
    component for both values, a resize of that component in the same
    layout is observed, stores the top edge and the height again, and so
    leaves the stored offset and reduction as they were. *)
Theorem vertical_adjustment_resize_is_stable (d : Dom) (e : Elem)
    (ha : ScrollbarAdjustment) (s : State) :
  hAdjustment (config s) = Some ha ->
  let s0 := verticalAdjustment d (follow e) s in
  exists s',
    adjustmentResized d e s0 = Some s'
    /\ vBarTopOffset (config s0) = ofZ (offsetTop (elemBox d e))
    /\ vBarReduceHeight (config s0) = ofZ (offsetHeight (elemBox d e))
    /\ vBarTopOffset (config s') = vBarTopOffset (config s0)
    /\ vBarReduceHeight (config s') = vBarReduceHeight (config s0).
Proof.
  intros Hh. cbv zeta.
  destruct (vAdjustment_verticalAdjustment d (follow e) s) as (Hv' & Hh').
  rewrite Hh in Hh'. cbn [follow] in Hv'.
  destruct (verticalAdjustment_set_time d e e s) as (T & H). cbv zeta in T, H.
  fold (follow e) in T, H.
  assert (Hin : e ∈ adjustmentObserved (page (verticalAdjustment d (follow e) s))).
  { rewrite observed_verticalAdjustment. cbn [follow sources valueSource Offset
      ReduceSize]. set_solver. }
  unfold adjustmentResized. rewrite bool_decide_eq_true_2 by exact Hin.
  cbn [adjustmentCallback]. unfold adjustmentEntry. rewrite Hh', Hv'.
  destruct (adjustmentRefresh_config d e ha
              {| Offset := AdjComponent e; ReduceSize := AdjComponent e |}
              (verticalAdjustment d (follow e) s)) as (_ & _ & _ & _ & C3 & C4).
  cbv zeta in C3, C4. cbn [Offset ReduceSize isDOMOf] in C3, C4.
  rewrite bool_decide_eq_true_2 in C3, C4 by reflexivity.
  destruct (adjustmentRefresh d e ha _ _) as [s1 f]. cbn [fst] in C3, C4.
  eexists. split; [reflexivity|]. split; [exact T|]. split; [exact H|].
  destruct f; rewrite ?config_syncScrollBars, C3, C4, T, H; split; reflexivity.
Qed.

Lemma vertical_adjustment_resize_is_stable_witness :
  exists s',
    adjustmentResized toolbarLayout 3%positive
      (verticalAdjustment toolbarLayout (follow 3%positive) plain) = Some s'
    /\ vBarTopOffset (config s') = ofZ 20
    /\ vBarReduceHeight (config s') = ofZ 40.
Proof.
  destruct (vertical_adjustment_resize_is_stable toolbarLayout 3%positive
              noAdjustment plain eq_refl) as (s' & E & T & H & T' & H').
  exists s'. split; [exact E|]. rewrite T', H', T, H. split; reflexivity.
Defined.

(** ** The observers of the surface and the content *)

Lemma resizeEntries_existsb (t : Tree) (entries : list Elem) (s : State) :
  resizeEntries t entries s
  = if existsb (fun e => isSurface t e || isContentChild t e) entries
    then syncScrollBars false s else s.
Proof.
  induction entries as [|e rest IH]; cbn [resizeEntries existsb].
  - reflexivity.
  - destruct (isSurface t e || isContentChild t e); cbn [orb]; [reflexivity | exact IH].
Qed.

(** X9.  One delivery of the surface and content observer calls
    [syncScrollBars] at most once, however many entries it carries: once
    if an axis is enabled and some entry is for the surface or a child of
    the content, not at all otherwise.  Outside a drag that is at most one
    queued sync pass. *)
Theorem resize_delivery_syncs_once (t : Tree) (entries : list Elem) (s : State) :
  let watched := existsb (fun e => isSurface t e || isContentChild t e) entries in
  let enabled := _vertical (config s) || _horizontal (config s) in
  resizeCallback t entries s
  = (if enabled && watched then syncScrollBars false s else s)
  /\ (dragging (drag s) = false ->
      rafQueue (page (resizeCallback t entries s))
      = rafQueue (page s) ++ (if enabled && watched then [SyncFrame] else [])).
Proof.
  cbv zeta. unfold resizeCallback. rewrite resizeEntries_existsb.
  destruct (_vertical (config s) || _horizontal (config s)); cbn [andb].
  - split; [reflexivity|]. intros Hd.
    destruct (existsb _ entries); [|now rewrite app_nil_r].
    unfold syncScrollBars. now rewrite Hd.
  - split; [reflexivity|]. intros _. now rewrite app_nil_r.
Qed.

Lemma resize_delivery_syncs_once_witness :
  rafQueue (page (resizeCallback twoChildren [1%positive; 2%positive; 9%positive]
                    (runFrame wideContent plain)))
  = [SyncFrame].
Proof.
  rewrite (proj2 (resize_delivery_syncs_once twoChildren
                    [1%positive; 2%positive; 9%positive]
                    (runFrame wideContent plain)) eq_refl).
  reflexivity.
Defined.

Lemma fold_unobserveNode (l : list DomNode) (o : gset Elem) :
  fold_left (fun acc n => unobserveNode n acc) l o = o ∖ elementsOf l.
Proof.
  revert o. induction l as [|[e|] l IH]; intros o; cbn [fold_left elementsOf unobserveNode].
  - set_solver.
  - rewrite IH. set_solver.
  - apply IH.
Qed.

Lemma fold_observeNode (l : list DomNode) (o : gset Elem) :
  fold_left (fun acc n => observeNode n acc) l o = o ∪ elementsOf l.
Proof.
  revert o. induction l as [|[e|] l IH]; intros o; cbn [fold_left elementsOf observeNode].
  - set_solver.
  - rewrite IH. set_solver.
  - apply IH.
Qed.

(** X10.  The mutation callback keeps the observed set equal to the
    surface plus the element children of the content: if it was so before
    and the surface is not among the removed nodes of any record, it is so
    after, where each record takes the children to (children - removed
    elements) + added elements; nodes that are not elements change
    nothing, and an element removed and added by one record stays
    observed. *)
Theorem mutation_keeps_children_observed (surface : Elem)
    (records : list MutationRecord) (children : gset Elem) :
  Forall (fun r => surface ∉ elementsOf (removedNodes r)) records ->
  mutationCallback records ({[ surface ]} ∪ children)
  = {[ surface ]} ∪ fold_left (fun c r => childrenAfter r c) records children.
Proof.
  revert children. induction records as [|r records IH]; intros children Hs.
  - reflexivity.
  - inversion Hs as [|? ? Hr Hrest]; subst.
    cbn [mutationCallback fold_left]. fold (mutationCallback records).
    assert (E : mutationRecord r ({[ surface ]} ∪ children)
                = {[ surface ]} ∪ childrenAfter r children).
    { unfold mutationRecord, childrenAfter.
      rewrite fold_observeNode, fold_unobserveNode. set_solver. }
    rewrite E. now apply IH.
Qed.

Lemma mutation_keeps_children_observed_witness :
  mutationCallback
    [ {| removedNodes := [ElementNode 1%positive; OtherNode];
         addedNodes := [ElementNode 1%positive; ElementNode 3%positive] |};
      {| removedNodes := [ElementNode 2%positive]; addedNodes := [OtherNode] |} ]
    ({[ 9%positive ]} ∪ {[ 1%positive; 2%positive ]})
  = {[ 9%positive ]} ∪ (({[ 1%positive; 2%positive ]} ∖ {[ 1%positive ]}
                         ∪ ({[ 1%positive ]} ∪ {[ 3%positive ]})) ∖ {[ 2%positive ]}).
Proof.
  rewrite (mutation_keeps_children_observed 9%positive).
  - cbn [fold_left childrenAfter removedNodes addedNodes elementsOf]. set_solver.
  - repeat constructor; cbn [removedNodes elementsOf]; set_solver.
Defined.

(** ** The life of a drag *)

Lemma removeTimer_last (t : TimerTask) (l : list TimerTask) :
  t ∉ l -> removeTimer t (l ++ [t]) = l.
Proof.
  induction l as [|x l IH]; intros Hn; cbn [app removeTimer].
  - now rewrite decide_True.
  - rewrite decide_False by set_solver. rewrite IH by set_solver. reflexivity.
Qed.








Lemma removeTimer_keeps_last (t t' : TimerTask) (l : list TimerTask) :
  t' ∈ removeTimer t (l ++ [t; t']).
Proof.
  induction l as [|x l IH]; cbn [app removeTimer].
  - rewrite decide_True by reflexivity. set_solver.
  - destruct (decide (x = t)); set_solver.
Qed.

(** X12.  [onDragThumbPointerUp] schedules a cleanup for every pointer-up
    that arrives while the drag flag is set, and the cleanup does not check
    that a thumb is still held: after two pointer-up events during one drag
    two cleanups are pending; the first to fire ends the drag, and the
    second one throws, on [this.draggingThumb!] being [undefined].  Once
    the drag has ended a pointer-up schedules nothing. *)
Theorem second_cleanup_throws (d : Dom) (up1 up2 : PointerEvent) (t : Thumb) (s : State) :
  dragging (drag s) = true ->
  draggingThumb (drag s) = Some t ->
  let s2 := onDragThumbPointerUp up2 (onDragThumbPointerUp up1 s) in
  timers (page s2)
  = timers (page s) ++ [DragCleanup (pointerId up1); DragCleanup (pointerId up2)]
  /\ exists s3,
       fireTimer d (DragCleanup (pointerId up1)) s2 = Some s3
       /\ dragging (drag s3) = false
       /\ fireTimer d (DragCleanup (pointerId up2)) s3 = None
       /\ onDragThumbPointerUp up2 s3 = s3.
Proof.
  intros Hd Ht. cbv zeta.
  assert (E2 : onDragThumbPointerUp up2 (onDragThumbPointerUp up1 s)
               = setTimeout (DragCleanup (pointerId up2))
                   (setTimeout (DragCleanup (pointerId up1)) s)).
  { unfold onDragThumbPointerUp at 2. rewrite Hd. unfold onDragThumbPointerUp.
    change (dragging (drag (setTimeout (DragCleanup (pointerId up1)) s)))
      with (dragging (drag s)). now rewrite Hd. }
  rewrite E2.
  assert (Tm : timers (page (setTimeout (DragCleanup (pointerId up2))
                               (setTimeout (DragCleanup (pointerId up1)) s)))
               = timers (page s)
                 ++ [DragCleanup (pointerId up1); DragCleanup (pointerId up2)])
    by (cbn; now rewrite <- app_assoc).
  split; [exact Tm|].
  unfold fireTimer at 1. rewrite Tm.
  rewrite decide_True by set_solver.
  unfold dragCleanup at 1.
  change (draggingThumb (drag (with_timers _ _))) with (draggingThumb (drag s)).
  rewrite Ht. eexists. split; [reflexivity|]. split; [reflexivity|]. split.
  - unfold fireTimer.
    rewrite decide_True
      by (change (DragCleanup (pointerId up2)
                  ∈ removeTimer (DragCleanup (pointerId up1))
                      (timers (page s)
                       ++ [DragCleanup (pointerId up1); DragCleanup (pointerId up2)]));
          apply removeTimer_keeps_last).
    reflexivity.
  - reflexivity.
Qed.

Lemma second_cleanup_throws_witness :
  exists s3,
    fireTimer wideContent (DragCleanup 1)
      (onDragThumbPointerUp (pointerAt (OnThumb HBarThumb) 61 4 5 4)
         (onDragThumbPointerUp (pointerAt (OnThumb HBarThumb) 60 4 5 4) held))
    = Some s3
    /\ fireTimer wideContent (DragCleanup 1) s3 = None.
Proof.
  destruct (second_cleanup_throws wideContent
              (pointerAt (OnThumb HBarThumb) 60 4 5 4)
              (pointerAt (OnThumb HBarThumb) 61 4 5 4) HBarThumb held
              eq_refl eq_refl) as (_ & s3 & E & _ & N & _).
  exists s3. split; [exact E | exact N].
Defined.

(** ** The thumb under the pointer *)

Lemma max_Fin_spec (a b : Q) :
  exists m, Num.max (Fin a) (Fin b) = Fin m
            /\ (a <= m)%Q /\ (b <= m)%Q /\ ((m == a)%Q \/ (m == b)%Q).
Proof.
  unfold Num.max, Num.ltb.
  destruct (Qcompare_spec a b) as [H|H|H]; eexists; (split; [reflexivity|]);
    repeat split; try lra; (left; reflexivity) || (right; reflexivity).
Qed.

Lemma min_Fin_spec (a b : Q) :
  exists m, Num.min (Fin a) (Fin b) = Fin m
            /\ (m <= a)%Q /\ (m <= b)%Q /\ ((m == a)%Q \/ (m == b)%Q).
Proof.
  unfold Num.min, Num.ltb.
  destruct (Qcompare_spec b a) as [H|H|H]; eexists; (split; [reflexivity|]);
    repeat split; try lra; (left; reflexivity) || (right; reflexivity).
Qed.

(** [Math.min(Math.max(0, e), r)] for a range [r] that is not negative. *)
Lemma clamp_Fin (e r : Q) :
  (0 <= r)%Q ->
  exists l, Num.min (Num.max (ofZ 0) (Fin e)) (Fin r) = Fin l
            /\ (0 <= l)%Q /\ (l <= r)%Q
            /\ ((0 <= e)%Q -> (e <= r)%Q -> (l == e)%Q)
            /\ ((e <= 0)%Q -> (l == 0)%Q)
            /\ ((r <= e)%Q -> (l == r)%Q).
Proof.
  intros Hr. unfold Num.ofZ. change (inject_Z 0) with 0%Q.
  destruct (max_Fin_spec 0 e) as (m & Em & M1 & M2 & M3). rewrite Em.
  destruct (min_Fin_spec m r) as (l & El & L1 & L2 & L3). rewrite El.
  exists l. split; [reflexivity|].
  repeat split; intros; destruct M3, L3; lra.
Qed.

(** X13.  While a thumb is dragged, every pointer move writes the thumb's
    edge in pixels, clamped to its track: for a thumb no longer than its
    track (sizes as captured at pointer-down) the written edge lies between
    0 and track length - thumb length; it is the start edge plus the
    pointer delta when that lies in the range, 0 when it is below and the
    end of the range when it is above. *)
Theorem drag_keeps_thumb_on_track (d0 d : Dom) (down move : PointerEvent) (s0 s : State) :
  drag s = drag (onDragThumbPointerDown d0 down s0) ->
  let st' := styles (page (onDragThumbPointerMove d move s)) in
  (target down = OnThumb HBarThumb ->
   (0 <= offsetWidth (hBarThumb d0) <= offsetWidth (hBar d0))%Z ->
   let e := (inject_Z (offsetLeft (hBarThumb d0)) + (clientX move - clientX down))%Q in
   let r := (inject_Z (offsetWidth (hBar d0))
             - inject_Z (offsetWidth (hBarThumb d0)))%Q in
   exists l,
     hBarThumb_left st' = Px (Fin l)
     /\ (0 <= l)%Q /\ (l <= r)%Q
     /\ ((0 <= e)%Q -> (e <= r)%Q -> (l == e)%Q)
     /\ ((e <= 0)%Q -> (l == 0)%Q)
     /\ ((r <= e)%Q -> (l == r)%Q))
  /\ (target down = OnThumb VBarThumb ->
      (0 <= offsetHeight (vBarThumb d0) <= offsetHeight (vBar d0))%Z ->
      let e := (inject_Z (offsetTop (vBarThumb d0)) + (clientY move - clientY down))%Q in
      let r := (inject_Z (offsetHeight (vBar d0))
                - inject_Z (offsetHeight (vBarThumb d0)))%Q in
      exists l,
        vBarThumb_top st' = Px (Fin l)
        /\ (0 <= l)%Q /\ (l <= r)%Q
        /\ ((0 <= e)%Q -> (e <= r)%Q -> (l == e)%Q)
        /\ ((e <= 0)%Q -> (l == 0)%Q)
        /\ ((r <= e)%Q -> (l == r)%Q)).
Proof.
  intros Hs. cbv zeta. split; intros Ht [Hw0 Hw].
  - rewrite Zle_Qle in Hw0, Hw. change (inject_Z 0) with 0%Q in Hw0.
    destruct (clamp_Fin
                (inject_Z (offsetLeft (hBarThumb d0)) + (clientX move - clientX down))
                (inject_Z (offsetWidth (hBar d0))
                 - inject_Z (offsetWidth (hBarThumb d0))))
      as (l & El & Hl); [lra|].
    exists l. split; [|exact Hl]. rewrite <- El.
    unfold onDragThumbPointerMove. rewrite Hs.
    unfold onDragThumbPointerDown. rewrite Ht.
    cbn [drag addClass call with_classList with_domCalls with_page with_drag
         draggingThumb dragStart draggingThumbRect draggingBarRect thumbBox
         parentBox].
    unfold rect_left. cbn [rect_x rect_width pt_x].
    change (Num.min (ofZ (offsetLeft (hBarThumb d0)))
                    (Num.add (ofZ (offsetLeft (hBarThumb d0)))
                             (ofZ (offsetWidth (hBarThumb d0)))))
      with (Num.min (Fin (inject_Z (offsetLeft (hBarThumb d0))))
                    (Fin (inject_Z (offsetLeft (hBarThumb d0))
                          + inject_Z (offsetWidth (hBarThumb d0))))).
    rewrite min_Fin by lra. reflexivity.
  - rewrite Zle_Qle in Hw0, Hw. change (inject_Z 0) with 0%Q in Hw0.
    destruct (clamp_Fin
                (inject_Z (offsetTop (vBarThumb d0)) + (clientY move - clientY down))
                (inject_Z (offsetHeight (vBar d0))
                 - inject_Z (offsetHeight (vBarThumb d0))))
      as (l & El & Hl); [lra|].
    exists l. split; [|exact Hl]. rewrite <- El.
    unfold onDragThumbPointerMove. rewrite Hs.
    unfold onDragThumbPointerDown. rewrite Ht.
    cbn [drag addClass call with_classList with_domCalls with_page with_drag
         draggingThumb dragStart draggingThumbRect draggingBarRect thumbBox
         parentBox].
    unfold rect_top. cbn [rect_y rect_height pt_y].
    change (Num.min (ofZ (offsetTop (vBarThumb d0)))
                    (Num.add (ofZ (offsetTop (vBarThumb d0)))
                             (ofZ (offsetHeight (vBarThumb d0)))))
      with (Num.min (Fin (inject_Z (offsetTop (vBarThumb d0))))
                    (Fin (inject_Z (offsetTop (vBarThumb d0))
                          + inject_Z (offsetHeight (vBarThumb d0))))).
    rewrite min_Fin by lra. reflexivity.
Qed.

Lemma drag_keeps_thumb_on_track_witness :
  exists l,
    hBarThumb_left
      (styles (page (onDragThumbPointerMove wideContent
                       (pointerAt (OnThumb HBarThumb) 300 4 5 4) held)))
    = Px (Fin l)
    /\ (l == 100 - 25)%Q.
Proof.
  destruct (proj1 (drag_keeps_thumb_on_track wideContent wideContent
                     (pointerAt (OnThumb HBarThumb) 40 4 2 4)
                     (pointerAt (OnThumb HBarThumb) 300 4 5 4)
                     (runFrame wideContent plain) held eq_refl) eq_refl)
    as (l & El & _ & _ & _ & _ & Hmax).
  - simpl. lia.
  - exists l. split; [exact El|]. apply Hmax. vm_compute. discriminate.
Defined.

(** ** The loop of a held press, frame by frame *)

(** [rafScroll] in terms of its stop test and its step. *)
Lemma rafScroll_cases (d : Dom) (s : State) :
  rafScroll d s
  = if pressStops d s then removeClass "scrolling" s
    else requestAnimationFrame RafScroll (call (pressStep s) s).
Proof.
  unfold rafScroll, pressStops, pressStep.
  destruct (isPointerDown (press s)); cbn [negb orb]; [|reflexivity].
  destruct (contScrollHorizontal (press s));
    match goal with |- context [rectContains ?r ?p] => destruct (rectContains r p) end;
    reflexivity.
Qed.

(** Frames with nothing queued change neither the calls, nor the queue,
    nor the press. *)
Lemma frames_idle (ds : list Dom) (s : State) :
  rafQueue (page s) = [] ->
  domCalls (page (frames ds s)) = domCalls (page s)
  /\ rafQueue (page (frames ds s)) = []
  /\ press (frames ds s) = press s.
Proof.
  revert s. induction ds as [|d ds IH]; intros s Hq; [auto|].
  cbn [frames fold_left]. fold (frames ds (runFrame d s)).
  rewrite (runFrame_empty d s Hq).
  destruct (IH (with_rafQueue [] s) eq_refl) as (A & B & C). auto.
Qed.

(** The loop from a state whose only queued callback is [rafScroll]. *)
Lemma frames_press_loop (ds : list Dom) (s : State) :
  rafQueue (page s) = [RafScroll] ->
  domCalls (page (frames ds s))
  = domCalls (page s) ++ repeat (pressStep s) (stepsTaken ds s)
  /\ rafQueue (page (frames ds s))
     = (if Nat.eqb (stepsTaken ds s) (length ds) then [RafScroll] else [])
  /\ press (frames ds s) = press s.
Proof.
  revert s. induction ds as [|d ds IH]; intros s Hq.
  - cbn. rewrite app_nil_r. auto.
  - cbn [frames fold_left stepsTaken length]. fold (frames ds (runFrame d s)).
    assert (Er : runFrame d s = rafScroll d (with_rafQueue [] s))
      by (unfold runFrame; rewrite Hq; reflexivity).
    rewrite Er, rafScroll_cases.
    change (pressStops d (with_rafQueue [] s)) with (pressStops d s).
    change (pressStep (with_rafQueue [] s)) with (pressStep s).
    destruct (pressStops d s).
    + destruct (frames_idle ds (removeClass "scrolling" (with_rafQueue [] s)) eq_refl)
        as (A & B & C).
      rewrite A, B, C. cbn [repeat Nat.eqb]. rewrite app_nil_r. auto.
    + set (t := requestAnimationFrame RafScroll (call (pressStep s) (with_rafQueue [] s))).
      destruct (IH t eq_refl) as (A & B & C).
      assert (Est : stepsTaken ds t = stepsTaken ds s).
      { clear. induction ds as [|d' ds IH]; [reflexivity|].
        cbn [stepsTaken]. change (pressStops d' t) with (pressStops d' s).
        now rewrite IH. }
      rewrite A, B, C, Est. change (pressStep t) with (pressStep s).
      cbn [repeat Nat.eqb]. split; [|auto].
      change (domCalls (page t)) with (domCalls (page s) ++ [pressStep s]).
      rewrite <- app_assoc. reflexivity.
Qed.

(** X14.  The loop of a held press, seen over the frames that follow its
    first step: [rafScroll] scrolls by the same step (a tenth of the page
    length, in the recorded direction, along the pressed axis) in every
    frame up to the first layout in which the pointer is up or the
    rectangle it builds for the thumb contains the press point; in that
    frame it stops, and no later frame scrolls or requests a frame, even
    if a later layout would not stop it. *)
Theorem press_loop_runs_until_it_stops (d0 : Dom) (ds : list Dom) (s : State) :
  rafQueue (page s) = [] ->
  let s' := frames ds (rafScroll d0 s) in
  domCalls (page s')
  = domCalls (page s) ++ repeat (pressStep s) (stepsTaken (d0 :: ds) s)
  /\ rafQueue (page s')
     = (if Nat.eqb (stepsTaken (d0 :: ds) s) (length (d0 :: ds))
        then [RafScroll] else [])
  /\ press s' = press s.
Proof.
  intros Hq. cbv zeta. rewrite rafScroll_cases. cbn [stepsTaken length].
  destruct (pressStops d0 s).
  - destruct (frames_idle ds (removeClass "scrolling" s) Hq) as (A & B & C).
    rewrite A, B, C. cbn [repeat Nat.eqb]. rewrite app_nil_r. auto.
  - set (t := requestAnimationFrame RafScroll (call (pressStep s) s)).
    assert (Hqt : rafQueue (page t) = [RafScroll])
      by (subst t; cbn; now rewrite Hq).
    destruct (frames_press_loop ds t Hqt) as (A & B & C).
    assert (Est : stepsTaken ds t = stepsTaken ds s).
    { clear. induction ds as [|d' ds IH]; [reflexivity|].
      cbn [stepsTaken]. change (pressStops d' t) with (pressStops d' s).
      now rewrite IH. }
    rewrite A, B, C, Est. change (pressStep t) with (pressStep s).
    cbn [repeat Nat.eqb]. split; [|auto].
    change (domCalls (page t)) with (domCalls (page s) ++ [pressStep s]).
    rewrite <- app_assoc. reflexivity.
Qed.

Lemma press_loop_runs_until_it_stops_witness :
  domCalls (page (frames [scrolledTo 140 35; scrolledTo 80 20; scrolledTo 140 35]
                    (rafScroll wideContent heldBehindThumb)))
  = [pressStep heldBehindThumb; pressStep heldBehindThumb].
Proof.
  rewrite (proj1 (press_loop_runs_until_it_stops wideContent
                    [scrolledTo 140 35; scrolledTo 80 20; scrolledTo 140 35]
                    heldBehindThumb ltac:(vm_compute; reflexivity))).
  vm_compute. reflexivity.
Defined.

Lemma frames_idle_eq (ds : list Dom) (s : State) :
  rafQueue (page s) = [] -> frames ds s = s.
Proof.
  intros Hq. induction ds as [|d ds IH]; [reflexivity|].
  cbn [frames fold_left]. fold (frames ds (runFrame d s)).
  rewrite (runFrame_empty d s Hq), <- Hq, with_rafQueue_id. exact IH.
Qed.

(** X15.  Pointer-up cancels the loop: when [rafScroll] is the only queued
    callback and the pointer is released, the next frame runs it once
    more, but it scrolls nothing, requests no further frame and removes
    the class [scrolling]; all later frames change nothing. *)
Theorem pointer_up_cancels_press_loop (d : Dom) (ds : list Dom) (s : State) :
  rafQueue (page s) = [RafScroll] ->
  frames (d :: ds) (onScrollBarPointerUp s)
  = removeClass "scrolling" (with_rafQueue [] (onScrollBarPointerUp s)).
Proof.
  intros Hq. cbn [frames fold_left].
  fold (frames ds (runFrame d (onScrollBarPointerUp s))).
  assert (Er : runFrame d (onScrollBarPointerUp s)
               = rafScroll d (with_rafQueue [] (onScrollBarPointerUp s))).
  { unfold runFrame.
    change (rafQueue (page (onScrollBarPointerUp s))) with (rafQueue (page s)).
    rewrite Hq. reflexivity. }
  rewrite Er, rafScroll_released by reflexivity.
  now apply frames_idle_eq.
Qed.

Lemma pointer_up_cancels_press_loop_witness :
  domCalls (page (frames [scrolledTo 140 35; scrolledTo 130 33]
                    (onScrollBarPointerUp (rafScroll wideContent heldBehindThumb))))
  = [pressStep heldBehindThumb].
Proof.
  rewrite (pointer_up_cancels_press_loop (scrolledTo 140 35) [scrolledTo 130 33]
             (rafScroll wideContent heldBehindThumb)
             ltac:(vm_compute; reflexivity)).
  vm_compute. reflexivity.
Defined.

(** ** The rectangle the loop tests *)

Lemma geb_min_Z (x : Q) (a b : Z) :
  Num.geb (Fin x) (Num.min (ofZ a) (ofZ b)) = true
  <-> (inject_Z (Z.min a b) <= x)%Q.
Proof.
  unfold Num.geb, Num.ofZ.
  destruct (min_Fin_spec (inject_Z a) (inject_Z b)) as (m & Em & M1 & M2 & M3).
  rewrite Em, leb_Fin.
  destruct (Z.min_spec a b) as [[H E]|[H E]]; rewrite E;
    [apply Z.lt_le_incl in H|]; rewrite Zle_Qle in H; destruct M3; split; lra.
Qed.

Lemma leb_max_Z (x : Q) (a b : Z) :
  Num.leb (Fin x) (Num.max (ofZ a) (ofZ b)) = true
  <-> (x <= inject_Z (Z.max a b))%Q.
Proof.
  unfold Num.ofZ.
  destruct (max_Fin_spec (inject_Z a) (inject_Z b)) as (m & Em & M1 & M2 & M3).
  rewrite Em, leb_Fin.
  destruct (Z.max_spec a b) as [[H E]|[H E]]; rewrite E;
    [apply Z.lt_le_incl in H|]; rewrite Zle_Qle in H; destruct M3; split; lra.
Qed.

(** The rectangle built for a thumb, as a region of the track: the box of
    the thumb with its width and height replaced by its right and bottom
    edge. *)
Lemma rectContains_thumbRectOf (b : Box) (x y : Q) :
  rectContains (thumbRectOf b) {| pt_x := Fin x; pt_y := Fin y |} = true
  <-> (inject_Z (Z.min (offsetLeft b) (offsetLeft b + (offsetLeft b + offsetWidth b))) <= x
       /\ x <= inject_Z (Z.max (offsetLeft b) (offsetLeft b + (offsetLeft b + offsetWidth b)))
       /\ inject_Z (Z.min (offsetTop b) (offsetTop b + (offsetTop b + offsetHeight b))) <= y
       /\ y <= inject_Z (Z.max (offsetTop b) (offsetTop b + (offsetTop b + offsetHeight b))))%Q.
Proof.
  unfold rectContains, rect_left, rect_right, rect_top, rect_bottom, thumbRectOf.
  cbn [rect_x rect_y rect_width rect_height pt_x pt_y].
  assert (Eadd : forall a c d : Z,
             Num.add (ofZ a) (Num.add (ofZ c) (ofZ d)) = ofZ (a + (c + d))).
  { intros a c d. unfold Num.ofZ. cbn [Num.add]. now rewrite !inject_Z_plus. }
  rewrite !Eadd, !andb_true_iff, !geb_min_Z, !leb_max_Z. tauto.
Qed.

(** X16.  Where a held press stops scrolling.  While the pointer is down,
    a step of the loop scrolls nothing and requests no further frame
    exactly when the press point lies, edges included, between the left
    edge of the thumb of the pressed track and twice that edge plus the
    thumb's width, and between its top edge and twice that edge plus its
    height: the thumb's box stretched by its own offset, not the thumb's
    box. *)
Theorem press_loop_stopping_region (d : Dom) (s : State) (x y : Q) :
  contScrollStartPos (press s) = {| pt_x := Fin x; pt_y := Fin y |} ->
  isPointerDown (press s) = true ->
  let b := if contScrollHorizontal (press s) then hBarThumb d else vBarThumb d in
  let l := offsetLeft b in
  let t := offsetTop b in
  rafScroll d s = removeClass "scrolling" s
  <-> (inject_Z (Z.min l (l + (l + offsetWidth b))) <= x
       /\ x <= inject_Z (Z.max l (l + (l + offsetWidth b)))
       /\ inject_Z (Z.min t (t + (t + offsetHeight b))) <= y
       /\ y <= inject_Z (Z.max t (t + (t + offsetHeight b))))%Q.
Proof.
  intros Hp Hd b l t. subst l t.
  rewrite <- (rectContains_thumbRectOf b x y), <- Hp. subst b.
  split.
  - intros E. rewrite rafScroll_cases in E. unfold pressStops in E.
    rewrite Hd in E. cbn [negb orb] in E.
    match type of E with
    | (if ?c then _ else _) = _ => destruct c; [reflexivity|]
    end.
    apply (f_equal (fun u => length (rafQueue (page u)))) in E.
    cbn in E. rewrite length_app in E. cbn in E. lia.
  - apply rafScroll_contained.
Qed.

Lemma press_loop_stopping_region_witness :
  rafScroll wideContent heldBeyondThumb = removeClass "scrolling" heldBeyondThumb.
Proof.
  apply (proj2 (press_loop_stopping_region wideContent heldBeyondThumb
                  (inject_Z 90) (inject_Z 4) eq_refl eq_refl)).
  vm_compute. repeat split; discriminate.
Defined.

(** ** Scroll events and the end of scrolling *)

(** One scroll event: both listeners, [syncScrollBars] and [onScrollEnd],
    in the order they were added. *)
Lemma scrollEvent_effects (d : Dom) (s : State) :
  let s' := scrollEvent d s in
  drag s' = drag s
  /\ domCalls (page s') = domCalls (page s)
  /\ classList (page s') = {[ "scrolling" ]} ∪ classList (page s)
  /\ rafQueue (page s')
     = (if dragging (drag s) then rafQueue (page s) else rafQueue (page s) ++ [SyncFrame])
  /\ timers (page s')
     = filter (fun t => negb (isScrollEndCheck t)) (timers (page s)) ++ [ScrollEndCheck]
  /\ press s'
     = {| contScrollStartPos := contScrollStartPos (press s);
          contScrollHorizontal := contScrollHorizontal (press s);
          contScrollBackwards := contScrollBackwards (press s);
          scrollPageLength := scrollPageLength (press s);
          isPointerDown := isPointerDown (press s);
          lastScrollPos := {| pt_x := Fin (scrollLeft d); pt_y := Fin (scrollTop d) |} |}.
Proof.
  cbv zeta. unfold scrollEvent, onScrollEnd, syncScrollBars.
  change (dragging (drag (addClass "scrolling" s))) with (dragging (drag s)).
  destruct (dragging (drag s)); repeat split; reflexivity.
Qed.

Lemma filter_checks_idem (l : list TimerTask) :
  filter (fun t => negb (isScrollEndCheck t))
    (filter (fun t => negb (isScrollEndCheck t)) l ++ [ScrollEndCheck])
  = filter (fun t => negb (isScrollEndCheck t)) l.
Proof.
  rewrite filter_app, list_filter_filter.
  rewrite app_nil_r. apply list_filter_iff. intros x. tauto.
Qed.

(** Any number of scroll events in a row. *)
Lemma scrollEvents_effects (ds : list Dom) (d : Dom) (s : State) :
  let s' := scrollEvents (ds ++ [d]) s in
  timers (page s')
  = filter (fun t => negb (isScrollEndCheck t)) (timers (page s)) ++ [ScrollEndCheck]
  /\ press s'
     = {| contScrollStartPos := contScrollStartPos (press s);
          contScrollHorizontal := contScrollHorizontal (press s);
          contScrollBackwards := contScrollBackwards (press s);
          scrollPageLength := scrollPageLength (press s);
          isPointerDown := isPointerDown (press s);
          lastScrollPos := {| pt_x := Fin (scrollLeft d); pt_y := Fin (scrollTop d) |} |}
  /\ classList (page s') = {[ "scrolling" ]} ∪ classList (page s)
  /\ domCalls (page s') = domCalls (page s)
  /\ rafQueue (page s')
     = rafQueue (page s)
       ++ (if dragging (drag s) then [] else repeat SyncFrame (S (length ds))).
Proof.
  cbv zeta. revert s. induction ds as [|d0 ds IH]; intros s.
  - cbn [app scrollEvents fold_left length repeat].
    destruct (scrollEvent_effects d s) as (_ & B & C & D & E & F).
    rewrite B, C, D, E, F.
    destruct (dragging (drag s)); rewrite ?app_nil_r; repeat split; reflexivity.
  - cbn [app scrollEvents fold_left length].
    fold (scrollEvents (ds ++ [d]) (scrollEvent d0 s)).
    destruct (IH (scrollEvent d0 s)) as (A' & B' & C' & D' & E').
    destruct (scrollEvent_effects d0 s) as (A & B & C & D & E & F).
    rewrite A', B', C', D', E', A, B, C, D, E, F, filter_checks_idem.
    cbn [contScrollStartPos contScrollHorizontal contScrollBackwards
         scrollPageLength isPointerDown].
    repeat split; [set_solver|].
    destruct (dragging (drag s)); [reflexivity|].
    rewrite <- app_assoc. reflexivity.
Qed.

(** X17.  Scroll events are debounced: after any number of scroll events
    in a row exactly one check for the end of scrolling is pending, behind
    the timers of other kinds, which are kept; the position remembered is
    the one at the last event; the class [scrolling] is set; nothing is
    scrolled; and outside a drag every event has requested one frame for a
    sync pass, while during a drag none has. *)
Theorem scroll_events_leave_one_check (ds : list Dom) (d : Dom) (s : State) :
  let s' := scrollEvents (ds ++ [d]) s in
  timers (page s')
  = filter (fun t => negb (isScrollEndCheck t)) (timers (page s)) ++ [ScrollEndCheck]
  /\ lastScrollPos (press s') = {| pt_x := Fin (scrollLeft d); pt_y := Fin (scrollTop d) |}
  /\ classList (page s') = {[ "scrolling" ]} ∪ classList (page s)
  /\ domCalls (page s') = domCalls (page s)
  /\ rafQueue (page s')
     = rafQueue (page s)
       ++ (if dragging (drag s) then [] else repeat SyncFrame (S (length ds)))
  /\ isPointerDown (press s') = isPointerDown (press s).
Proof.
  destruct (scrollEvents_effects ds d s) as (A & B & C & D & E).
  cbv zeta in *. rewrite A, B, C, D, E. repeat split; reflexivity.
Qed.

Lemma removeTimer_check (l : list TimerTask) :
  removeTimer ScrollEndCheck
    (filter (fun t => negb (isScrollEndCheck t)) l ++ [ScrollEndCheck])
  = filter (fun t => negb (isScrollEndCheck t)) l.
Proof.
  apply removeTimer_last. intros H. apply list_elem_of_filter in H.
  now destruct H.
Qed.

(** X18.  With no track pressed, scrolling always ends: when the check
    scheduled by the last of a row of scroll events fires, it removes the
    class [scrolling], whatever the scroll position then is (moved or
    not), scrolls nothing, requests no frame, and no check is left
    pending. *)
Theorem scroll_end_without_press (ds : list Dom) (d d' : Dom) (s : State) :
  isPointerDown (press s) = false ->
  exists s',
    fireTimer d' ScrollEndCheck (scrollEvents (ds ++ [d]) s) = Some s'
    /\ classList (page s') = classList (page s) ∖ {[ "scrolling" ]}
    /\ domCalls (page s') = domCalls (page s)
    /\ rafQueue (page s') = rafQueue (page (scrollEvents (ds ++ [d]) s))
    /\ timers (page s') = filter (fun t => negb (isScrollEndCheck t)) (timers (page s)).
Proof.
  intros Hp.
  destruct (scrollEvents_effects ds d s) as (A & F & C & D & _).
  cbv zeta in A, C, D, F. set (e := scrollEvents (ds ++ [d]) s) in *.
  unfold fireTimer. rewrite decide_True by (rewrite A; set_solver).
  rewrite A, removeTimer_check. eexists. split; [reflexivity|].
  set (e1 := with_timers _ e).
  assert (Er : scrollEndCheck d' e1 = removeClass "scrolling" e1).
  { unfold scrollEndCheck.
    match goal with |- (if ?b then _ else _) = _ => destruct b end; [reflexivity|].
    apply rafScroll_released. change (press e1) with (press e). rewrite F. exact Hp. }
  rewrite Er.
  change (classList (page (removeClass "scrolling" e1)))
    with (classList (page e) ∖ {[ "scrolling" ]}).
  rewrite C. repeat split; [set_solver | exact D].
Qed.

Lemma scroll_end_without_press_witness :
  exists s',
    fireTimer (scrolledTo 140 35) ScrollEndCheck
      (scrollEvents ([wideContent; scrolledTo 140 35] ++ [scrolledTo 130 33])
         (runFrame wideContent plain)) = Some s'
    /\ classList (page s') = classList (page (runFrame wideContent plain)) ∖ {[ "scrolling" ]}.
Proof.
  destruct (scroll_end_without_press [wideContent; scrolledTo 140 35]
              (scrolledTo 130 33) (scrolledTo 140 35)
              (runFrame wideContent plain) eq_refl)
    as (s' & A & B & _).
  exists s'. split; [exact A | exact B].
Defined.

(** ** The direction of a track press *)

Lemma leb_ltb_apart (a b : Q) :
  ~ (a == b)%Q -> Num.leb (Fin a) (Fin b) = Num.ltb (Fin a) (Fin b).
Proof.
  intros H. unfold Num.leb, Num.eqb.
  destruct (Qeq_bool a b) eqn:E; [|apply orb_false_r].
  apply Qeq_bool_iff in E. contradiction.
Qed.

(** X19.  A press on a track anywhere but exactly on the leading edge of
    its thumb scrolls and records consistently: the one smooth scroll it
    issues, along the axis of the track, is by the page length it records,
    backward exactly when the direction it records for the loop is
    backward; the pointer counts as held and the default action is
    prevented. *)
Theorem track_press_direction_off_edge (d : Dom) (event : PointerEvent) (s : State) :
  (target event = OnHBar /\ ~ (offsetX event == inject_Z (offsetLeft (hBarThumb d)))%Q)
  \/ (target event = OnVBar /\ ~ (offsetY event == inject_Z (offsetTop (vBarThumb d)))%Q) ->
  let s' := onScrollBarPointerDown d event s in
  let signed :=
    if contScrollBackwards (press s')
    then Num.neg (scrollPageLength (press s')) else scrollPageLength (press s') in
  domCalls (page s')
  = domCalls (page s)
    ++ [PreventDefault;
        if contScrollHorizontal (press s')
        then ScrollBy (Some signed) None Smooth
        else ScrollBy None (Some signed) Smooth]
  /\ isPointerDown (press s') = true
  /\ contScrollHorizontal (press s')
     = match target event with OnHBar => true | _ => false end.
Proof.
  intros [[Ht Hx]|[Ht Hy]]; cbv zeta; unfold onScrollBarPointerDown; rewrite Ht;
    cbn [press with_press call contScrollBackwards scrollPageLength
         contScrollHorizontal isPointerDown page domCalls with_domCalls];
    unfold Num.ofZ; rewrite leb_ltb_apart by assumption;
    match goal with |- context [Num.ltb ?a ?b] => destruct (Num.ltb a b) end;
    (split; [cbn; now rewrite <- app_assoc | split; reflexivity]).
Qed.

Lemma track_press_direction_off_edge_witness :
  domCalls (page (onScrollBarPointerDown wideContent (pointerAt OnHBar 20 5 20 4)
                    (runFrame wideContent plain)))
  = [PreventDefault; ScrollBy (Some (Fin (- (400 * 25 / 100)))) None Smooth].
Proof.
  assert (H : (target (pointerAt OnHBar 20 5 20 4) = OnHBar
               /\ ~ (offsetX (pointerAt OnHBar 20 5 20 4)
                     == inject_Z (offsetLeft (hBarThumb wideContent)))%Q)
              \/ (target (pointerAt OnHBar 20 5 20 4) = OnVBar
                  /\ ~ (offsetY (pointerAt OnHBar 20 5 20 4)
                        == inject_Z (offsetTop (vBarThumb wideContent)))%Q))
    by (left; split; [reflexivity | intros E; vm_compute in E; discriminate]).
  rewrite (proj1 (track_press_direction_off_edge wideContent
                    (pointerAt OnHBar 20 5 20 4) (runFrame wideContent plain) H)).
  vm_compute. reflexivity.
Defined.

(** ** From a press to the loop *)

(** X20.  How the loop of a held press starts.  When the check scheduled
    by the last of a row of scroll events fires with the pointer still
    down on a track, the scroll position where that event left it, and
    the press point outside the rectangle tested for the thumb, it takes
    the first step of the loop: one scroll by a tenth of the page length
    and a request for the next frame, with the class [scrolling] left in
    place and no check pending. *)
Theorem held_press_starts_loop (ds : list Dom) (d d' : Dom) (s : State) :
  (scrollLeft d' == scrollLeft d)%Q ->
  (scrollTop d' == scrollTop d)%Q ->
  pressStops d' s = false ->
  exists s',
    fireTimer d' ScrollEndCheck (scrollEvents (ds ++ [d]) s) = Some s'
    /\ domCalls (page s') = domCalls (page s) ++ [pressStep s]
    /\ rafQueue (page s') = rafQueue (page (scrollEvents (ds ++ [d]) s)) ++ [RafScroll]
    /\ classList (page s') = {[ "scrolling" ]} ∪ classList (page s)
    /\ timers (page s') = filter (fun t => negb (isScrollEndCheck t)) (timers (page s)).
Proof.
  intros Hx Hy Hs.
  destruct (scrollEvents_effects ds d s) as (A & F & C & D & _).
  cbv zeta in A, C, D, F. set (e := scrollEvents (ds ++ [d]) s) in *.
  unfold fireTimer. rewrite decide_True by (rewrite A; set_solver).
  rewrite A, removeTimer_check. eexists. split; [reflexivity|].
  set (e1 := with_timers _ e).
  assert (Ep : press e1 = press e) by reflexivity.
  assert (Er : scrollEndCheck d' e1
               = requestAnimationFrame RafScroll (call (pressStep s) e1)).
  { unfold scrollEndCheck. rewrite Ep, F.
    cbn [lastScrollPos pt_x pt_y Num.eqb].
    apply Qeq_sym, Qeq_bool_iff in Hx. apply Qeq_sym, Qeq_bool_iff in Hy.
    rewrite Hx, Hy. cbn [negb orb].
    rewrite rafScroll_cases.
    assert (E1 : pressStops d' e1 = pressStops d' s)
      by (unfold pressStops; rewrite Ep, F; reflexivity).
    assert (E2 : pressStep e1 = pressStep s)
      by (unfold pressStep; rewrite Ep, F; reflexivity).
    rewrite E1, E2, Hs. reflexivity. }
  rewrite Er.
  change (domCalls (page (requestAnimationFrame RafScroll (call (pressStep s) e1))))
    with (domCalls (page e) ++ [pressStep s]).
  change (classList (page (requestAnimationFrame RafScroll (call (pressStep s) e1))))
    with (classList (page e)).
  rewrite C, D. repeat split; reflexivity.
Qed.

Lemma held_press_starts_loop_witness :
  exists s',
    fireTimer (scrolledTo 140 35) ScrollEndCheck
      (scrollEvents ([wideContent] ++ [scrolledTo 140 35]) heldBehindThumb) = Some s'
    /\ domCalls (page s') = domCalls (page heldBehindThumb) ++ [pressStep heldBehindThumb].
Proof.
  assert (H1 : (scrollLeft (scrolledTo 140 35) == scrollLeft (scrolledTo 140 35))%Q)
    by reflexivity.
  assert (H2 : (scrollTop (scrolledTo 140 35) == scrollTop (scrolledTo 140 35))%Q)
    by reflexivity.
  destruct (held_press_starts_loop [wideContent] (scrolledTo 140 35) (scrolledTo 140 35)
              heldBehindThumb H1 H2 ltac:(vm_compute; reflexivity))
    as (s' & A & B & _).
  exists s'. split; [exact A | exact B].
Defined.
